(** * ECB reference rates: history merge and PLN cross rates

    A shallow embedding of the table operations of [main.py] and
    [backfill_90d.py]:

    - [upsert_daily_row]         (main.py, insert-if-absent of the daily row),
    - [upsert_90d_into_history]  (backfill_90d.py, update + insert of 90 days),
    - [compute_pln_rates]        (both files, same body up to the message text),
    - [make_dashboard]           (main.py, the traces of the chart),
    - [load_history], [save_history] and the two [main]s, as the sequence of
      files a run writes,
    - [fetch_ecb_daily_xml], [fetch_ecb_90d_xml], from the parsed tree on.

    The code works on pandas data frames.  A frame is embedded as the ordered
    list of its value columns plus the list of its rows; the [date] column is
    the key of a row and is kept apart from the value columns.  Cells are
    binary64 floats with pandas' convention that NaN is the missing value. *)

From Stdlib Require Import ZArith Ascii String List Lia.
From Stdlib Require Import Floats.SpecFloat.
From stdpp Require Import gmap strings list fin_maps sorting.

Open Scope string_scope.
Open Scope Z_scope.
Open Scope list_scope.

Set Warnings "-clear-no-such-hyp,-register-all".

(** ** Cells: IEEE 754 binary64, as Python's [float] and numpy's [float64] *)

Module Float64.

Definition prec : Z := 53.
Definition emax : Z := 1024.

Abbreviation float := spec_float.

Definition nan : float := S754_nan.

(** [pd.isna] / [pd.notna] on a float cell. *)
Definition isna (x : float) : bool :=
  match x with S754_nan => true | _ => false end.
Definition notna (x : float) : bool := negb (isna x).

(** [x / y] on float64 series: numpy division, no exception on zero. *)
Definition div (x y : float) : float := SFdiv prec emax x y.

Definition is_zero (x : float) : bool :=
  match x with S754_zero _ => true | _ => false end.
Definition is_infinity (x : float) : bool :=
  match x with S754_infinity _ => true | _ => false end.

(** A non-negative integer that fits the mantissa, as a float. *)
Definition of_pos (p : positive) : float := S754_finite false p 0.

End Float64.

Import Float64.

(** ** Frames *)

Record Row := { date : Z; cells : gmap string float }.

Record DataFrame := { columns : list string; rows : list Row }.

(** [df["date"]] *)
Definition dates (df : DataFrame) : list Z := date <$> rows df.

(** [row[c]] for a column of the frame the row lives in. *)
Definition cell (r : Row) (c : string) : float := default nan (cells r !! c).

(** A frame is rectangular: every row has exactly the frame's columns. *)
Definition rectangular (df : DataFrame) : Prop :=
  Forall (λ r, dom (cells r) = list_to_set (columns df)) (rows df).

(** First row carrying a given date. *)
Fixpoint find_row (d : Z) (l : list Row) : option Row :=
  match l with
  | [] => None
  | r :: l => if decide (date r = d) then Some r else find_row d l
  end.

Definition row_at (d : Z) (df : DataFrame) : option Row := find_row d (rows df).

(** Exceptions the embedded functions can raise. *)
Inductive exn :=
| ValueError   (* raise ValueError(...) in compute_pln_rates; reindex on duplicate labels *)
| KeyError     (* today_row[history.columns] with a column today_row lacks *)
| TypeError.   (* float column divided by the datetime column *)

Inductive result (A : Type) :=
| Ok (a : A)
| Raise (e : exn).
Arguments Ok {A} a.
Arguments Raise {A} e.

Definition bind {A B} (m : result A) (k : A → result B) : result B :=
  match m with Ok a => k a | Raise e => Raise e end.

Notation "'let*' x := m 'in' k" := (bind m (λ x, k))
  (at level 10, x name, m at level 100, k at level 200).

(** ** Sorting by date *)

Definition date_le (r1 r2 : Row) : Prop := date r1 ≤ date r2.

#[global] Instance date_le_dec r1 r2 : Decision (date_le r1 r2).
Proof. unfold date_le. apply _. Defined.

(** [df.sort_values("date")] and [df.sort_index()] once [date] is the index.
    pandas sorts with numpy's quicksort, which fixes the order of rows only
    up to rows of equal date; merge sort is one such order. *)
Definition sort_values (df : DataFrame) : DataFrame :=
  {| columns := columns df; rows := merge_sort date_le (rows df) |}.

(** Rows strictly ascending by date. *)
Definition ascending (df : DataFrame) : Prop := Sorted Z.lt (dates df).

(** ** Column alignment *)

(** A row seen through a list of columns: a column the row lacks reads NaN
    ([reindex(columns=...)]). *)
Definition reindex_row (cols : list string) (r : Row) : Row :=
  {| date := date r;
     cells := list_to_map ((λ c, (c, cell r c)) <$> cols) |}.

(** [history[col] = pd.Series(dtype="float")]: a new all-NaN column. *)
Definition add_column (col : string) (df : DataFrame) : DataFrame :=
  {| columns := columns df ++ [col];
     rows := (λ r, {| date := date r; cells := <[col := nan]> (cells r) |})
               <$> rows df |}.

(** main.py, lines 100-102: the loop over [today_row.columns]. *)
Definition add_missing_columns (today_cols : list string) (history : DataFrame)
  : DataFrame :=
  foldl (λ h col, if decide (col ∈ columns h) then h else add_column col h)
        history today_cols.

(** [df[cols]]: KeyError when a requested column is not in the frame. *)
Definition select (cols : list string) (df : DataFrame) : result DataFrame :=
  if decide (Forall (λ c, c ∈ columns df) cols)
  then Ok {| columns := cols; rows := reindex_row cols <$> rows df |}
  else Raise KeyError.

(** [pd.concat([a, b], axis=0)]: rows of [a] then rows of [b], over the union
    of the columns (those of [a] first), absent cells filled with NaN. *)
Definition concat (a b : DataFrame) : DataFrame :=
  let cols := columns a ++ filter (λ c, c ∉ columns a) (columns b) in
  {| columns := cols;
     rows := (reindex_row cols <$> rows a) ++ (reindex_row cols <$> rows b) |}.

(** ** main.py: [upsert_daily_row] *)

Definition upsert_daily_row (history today_row : DataFrame) : result DataFrame :=
  match rows today_row with
  | [] => Ok history                                   (* today_row.empty *)
  | r0 :: _ =>
      let d := date r0 in                              (* today_row.iloc[0]["date"] *)
      if decide (d ∈ dates history) then Ok history    (* the date is already there *)
      else
        let history := add_missing_columns (columns today_row) history in
        let* today := select (columns history) today_row in
        Ok (sort_values (concat history today))
  end.

(** ** backfill_90d.py: [upsert_90d_into_history] *)

(** One row of [hist_idx.update(last90_idx)]: on the shared columns a non-NaN
    cell of the other row replaces the cell, a NaN cell leaves it. *)
Definition update_cells (shared : list string) (that this : gmap string float)
  : gmap string float :=
  foldr (λ c m, match that !! c with
                | Some v => if isna v then m else <[c := v]> m
                | None => m
                end) this shared.

Definition update_row (shared : list string) (other : DataFrame) (r : Row) : Row :=
  match row_at (date r) other with
  | Some o => {| date := date r; cells := update_cells shared (cells o) (cells r) |}
  | None => r
  end.

(** [self.update(other)], both indexed by date, as pandas 1.x and 2.x do it:
    [other.reindex(self.index)] raises ValueError when [other] has a date
    twice; then, over the columns the two frames share, the non-NaN cells of
    [other] replace those of [self].  Columns only [other] has are not
    visited. *)
Definition update (self other : DataFrame) : result DataFrame :=
  if decide (NoDup (dates other)) then
    let shared := filter (λ c, c ∈ columns other) (columns self) in
    Ok {| columns := columns self;
          rows := update_row shared other <$> rows self |}
  else Raise ValueError.

(** [a.index.difference(b.index)]: the labels of [a] not in [b], unique and
    sorted. *)
Definition difference (a b : list Z) : list Z :=
  merge_sort Z.le (remove_dups (filter (λ d, d ∉ b) a)).

(** [df.loc[labels]]: for each label in turn, the rows carrying it. *)
Definition loc (labels : list Z) (df : DataFrame) : DataFrame :=
  {| columns := columns df;
     rows := labels ≫= λ d, filter (λ r, date r = d) (rows df) |}.

Definition upsert_90d_into_history (hist last90 : DataFrame) : result DataFrame :=
  match rows hist with
  | [] => Ok last90                                    (* hist.empty *)
  | _ :: _ =>
      let* hist_idx := update hist last90 in
      let missing_idx := difference (dates last90) (dates hist_idx) in
      let hist_idx :=
        match missing_idx with
        | [] => hist_idx
        | _ :: _ => concat hist_idx (loc missing_idx last90)
        end in
      Ok (sort_values hist_idx)
  end.

(** ** [compute_pln_rates] (main.py lines 110-130, backfill_90d.py lines 34-46) *)

Definition derived_name (ccy : string) : string := ccy +:+ "_PLN".

(** The body of the loop over the targets, on the cells of one output row.
    The code assigns whole columns ([out[name] = series]); [out] has the
    index of [df], so the assignment is row by row the insertion below. *)
Definition derive_step (cols : list string) (r : Row)
    (out : gmap string float) (ccy : string) : gmap string float :=
  if decide (ccy = "EUR") then out                    (* continue *)
  else if decide (ccy ∈ cols)
       then <[derived_name ccy := div (cell r "PLN") (cell r ccy)]> out
       else out.                                      (* continue *)

(** The cells of one output row. *)
Definition derive_cells (cols targets : list string) (r : Row) : gmap string float :=
  let out : gmap string float := ∅ in
  let out := if decide ("EUR" ∈ targets)
             then <["EUR_PLN" := cell r "PLN"]> out else out in
  foldl (derive_step cols r) out targets.

(** The columns of [out] besides [date], in order of first assignment. *)
Definition derive_columns (cols targets : list string) : list string :=
  let out := if decide ("EUR" ∈ targets) then ["EUR_PLN"] else [] in
  foldl (λ out ccy,
           if decide (ccy = "EUR") then out
           else if decide (ccy ∈ cols)
                then (if decide (derived_name ccy ∈ out) then out
                      else out ++ [derived_name ccy])
                else out)
        out targets.

(** [out.dropna(how="all", subset=...)]: keep the rows with at least one
    non-NaN cell among the subset; with an empty subset no row is kept. *)
Definition dropna_all (subset : list string) (df : DataFrame) : DataFrame :=
  {| columns := columns df;
     rows := filter (λ r, Exists (λ c, notna (cell r c) = true) subset) (rows df) |}.

Definition compute_pln_rates (df : DataFrame) (targets : list string)
  : result DataFrame :=
  if decide ("PLN" ∈ columns df) then
    (* [ccy not in df.columns] lets the name "date" through, and a float
       column divided by the datetime column raises TypeError *)
    if decide ("date" ∈ targets) then Raise TypeError
    else
      let out :=
        {| columns := derive_columns (columns df) targets;
           rows := (λ r, {| date := date r;
                            cells := derive_cells (columns df) targets r |})
                     <$> rows df |} in
      Ok (sort_values (dropna_all (columns out) out))
  else Raise ValueError.

(** [load_history] when no file exists: only the date column, no rows. *)
Definition empty_history : DataFrame := {| columns := []; rows := [] |}.

(** ** Sequences of merges and single calls *)

(** A merge as the two flows issue it: the daily flow hands one fetched row
    to [upsert_daily_row], the backfill flow a batch to
    [upsert_90d_into_history]. *)
Inductive merge_op :=
| DailyMerge (today_row : DataFrame)
| BatchMerge (last90 : DataFrame).

Definition apply_op (history : DataFrame) (op : merge_op) : result DataFrame :=
  match op with
  | DailyMerge today_row => upsert_daily_row history today_row
  | BatchMerge last90 => upsert_90d_into_history history last90
  end.

Fixpoint run_ops (history : DataFrame) (ops : list merge_op) : result DataFrame :=
  match ops with
  | [] => Ok history
  | op :: ops => let* history := apply_op history op in run_ops history ops
  end.

(** What the feeds deliver: the daily fetch one row at most, the 90-day fetch
    a batch without a repeated date ([drop_duplicates] in the fetch). *)
Definition valid_op (op : merge_op) : Prop :=
  match op with
  | DailyMerge today_row => (length (rows today_row) ≤ 1)%nat
  | BatchMerge last90 => NoDup (dates last90)
  end.

(** One call of a merge or of the deriver, with its arguments. *)
Inductive call :=
| CallDaily (history today_row : DataFrame)
| CallBatch (hist last90 : DataFrame)
| CallDerive (df : DataFrame) (targets : list string).

Definition run_call (c : call) : result DataFrame :=
  match c with
  | CallDaily history today_row => upsert_daily_row history today_row
  | CallBatch hist last90 => upsert_90d_into_history hist last90
  | CallDerive df targets => compute_pln_rates df targets
  end.

(** The frame a call returns as it received it, where it takes such a path:
    [upsert_daily_row] the history, for an empty [today_row] and for a date
    that is already there (main.py lines 91-97); [upsert_90d_into_history]
    the batch, for a history without rows (backfill_90d.py lines 80-81).
    Every other path ends in a sort. *)
Definition handed_back (c : call) : option DataFrame :=
  match c with
  | CallDaily history today_row =>
      match rows today_row with
      | [] => Some history
      | r0 :: _ => if decide (date r0 ∈ dates history) then Some history else None
      end
  | CallBatch hist last90 =>
      match rows hist with
      | [] => Some last90
      | _ :: _ => None
      end
  | CallDerive _ _ => None
  end.

(** Duplicate-free input of a call that sorts: the rows it puts together
    hold no date twice.  The daily merge appends the rows of [today_row] to
    those of the history; the batch merge looks the dates of the batch up in
    the history; the deriver has one frame. *)
Definition duplicate_free (c : call) : Prop :=
  match c with
  | CallDaily history today_row => NoDup (dates history ++ dates today_row)
  | CallBatch hist last90 => NoDup (dates hist) ∧ NoDup (dates last90)
  | CallDerive df _ => NoDup (dates df)
  end.

(** What a call needs to return rows in strict date order: the frame it
    hands back, if it does, is in that order; else its input is
    duplicate-free. *)
Definition sorted_input (c : call) : Prop :=
  match handed_back c with
  | Some df => ascending df
  | None => duplicate_free c
  end.

(** The frame [res] is [hist] widened by the column [xyz]: the columns of
    [hist] are still there, in their order and before any new one; [xyz] is
    a column; every row of [hist] is still found at its date, reads NaN on
    [xyz], and has its old cells on the columns of [hist]. *)
Definition widened_by (xyz : string) (hist res : DataFrame) : Prop :=
  columns hist `prefix_of` columns res ∧
  xyz ∈ columns res ∧
  ∀ hr, hr ∈ rows hist →
        ∃ r', row_at (date hr) res = Some r' ∧
              cells r' !! xyz = Some nan ∧
              ∀ c, c ∈ columns hist → cells r' !! c = cells hr !! c.

(** ** Concrete data of the scenarios *)

(** Decimal literals as binary64, [m * 2^e]. *)
Definition f4_35 : float := S754_finite false 4897664594765414 (-50).
Definition f1_10 : float := S754_finite false 4953959590107546 (-52).
Definition f1_12 : float := S754_finite false 5044031582654956 (-52).
Definition f0_79 : float := S754_finite false 7115687411245384 (-53).
Definition f5_0 : float := S754_finite false 5629499534213120 (-50).
Definition f6_0 : float := S754_finite false 6755399441055744 (-50).
Definition pos_zero : float := S754_zero false.
Definition pos_infinity : float := S754_infinity false.

(** Days since 1970-01-01. *)
Definition d2024_01_01 : Z := 19723.
Definition d2024_01_02 : Z := 19724.
Definition d2024_01_03 : Z := 19725.
Definition d2024_01_05 : Z := 19727.

Definition mkrow (d : Z) (kvs : list (string * float)) : Row :=
  {| date := d; cells := list_to_map kvs |}.

(** Scenario A: [{date: 2024-01-02, rates: {PLN: 4.35, USD: 1.10}}]. *)
Definition obs_A : DataFrame :=
  {| columns := ["PLN"; "USD"];
     rows := [mkrow d2024_01_02 [("PLN", f4_35); ("USD", f1_10)]] |}.

(** A history with USD on 2024-01-01. *)
Definition hist_usd : DataFrame :=
  {| columns := ["USD"];
     rows := [mkrow d2024_01_01 [("USD", f1_10)]] |}.

(** An observation for the same day that also carries XYZ. *)
Definition obs_usd_xyz : DataFrame :=
  {| columns := ["USD"; "XYZ"];
     rows := [mkrow d2024_01_01 [("USD", f1_12); ("XYZ", f5_0)]] |}.

(** An observation for the next day, with XYZ. *)
Definition obs_jan2_xyz : DataFrame :=
  {| columns := ["USD"; "XYZ"];
     rows := [mkrow d2024_01_02 [("USD", f1_12); ("XYZ", f6_0)]] |}.

(** A batch over two days, the first already in [hist_usd], both with XYZ. *)
Definition batch_two_days : DataFrame :=
  {| columns := ["USD"; "XYZ"];
     rows := [mkrow d2024_01_01 [("USD", f1_10); ("XYZ", f5_0)];
              mkrow d2024_01_02 [("USD", f1_12); ("XYZ", f6_0)]] |}.

Definition merged_once : DataFrame :=
  {| columns := ["USD"; "XYZ"];
     rows := [mkrow d2024_01_01 [("USD", f1_10); ("XYZ", nan)];
              mkrow d2024_01_02 [("USD", f1_12); ("XYZ", f6_0)]] |}.

Definition merged_twice : DataFrame :=
  {| columns := ["USD"; "XYZ"];
     rows := [mkrow d2024_01_01 [("USD", f1_10); ("XYZ", f5_0)];
              mkrow d2024_01_02 [("USD", f1_12); ("XYZ", f6_0)]] |}.

(** Scenario A's observation, then [batch_two_days], merged into the empty
    history. *)
Definition merged_A_two_days : DataFrame :=
  {| columns := ["PLN"; "USD"; "XYZ"];
     rows := [mkrow d2024_01_01 [("PLN", nan); ("USD", f1_10); ("XYZ", f5_0)];
              mkrow d2024_01_02 [("PLN", f4_35); ("USD", f1_12); ("XYZ", nan)]] |}.

(** A history holding 2024-01-05, and a daily row for that day with another
    USD value. *)
Definition hist_jan5 : DataFrame :=
  {| columns := ["USD"];
     rows := [mkrow d2024_01_05 [("USD", f1_10)]] |}.

Definition obs_jan5 : DataFrame :=
  {| columns := ["USD"];
     rows := [mkrow d2024_01_05 [("USD", f1_12)]] |}.

(** A history with USD and GBP on one day, and a batch whose USD cell for
    that day is NaN. *)
Definition hist_usd_gbp : DataFrame :=
  {| columns := ["USD"; "GBP"];
     rows := [mkrow d2024_01_01 [("USD", f1_10); ("GBP", f0_79)]] |}.

Definition batch_usd_nan : DataFrame :=
  {| columns := ["USD"];
     rows := [mkrow d2024_01_01 [("USD", nan)]] |}.

(** A batch over two days with USD only, and its merge into [hist_usd_gbp]. *)
Definition batch_usd_two_days : DataFrame :=
  {| columns := ["USD"];
     rows := [mkrow d2024_01_01 [("USD", f1_12)];
              mkrow d2024_01_02 [("USD", f1_10)]] |}.

Definition merged_usd_gbp : DataFrame :=
  {| columns := ["USD"; "GBP"];
     rows := [mkrow d2024_01_01 [("USD", f1_12); ("GBP", f0_79)];
              mkrow d2024_01_02 [("USD", f1_10); ("GBP", nan)]] |}.

(** A daily observation for 2024-01-02 with USD and an unparsed GBP, and its
    insertion into [hist_usd_gbp]. *)
Definition obs_jan2_usd_gbp : DataFrame :=
  {| columns := ["USD"; "GBP"];
     rows := [mkrow d2024_01_02 [("USD", f1_12); ("GBP", nan)]] |}.

Definition merged_jan2 : DataFrame :=
  {| columns := ["USD"; "GBP"];
     rows := [mkrow d2024_01_01 [("USD", f1_10); ("GBP", f0_79)];
              mkrow d2024_01_02 [("USD", f1_12); ("GBP", nan)]] |}.

(** A day on which the USD rate is recorded as zero. *)
Definition df_usd_zero : DataFrame :=
  {| columns := ["PLN"; "USD"];
     rows := [mkrow d2024_01_02 [("PLN", f4_35); ("USD", pos_zero)]] |}.

(** A history whose rows are not in date order. *)
Definition hist_unsorted : DataFrame :=
  {| columns := ["USD"];
     rows := [mkrow d2024_01_03 [("USD", f1_12)];
              mkrow d2024_01_01 [("USD", f1_10)]] |}.

Definition obs_jan1 : DataFrame :=
  {| columns := ["USD"];
     rows := [mkrow d2024_01_01 [("USD", f1_12)]] |}.

(** [obs_jan2_xyz] inserted into [hist_unsorted]. *)
Definition merged_unsorted : DataFrame :=
  {| columns := ["USD"; "XYZ"];
     rows := [mkrow d2024_01_01 [("USD", f1_10); ("XYZ", nan)];
              mkrow d2024_01_02 [("USD", f1_12); ("XYZ", f6_0)];
              mkrow d2024_01_03 [("USD", f1_12); ("XYZ", nan)]] |}.

(** ** main.py: [make_dashboard] *)

(** [go.Scatter(x=..., y=..., mode="lines", name=...)] *)
Record trace := { trace_name : string; trace_x : list Z; trace_y : list float }.

(** What [make_dashboard] writes to [out_html]: the fixed "no data" page, or
    the figure with its traces (title, axes and hover mode are constants). *)
Inductive dashboard :=
| NoDataPage
| FigurePage (traces : list trace).

(** [col.replace("_", " ")] *)
Fixpoint replace_underscores (s : string) : string :=
  match s with
  | EmptyString => EmptyString
  | String a s =>
      String (if Ascii.eqb a "_"%char then " "%char else a) (replace_underscores s)
  end.

(** [df_plot["date"].max()] *)
Definition max_date (df : DataFrame) : Z :=
  match dates df with
  | [] => 0
  | d :: ds => foldr Z.max d ds
  end.

(** [df[col]] as the list of its values. *)
Definition column_values (col : string) (df : DataFrame) : list float :=
  (λ r, cell r col) <$> rows df.

(** pandas 1.x and 2.x keep a [Timedelta] and a [Timestamp] as a signed
    64-bit count of nanoseconds (the least value stands for NaT): a whole
    number of days fits from -106751 to 106751, midnight of 1677-09-22 to
    midnight of 2262-04-11. *)
Definition ns_per_day : Z := 86400 * 1000000000.

Definition fits_int64_ns (days : Z) : bool :=
  (- 2 ^ 63 <? days * ns_per_day) && (days * ns_per_day <? 2 ^ 63).

(** [last_n_days] is an [int | None]; dates count days, so
    [pd.Timedelta(days=n)] is [n].  [None] as a result stands for an
    exception raised before anything is written: [pd.Timedelta(days=n)]
    raises when [n] days do not fit, and so does the subtraction when the
    cutoff is no [Timestamp].  The column test [col in df_plot.columns] also
    sees the date column, which no [col] can name: every [col] ends in
    [_PLN]. *)
Definition make_dashboard (df_pln : DataFrame) (targets : list string)
    (last_n_days : option Z) : option dashboard :=
  match rows df_pln with
  | [] => Some NoDataPage                              (* df_pln.empty *)
  | _ :: _ =>
      let filtered :=
        match last_n_days with
        | Some n =>
            if fits_int64_ns n then                    (* pd.Timedelta(days=n) *)
              let cutoff := max_date df_pln - n in
              if fits_int64_ns cutoff then             (* max() - Timedelta *)
                Some {| columns := columns df_pln;
                        rows := filter (λ r, cutoff ≤ date r) (rows df_pln) |}
              else None
            else None
        | None => Some df_pln
        end in
      match filtered with
      | None => None
      | Some df_plot =>
          Some (FigurePage
            (foldl (λ traces ccy,
                      let col := if decide (ccy = "EUR") then "EUR_PLN"
                                 else derived_name ccy in
                      if decide (col ∈ columns df_plot)
                      then traces ++ [{| trace_name := replace_underscores col;
                                         trace_x := dates df_plot;
                                         trace_y := column_values col df_plot |}]
                      else traces)
                   [] targets))
      end
  end.

(** ** [load_history], [save_history] and the two [main]s *)

(** What is at a path: no file, or the table [pd.read_csv] reads from it. *)
Inductive stored :=
| NoFile
| Stored (df : DataFrame).

(** [df.columns = [c.upper() if c != "date" else "date" for c in df.columns]]
    with Python's [str.upper] given as [upper].  Two columns that get the
    same upper-cased name stay two columns in pandas; a frame here has one
    cell per name, so such files are outside this description. *)
Definition rename_columns (upper : string → string) (df : DataFrame) : DataFrame :=
  {| columns := upper <$> columns df;
     rows := (λ r, {| date := date r;
                      cells := list_to_map ((λ c, (upper c, cell r c))
                                              <$> columns df) |})
               <$> rows df |}.

Definition load_history (upper : string → string) (file : stored) : DataFrame :=
  match file with
  | Stored df => sort_values (rename_columns upper df)
  | NoFile => empty_history
  end.

(** The effects of a run, in order; the [print]s are left out. *)
Inductive effect :=
| EnsureDirs                                   (* os.makedirs(DATA_DIR, exist_ok=True) *)
| WriteHistRaw (df : DataFrame)                (* to_csv(HIST_RAW, index=False) *)
| WriteHistPln (df : DataFrame)                (* to_csv(HIST_PLN, index=False) *)
| WriteDashboard (page : dashboard).           (* make_dashboard(..., DASHBOARD_HTML, ...) *)

(** backfill_90d.py: [save_history] *)
Definition save_history (df : DataFrame) : effect := WriteHistRaw (sort_values df).

Definition TARGETS : list string := ["EUR"; "USD"; "GBP"; "CHF"].
Definition CHART_LAST_N_DAYS : option Z := Some 365.

(** main.py: [main].  [fetched] is what [fetch_ecb_daily_xml()] returns, or
    [None] when it raises; any exception ends the run with [sys.exit(1)].
    The result is the effects carried out and the exit status.  Making the
    directory, reading the history file and the writes are taken to succeed:
    a failure of the file system is not modelled. *)
Definition main_daily (upper : string → string) (file : stored)
    (fetched : option DataFrame) : list effect * Z :=
  let hist := load_history upper file in
  match fetched with
  | None => ([EnsureDirs], 1)
  | Some today_df =>
      match upsert_daily_row hist today_df with
      | Raise _ => ([EnsureDirs], 1)
      | Ok hist =>
          match compute_pln_rates hist TARGETS with
          | Raise _ => ([EnsureDirs; WriteHistRaw hist], 1)
          | Ok df_pln =>
              match make_dashboard df_pln TARGETS CHART_LAST_N_DAYS with
              | None => ([EnsureDirs; WriteHistRaw hist; WriteHistPln df_pln], 1)
              | Some page =>
                  ([EnsureDirs; WriteHistRaw hist; WriteHistPln df_pln;
                    WriteDashboard page], 0)
              end
          end
      end
  end.

(** backfill_90d.py: [main], with [fetched] what [fetch_ecb_90d_xml()]
    returns. *)
Definition main_backfill (upper : string → string) (file : stored)
    (fetched : option DataFrame) : list effect * Z :=
  let hist := load_history upper file in
  match fetched with
  | None => ([EnsureDirs], 1)
  | Some last90 =>
      match upsert_90d_into_history hist last90 with
      | Raise _ => ([EnsureDirs], 1)
      | Ok merged =>
          match compute_pln_rates merged TARGETS with
          | Raise _ => ([EnsureDirs; save_history merged], 1)
          | Ok df_pln =>
              ([EnsureDirs; save_history merged; WriteHistPln df_pln], 0)
          end
      end
  end.

(** ** The feeds: [fetch_ecb_daily_xml] and [fetch_ecb_90d_xml]

    Both functions are embedded from the parsed tree on: [requests.get],
    [raise_for_status] and [ET.parse] come before and are not described. *)

(** An [xml.etree.ElementTree.Element]: tag, attributes, children. *)
Inductive element :=
| Element (tag : string) (attrib : gmap string string) (children : list element).

Definition tag (e : element) : string :=
  match e with Element t _ _ => t end.
Definition attrib (e : element) : gmap string string :=
  match e with Element _ a _ => a end.
Definition children (e : element) : list element :=
  match e with Element _ _ cs => cs end.

(** [root.iter()]: the element, then its descendants, in document order. *)
Fixpoint iter (e : element) : list element :=
  match e with
  | Element _ _ cs =>
      e :: (fix iter_all (l : list element) : list element :=
              match l with
              | [] => []
              | c :: l => iter c ++ iter_all l
              end) cs
  end.

(** [tag.split("}")[-1]]: what follows the last closing brace. *)
Fixpoint after_last_brace (acc s : string) : string :=
  match s with
  | EmptyString => acc
  | String a s =>
      if Ascii.eqb a "}"%char then after_last_brace EmptyString s
      else after_last_brace (acc +:+ String a EmptyString) s
  end.

Definition ns_strip (tag : string) : string := after_last_brace EmptyString tag.

(** The library functions the fetchers call, taken as given:
    [str.upper]; [float], [None] standing for its ValueError;
    [pd.to_datetime(_, format="%Y-%m-%d")] in days, [None] standing for its
    ValueError.  The strings pandas reads as a missing date are not dates of
    the feed and have no day here.  No upper-cased string is ["date"]. *)
Record python := {
  py_upper : string → string;
  py_float : string → option float;
  py_to_datetime : string → option Z;
  py_upper_not_date : ∀ s, py_upper s ≠ "date"
}.

(** [rates[ccy] = v] on a dict, which keeps its keys in insertion order. *)
Fixpoint dict_set (k : string) (v : float) (d : list (string * float))
  : list (string * float) :=
  match d with
  | [] => [(k, v)]
  | (k', v') :: d =>
      if decide (k' = k) then (k, v) :: d else (k', v') :: dict_set k v d
  end.

(** [ns_strip(e.tag) == "Cube" and "time" in e.attrib] *)
Definition is_dated_cube (e : element) : Prop :=
  ns_strip (tag e) = "Cube" ∧ is_Some (attrib e !! "time").

#[global] Instance is_dated_cube_dec e : Decision (is_dated_cube e).
Proof. unfold is_dated_cube. apply _. Defined.

(** The body of the inner loop of both fetchers: a child that is a Cube with
    a currency and a rate sets the rate of the upper-cased currency, NaN
    when [float] raises. *)
Definition read_rate (py : python) (rates : list (string * float)) (n : element)
  : list (string * float) :=
  if decide (ns_strip (tag n) = "Cube") then
    match attrib n !! "currency", attrib n !! "rate" with
    | Some currency, Some rate =>
        let ccy := py_upper py currency in
        dict_set ccy (default nan (py_float py rate)) rates
    | _, _ => rates
    end
  else rates.

(** The rates of one dated Cube. *)
Definition read_rates (py : python) (cube : element) : list (string * float) :=
  foldl (read_rate py) [] (children cube).

(** First element of a list with a property. *)
Fixpoint find_first {A} (P : A → Prop) `{∀ x, Decision (P x)} (l : list A)
  : option A :=
  match l with
  | [] => None
  | x :: l => if decide (P x) then Some x else find_first P l
  end.

(** main.py, lines 42-68. *)
Definition fetch_ecb_daily_xml (py : python) (root : element) : result DataFrame :=
  match find_first is_dated_cube (iter root) with
  | Some child =>                                      (* ... break *)
      let date_str := default EmptyString (attrib child !! "time") in
      let rates := read_rates py child in
      if decide (date_str = EmptyString) then Raise ValueError   (* not date_str *)
      else
        match py_to_datetime py date_str with
        | None => Raise ValueError
        | Some d =>
            Ok {| columns := rates.*1;
                  rows := [{| date := d; cells := list_to_map rates |}] |}
        end
  | None => Raise ValueError                           (* date_str is None *)
  end.

(** [records.append(rec)] for every dated Cube of the tree; a date that does
    not parse raises out of the loop. *)
Fixpoint read_records (py : python) (cubes : list element)
  : result (list (Z * list (string * float))) :=
  match cubes with
  | [] => Ok []
  | cube :: cubes =>
      match py_to_datetime py (default EmptyString (attrib cube !! "time")) with
      | None => Raise ValueError
      | Some d =>
          let* records := read_records py cubes in
          Ok ((d, read_rates py cube) :: records)
      end
  end.

(** A list without its repetitions, each member where it first appears. *)
Fixpoint remove_dups_first (seen l : list string) : list string :=
  match l with
  | [] => []
  | x :: l =>
      if decide (x ∈ seen) then remove_dups_first seen l
      else x :: remove_dups_first (x :: seen) l
  end.

(** The columns of [pd.DataFrame(records)] besides the date: the keys of the
    records in the order they first appear. *)
Definition record_columns (records : list (Z * list (string * float)))
  : list string :=
  remove_dups_first [] (records ≫= λ rec, rec.2.*1).

(** [df.drop_duplicates(subset=["date"], keep="last")] *)
Fixpoint drop_duplicates_last (l : list Row) : list Row :=
  match l with
  | [] => []
  | r :: l =>
      if decide (date r ∈ date <$> l) then drop_duplicates_last l
      else r :: drop_duplicates_last l
  end.

(** backfill_90d.py, lines 54-76.  Without a record the frame has no column
    at all and [sort_values("date")] raises KeyError.  Of two records of one
    date the sort decides which comes last and is kept; nothing below
    depends on which. *)
Definition fetch_ecb_90d_xml (py : python) (root : element) : result DataFrame :=
  let* records := read_records py (filter is_dated_cube (iter root)) in
  match records with
  | [] => Raise KeyError
  | _ :: _ =>
      let cols := record_columns records in
      let df :=
        {| columns := cols;
           rows := (λ rec, reindex_row cols
                             {| date := rec.1; cells := list_to_map rec.2 |})
                     <$> records |} in
      let df := rename_columns (py_upper py) df in
      let df := sort_values df in
      Ok {| columns := columns df; rows := drop_duplicates_last (rows df) |}
  end.

(** The dates in the stored table. *)
Definition stored_dates (file : stored) : list Z :=
  match file with
  | Stored df => dates df
  | NoFile => []
  end.

(** A written table has its rows strictly ascending by date. *)
Definition writes_ascending (e : effect) : Prop :=
  match e with
  | WriteHistRaw df | WriteHistPln df => ascending df
  | EnsureDirs | WriteDashboard _ => True
  end.

(** [str.upper] on ASCII text, for the examples. *)
Definition ascii_upper_char (a : ascii) : ascii :=
  let n := nat_of_ascii a in
  if (Nat.leb 97 n && Nat.leb n 122)%bool then ascii_of_nat (n - 32) else a.

Fixpoint ascii_upper (s : string) : string :=
  match s with
  | EmptyString => EmptyString
  | String a s => String (ascii_upper_char a) (ascii_upper s)
  end.

(** A stored table with lower-case column names, rows out of order. *)
Definition file_lowercase : DataFrame :=
  {| columns := ["usd"; "pln"];
     rows := [mkrow d2024_01_02 [("usd", f1_12); ("pln", f4_35)];
              mkrow d2024_01_01 [("usd", f1_10); ("pln", f4_35)]] |}.

(** A stored table without a PLN column. *)
Definition file_no_PLN : DataFrame :=
  {| columns := ["USD"];
     rows := [mkrow d2024_01_01 [("USD", f1_10)]] |}.

(** ** An instance of the library for the examples *)

Lemma ascii_upper_char_not_d (a : ascii) : ascii_upper_char a ≠ "d"%char.
Proof. destruct a as [[] [] [] [] [] [] [] []]; vm_compute; discriminate. Qed.

Lemma ascii_upper_not_date (s : string) : ascii_upper s ≠ "date".
Proof.
  destruct s as [|a s]; [discriminate|]. cbn [ascii_upper].
  intros E. injection E as E _. by apply (ascii_upper_char_not_d a).
Qed.

(** [float] and [pd.to_datetime] on the strings of the examples. *)
Definition example_float (s : string) : option float :=
  if decide (s = "4.35") then Some f4_35
  else if decide (s = "1.10") then Some f1_10
  else if decide (s = "1.12") then Some f1_12
  else None.

Definition example_to_datetime (s : string) : option Z :=
  if decide (s = "2024-01-01") then Some d2024_01_01
  else if decide (s = "2024-01-02") then Some d2024_01_02
  else if decide (s = "2024-01-03") then Some d2024_01_03
  else None.

Definition example_python : python :=
  {| py_upper := ascii_upper;
     py_float := example_float;
     py_to_datetime := example_to_datetime;
     py_upper_not_date := ascii_upper_not_date |}.

Definition rate_cube (currency rate : string) : element :=
  Element "{http://www.ecb.int/vocabulary/2002-08-01/eurofxref}Cube"
    (<["currency" := currency]> (<["rate" := rate]> ∅)) [].

Definition dated_cube (time : string) (rates : list element) : element :=
  Element "{http://www.ecb.int/vocabulary/2002-08-01/eurofxref}Cube"
    (<["time" := time]> ∅) rates.

Definition envelope (cubes : list element) : element :=
  Element "{http://www.gesmes.org/xml/2002-08-01}Envelope" ∅
    [Element "{http://www.gesmes.org/xml/2002-08-01}subject" ∅ [];
     Element "{http://www.ecb.int/vocabulary/2002-08-01/eurofxref}Cube" ∅ cubes].

(** A daily feed: USD twice, in lower case first, and a PLN rate that is
    not a number. *)
Definition feed_daily : element :=
  envelope [dated_cube "2024-01-02"
              [rate_cube "usd" "1.10"; rate_cube "PLN" "n/a";
               rate_cube "USD" "1.12"]].

(** A 90-day feed, latest day first, one day given twice. *)
Definition feed_90d : element :=
  envelope [dated_cube "2024-01-03" [rate_cube "USD" "1.12"; rate_cube "PLN" "4.35"];
            dated_cube "2024-01-01" [rate_cube "USD" "1.10"];
            dated_cube "2024-01-03" [rate_cube "USD" "1.12"; rate_cube "PLN" "4.35"]].

Definition batch_of_feed_90d : DataFrame :=
  {| columns := ["USD"; "PLN"];
     rows := [mkrow d2024_01_01 [("USD", f1_10); ("PLN", nan)];
              mkrow d2024_01_03 [("USD", f1_12); ("PLN", f4_35)]] |}.

Definition row_of_feed_daily : DataFrame :=
  {| columns := ["USD"; "PLN"];
     rows := [mkrow d2024_01_02 [("USD", f1_12); ("PLN", nan)]] |}.

(** A feed without a dated Cube. *)
Definition feed_empty : element := envelope [].

(** ** Auxiliary descriptions of the batch merge *)

(** The columns of the merged frame: [concat] only runs when the batch brings
    a date the history lacks, and only then do new columns appear. *)
Definition merged_columns (hist last90 : DataFrame) : list string :=
  match difference (dates last90) (dates hist) with
  | [] => columns hist
  | _ :: _ => columns hist ++ filter (λ c, c ∉ columns hist) (columns last90)
  end.

(** What [concat] does to a row on the way, if it runs. *)
Definition align (hist last90 : DataFrame) (r : Row) : Row :=
  match difference (dates last90) (dates hist) with
  | [] => r
  | _ :: _ => reindex_row (merged_columns hist last90) r
  end.

(** The columns [update] works on. *)
Definition shared_columns (hist last90 : DataFrame) : list string :=
  filter (λ c, c ∈ columns last90) (columns hist).

(** ** Auxiliary description of the daily insert *)

(** What [upsert_daily_row] returns when it appends: the history widened by
    the new columns, then today's rows, sorted. *)
Definition daily_inserted (history today_row : DataFrame) : DataFrame :=
  let history := add_missing_columns (columns today_row) history in
  sort_values
    (concat history
       {| columns := columns history;
          rows := reindex_row (columns history) <$> rows today_row |}).

(** ** Auxiliary descriptions of the chart window *)

(** Whether [make_dashboard] gets past its date arithmetic. *)
Definition window_fits (df_pln : DataFrame) (last_n_days : option Z) : bool :=
  match last_n_days with
  | Some n => fits_int64_ns n && fits_int64_ns (max_date df_pln - n)
  | None => true
  end.

(** The rows that are charted. *)
Definition chart_window (df_pln : DataFrame) (last_n_days : option Z) : DataFrame :=
  match last_n_days with
  | Some n => {| columns := columns df_pln;
                 rows := filter (λ r, max_date df_pln - n ≤ date r) (rows df_pln) |}
  | None => df_pln
  end.

(** A derived table over three days, the last one three days after the
    second. *)
Definition pln_three_days : DataFrame :=
  {| columns := ["EUR_PLN"; "USD_PLN"];
     rows := [mkrow d2024_01_01 [("EUR_PLN", f4_35); ("USD_PLN", f5_0)];
              mkrow d2024_01_02 [("EUR_PLN", f4_35); ("USD_PLN", f6_0)];
              mkrow d2024_01_05 [("EUR_PLN", f5_0); ("USD_PLN", nan)]] |}.

(** * Properties *)

(** ** Division *)

Section Division.

Lemma div_nan_r x : div x nan = nan.
Proof. by destruct x. Qed.

Lemma div_nan_l y : div nan y = nan.
Proof. by destruct y. Qed.

Lemma isna_div_na_r x y : isna y = true → isna (div x y) = true.
Proof. destruct y; try done. intros _. by destruct x. Qed.

(** Division by a zero: NaN for 0/0 and NaN/0, an infinity otherwise. *)
Lemma div_zero_r x y :
  is_zero y = true →
  if is_zero x || isna x
  then isna (div x y) = true
  else is_infinity (div x y) = true.
Proof. destruct y; try done. intros _. by destruct x. Qed.

Lemma isna_nan x : isna x = true ↔ x = nan.
Proof. split; [by destruct x | by intros ->]. Qed.

End Division.

(** ** Rows by date *)

Section FindRow.

Implicit Types (l : list Row) (r : Row) (d : Z).

Lemma find_row_Some l d r : find_row d l = Some r → r ∈ l ∧ date r = d.
Proof.
  induction l as [|x l IH]; simpl; [done|].
  case_decide.
  - intros [= ->]. split; [left | done].
  - intros [? ?]%IH. split; [by right | done].
Qed.

Lemma find_row_None l d : find_row d l = None ↔ d ∉ date <$> l.
Proof.
  induction l as [|x l IH]; csimpl.
  - split; [intros _; apply not_elem_of_nil | done].
  - rewrite not_elem_of_cons. case_decide as Hd; [|rewrite IH]; split;
      try done; try tauto; intros [? ?]; congruence.
Qed.

Lemma find_row_NoDup l r :
  NoDup (date <$> l) → r ∈ l → find_row (date r) l = Some r.
Proof.
  induction l as [|x l IH]; csimpl; intros Hnd Hin; [by inv Hin|].
  apply NoDup_cons in Hnd as [Hx Hnd].
  apply elem_of_cons in Hin as [->|Hin]; [by rewrite decide_True|].
  rewrite decide_False; [by apply IH|].
  intros E. apply Hx. rewrite E. by apply list_elem_of_fmap_2.
Qed.

Lemma find_row_Permutation l l' d :
  NoDup (date <$> l) → l ≡ₚ l' → find_row d l = find_row d l'.
Proof.
  intros Hnd Hp.
  assert (NoDup (date <$> l')) as Hnd' by (by rewrite <-Hp).
  destruct (find_row d l) as [r|] eqn:E.
  - apply find_row_Some in E as [Hin <-].
    symmetry. apply find_row_NoDup; [done | by rewrite <-Hp].
  - symmetry. apply find_row_None. rewrite <-Hp. by apply find_row_None.
Qed.

Lemma find_row_fmap (f : Row → Row) l d :
  (∀ r, date (f r) = date r) →
  find_row d (f <$> l) = f <$> find_row d l.
Proof.
  intros Hf. induction l as [|x l IH]; csimpl; [done|].
  rewrite Hf. by case_decide.
Qed.

Lemma find_row_app l1 l2 d :
  find_row d (l1 ++ l2) =
    match find_row d l1 with Some r => Some r | None => find_row d l2 end.
Proof. induction l1 as [|x l1 IH]; simpl; [done|]. by case_decide. Qed.

End FindRow.

(** ** Sorting *)

Section Sorting.

#[local] Instance date_le_total : Total date_le.
Proof. intros r1 r2. unfold date_le. lia. Qed.

#[local] Instance date_le_trans : Transitive date_le.
Proof. intros r1 r2 r3. unfold date_le. lia. Qed.

Lemma sort_values_Permutation df : rows (sort_values df) ≡ₚ rows df.
Proof. apply merge_sort_Permutation. Qed.

Lemma dates_sort_values_Permutation df : dates (sort_values df) ≡ₚ dates df.
Proof. unfold dates. by rewrite sort_values_Permutation. Qed.

Lemma columns_sort_values df : columns (sort_values df) = columns df.
Proof. done. Qed.

Lemma elem_of_sort_values df r : r ∈ rows (sort_values df) ↔ r ∈ rows df.
Proof. by rewrite sort_values_Permutation. Qed.

Lemma NoDup_sort_values df : NoDup (dates df) → NoDup (dates (sort_values df)).
Proof. by rewrite dates_sort_values_Permutation. Qed.

(** Sorted by date and free of duplicate dates: strictly ascending. *)
Lemma StronglySorted_le_NoDup (l : list Z) :
  StronglySorted Z.le l → NoDup l → Sorted Z.lt l.
Proof.
  induction 1 as [|x l Hs IH Hx]; intros Hnd; [constructor|].
  apply NoDup_cons in Hnd as [Hnx Hnd].
  constructor; [by apply IH|].
  destruct l as [|y l]; constructor.
  apply Forall_cons in Hx as [Hxy _].
  assert (x ≠ y) by (intros ->; apply Hnx; left). lia.
Qed.

Lemma ascending_sort_values df :
  NoDup (dates df) → ascending (sort_values df).
Proof.
  intros Hnd. apply StronglySorted_le_NoDup; [|by apply NoDup_sort_values].
  unfold dates, sort_values; simpl.
  apply (StronglySorted_fmap date date_le Z.le); [done|].
  apply (StronglySorted_merge_sort date_le).
Qed.

Lemma ascending_sorted df :
  NoDup (dates (sort_values df)) → ascending (sort_values df).
Proof.
  intros Hnd. apply ascending_sort_values.
  by rewrite <-dates_sort_values_Permutation.
Qed.

Lemma ascending_NoDup df : ascending df → NoDup (dates df).
Proof.
  unfold ascending. intros Hs.
  apply Sorted_StronglySorted in Hs; [|intros x y z; lia].
  induction Hs as [|x l Hs IH Hx]; [constructor|].
  apply NoDup_cons. split; [|done].
  intros Hin. rewrite Forall_forall in Hx. specialize (Hx _ Hin). lia.
Qed.

Lemma row_at_sort_values df d :
  NoDup (dates df) → row_at d (sort_values df) = row_at d df.
Proof.
  intros Hnd. unfold row_at. symmetry.
  apply find_row_Permutation; [done|]. symmetry. apply sort_values_Permutation.
Qed.

(** Sorting a frame that is already strictly ascending changes nothing. *)
Lemma sort_values_ascending df : ascending df → sort_values df = df.
Proof.
  intros Hs. destruct df as [cols rs]. unfold sort_values; simpl. f_equal.
  pose proof (ascending_NoDup _ Hs) as Hnd. unfold ascending, dates in *; cbn [rows] in *.
  assert (StronglySorted date_le rs) as Hrs.
  { clear Hnd. apply Sorted_StronglySorted in Hs; [|intros x y z; lia].
    induction rs as [|r rs IH]; [constructor|]. csimpl in Hs.
    apply StronglySorted_cons in Hs as [Hr Hs]. constructor; [by apply IH|].
    rewrite Forall_fmap in Hr. eapply Forall_impl; [exact Hr|].
    intros y Hy. unfold date_le. simpl in Hy. lia. }
  apply (StronglySorted_unique_strong date_le);
    [|apply (StronglySorted_merge_sort date_le)|done|apply merge_sort_Permutation].
  intros x1 x2 Hx1 Hx2 H12 H21. unfold date_le in *.
  rewrite merge_sort_Permutation in Hx1.
  assert (date x1 = date x2) as E by lia.
  apply (find_row_NoDup rs) in Hx1, Hx2; [|done..].
  rewrite E in Hx1. congruence.
Qed.

End Sorting.

(** ** Column alignment *)

Section Alignment.

Implicit Types (r : Row) (c : string) (cols : list string).

Lemma date_reindex_row cols r : date (reindex_row cols r) = date r.
Proof. done. Qed.

Lemma lookup_reindex_row cols r c :
  cells (reindex_row cols r) !! c
    = if decide (c ∈ cols) then Some (cell r c) else None.
Proof.
  unfold reindex_row; simpl.
  induction cols as [|x cols IH].
  - rewrite decide_False by apply not_elem_of_nil. apply lookup_empty.
  - rewrite fmap_cons, list_to_map_cons, lookup_insert, IH.
    repeat case_decide; try done; set_solver.
Qed.

Lemma cell_reindex_row cols r c :
  c ∈ cols → cell (reindex_row cols r) c = cell r c.
Proof. intros Hc. unfold cell at 1. by rewrite lookup_reindex_row, decide_True. Qed.

(** Through its own columns a rectangular row reads as itself. *)
Lemma lookup_reindex_row_dom cols r c :
  dom (cells r) = list_to_set cols →
  cells (reindex_row cols r) !! c = cells r !! c.
Proof.
  intros Hdom. rewrite lookup_reindex_row.
  assert (c ∈ cols ↔ is_Some (cells r !! c)) as Hc.
  { rewrite <-elem_of_dom, Hdom. by rewrite elem_of_list_to_set. }
  case_decide as Hin.
  - apply Hc in Hin as [v Hv]. unfold cell. by rewrite Hv.
  - destruct (cells r !! c) eqn:E; [|done]. exfalso. apply Hin, Hc. eauto.
Qed.

Lemma reindex_row_dom cols r :
  dom (cells r) = list_to_set cols → reindex_row cols r = r.
Proof.
  intros Hdom. destruct r as [d m]. unfold reindex_row; simpl. f_equal.
  apply map_eq. intros c.
  by apply (lookup_reindex_row_dom cols {| date := d; cells := m |}).
Qed.

Lemma dom_reindex_row cols r :
  dom (cells (reindex_row cols r)) = list_to_set cols.
Proof.
  apply set_eq. intros c.
  rewrite elem_of_dom, lookup_reindex_row, elem_of_list_to_set.
  case_decide; [|split; [by intros [? ?] | done]].
  split; [done | eauto].
Qed.

(** The loop of [upsert_daily_row] that adds the columns the history lacks:
    the dates stay, a column of the history keeps its cells, an added
    column reads NaN in every row. *)
Lemma add_missing_columns_spec today_cols history :
  let h' := add_missing_columns today_cols history in
  (∀ c, c ∈ columns h' ↔ c ∈ columns history ∨ c ∈ today_cols) ∧
  ∃ f : Row → Row,
    rows h' = f <$> rows history ∧
    ∀ r, date (f r) = date r ∧
         ∀ c, cells (f r) !! c =
                if decide (c ∈ columns history) then cells r !! c
                else if decide (c ∈ today_cols) then Some nan
                     else cells r !! c.
Proof.
  revert history. induction today_cols as [|col tc IH]; intros h.
  - split; [intros c; set_solver|].
    exists id. split; [by rewrite list_fmap_id|].
    intros r. split; [done|]. intros c. repeat case_decide; try done; set_solver.
  - change (add_missing_columns (col :: tc) h)
      with (add_missing_columns tc
              (if decide (col ∈ columns h) then h else add_column col h)).
    destruct (decide (col ∈ columns h)) as [Hcol|Hcol].
    + destruct (IH h) as [Hc (f & Hrows & Hf)].
      split; [intros c; rewrite Hc; set_solver|]. 
      exists f. split; [done|]. intros r. destruct (Hf r) as [Hd Hcell].
      split; [done|]. intros c. rewrite Hcell.
      repeat case_decide; try done; set_solver.
    + destruct (IH (add_column col h)) as [Hc (f & Hrows & Hf)]. split.
      * intros c. rewrite Hc; simpl. set_solver.
      * exists (λ r, f {| date := date r; cells := <[col := nan]> (cells r) |}).
        split.
        { rewrite Hrows; simpl. by rewrite <-list_fmap_compose. }
        intros r. destruct (Hf {| date := date r;
                                 cells := <[col := nan]> (cells r) |}) as [Hd Hcell].
        split; [done|]. intros c. rewrite Hcell; simpl.
        rewrite lookup_insert.
        repeat case_decide; try done; set_solver.
Qed.

Lemma dates_add_missing_columns today_cols history :
  dates (add_missing_columns today_cols history) = dates history.
Proof.
  destruct (add_missing_columns_spec today_cols history) as [_ (f & Hrows & Hf)].
  unfold dates. rewrite Hrows, <-list_fmap_compose.
  apply list_fmap_ext. intros ? r _. simpl. apply Hf.
Qed.

Lemma columns_add_missing_columns_prefix today_cols history :
  columns history `prefix_of` columns (add_missing_columns today_cols history).
Proof.
  revert history. induction today_cols as [|col tc IH]; intros h; [done|].
  change (add_missing_columns (col :: tc) h)
    with (add_missing_columns tc
            (if decide (col ∈ columns h) then h else add_column col h)).
  destruct (decide (col ∈ columns h)); [apply IH|].
  etrans; [|apply IH]. cbn [add_column columns]. by apply prefix_app_r.
Qed.

Lemma dates_concat a b : dates (concat a b) = dates a ++ dates b.
Proof.
  unfold dates, concat; simpl.
  by rewrite fmap_app, <-!list_fmap_compose.
Qed.

End Alignment.

(** ** [DataFrame.update] *)

Section Update.

Implicit Types (r o : Row) (c : string) (shared : list string).

Lemma lookup_update_cells shared (that this : gmap string float) c :
  update_cells shared that this !! c =
    if decide (c ∈ shared)
    then match that !! c with
         | Some v => if isna v then this !! c else Some v
         | None => this !! c
         end
    else this !! c.
Proof.
  induction shared as [|x shared IH].
  - by rewrite decide_False by set_solver.
  - change (update_cells (x :: shared) that this)
      with (match that !! x with
            | Some v => if isna v then update_cells shared that this
                        else <[x := v]> (update_cells shared that this)
            | None => update_cells shared that this
            end).
    destruct (decide (x = c)) as [->|Hne].
    + rewrite (decide_True (P := c ∈ c :: shared)) by set_solver.
      destruct (that !! c) as [v|] eqn:E.
      * destruct (isna v) eqn:Ev.
        -- rewrite IH. case_decide; [by rewrite ?E, ?Ev | done].
        -- by rewrite lookup_insert_eq.
      * rewrite IH. case_decide; [by rewrite ?E | done].
    + assert (match that !! x with
            | Some v => if isna v then update_cells shared that this
                        else <[x := v]> (update_cells shared that this)
            | None => update_cells shared that this
            end !! c
              = update_cells shared that this !! c) as ->.
      { destruct (that !! x) as [v|]; [|done].
        destruct (isna v); [done|]. by rewrite lookup_insert_ne. }
      rewrite IH. repeat case_decide; try done; set_solver.
Qed.

Lemma date_update_row shared other r : date (update_row shared other r) = date r.
Proof. unfold update_row. by destruct (row_at _ _). Qed.

(** The cell of an updated row: the other frame's cell when the column is
    shared and that cell is not NaN, the row's own cell otherwise. *)
Lemma cell_update_row shared other r c :
  cell (update_row shared other r) c =
    match row_at (date r) other with
    | Some o => if decide (c ∈ shared)
                then (if isna (cell o c) then cell r c else cell o c)
                else cell r c
    | None => cell r c
    end.
Proof.
  unfold update_row. destruct (row_at _ _) as [o|]; [|done].
  unfold cell; simpl. rewrite lookup_update_cells.
  case_decide; [|done].
  destruct (cells o !! c) as [v|]; simpl; [|done].
  by destruct (isna v).
Qed.

Lemma lookup_update_row_other shared other r c :
  c ∉ shared → cells (update_row shared other r) !! c = cells r !! c.
Proof.
  intros Hc. unfold update_row. destruct (row_at _ _) as [o|]; [|done].
  simpl. by rewrite lookup_update_cells, decide_False.
Qed.

Lemma dom_update_cells shared (that this : gmap string float) :
  list_to_set shared ⊆ dom this →
  dom (update_cells shared that this) = dom this.
Proof.
  intros Hsub. apply set_eq. intros c.
  rewrite !elem_of_dom, lookup_update_cells.
  case_decide as Hin; [|done].
  assert (is_Some (this !! c)) as Hs.
  { apply elem_of_dom, Hsub. by apply elem_of_list_to_set. }
  destruct (that !! c) as [v|]; [|done].
  destruct (isna v); [done|]. split; [done | eauto].
Qed.

Lemma update_Ok self other :
  NoDup (dates other) →
  update self other
  = Ok {| columns := columns self;
          rows := update_row (filter (λ c, c ∈ columns other) (columns self)) other
                    <$> rows self |}.
Proof. intros Hnd. unfold update. by rewrite decide_True. Qed.

Lemma update_Raise self other :
  ¬ NoDup (dates other) → update self other = Raise ValueError.
Proof. intros Hnd. unfold update. by rewrite decide_False. Qed.

End Update.

(** ** Index difference and label selection *)

Section Labels.

Lemma elem_of_difference_dates (a b : list Z) d :
  d ∈ difference a b ↔ d ∈ a ∧ d ∉ b.
Proof.
  unfold difference.
  rewrite merge_sort_Permutation, elem_of_remove_dups, list_elem_of_filter. tauto.
Qed.

Lemma NoDup_difference (a b : list Z) : NoDup (difference a b).
Proof. unfold difference. rewrite merge_sort_Permutation. apply NoDup_remove_dups. Qed.

Lemma filter_date_absent (l : list Row) d :
  d ∉ date <$> l → filter (λ r, date r = d) l = [].
Proof.
  induction l as [|x l IH]; [done|]. rewrite fmap_cons, not_elem_of_cons.
  intros [Hx Hl]. rewrite filter_cons_False by congruence. by apply IH.
Qed.

Lemma dates_filter_eq (l : list Row) d :
  NoDup (date <$> l) → d ∈ date <$> l →
  date <$> filter (λ r, date r = d) l = [d].
Proof.
  induction l as [|x l IH]; [by intros _ ?%elem_of_nil|].
  rewrite fmap_cons. intros [Hx Hnd]%NoDup_cons Hin.
  destruct (decide (date x = d)) as [E|E].
  - rewrite filter_cons_True by done. rewrite fmap_cons, E. f_equal.
    rewrite filter_date_absent; [done | by rewrite <-E].
  - rewrite filter_cons_False by done.
    apply IH; [done|]. apply elem_of_cons in Hin as [?|?]; [congruence | done].
Qed.

Lemma dates_loc labels df :
  NoDup (dates df) → (∀ d, d ∈ labels → d ∈ dates df) →
  dates (loc labels df) = labels.
Proof.
  intros Hnd. unfold dates, loc; simpl.
  induction labels as [|d labels IH]; intros Hsub; csimpl; [done|].
  rewrite fmap_app, IH by (intros; apply Hsub; by right).
  rewrite dates_filter_eq; [done | done | apply Hsub; left].
Qed.

Lemma elem_of_loc labels df r :
  r ∈ rows (loc labels df) ↔ r ∈ rows df ∧ date r ∈ labels.
Proof.
  unfold loc; simpl. rewrite list_elem_of_bind. split.
  - intros (d & Hr & Hd). apply list_elem_of_filter in Hr as [<- Hr]. done.
  - intros [Hr Hd]. exists (date r). split; [|done].
    by apply list_elem_of_filter.
Qed.

End Labels.

(** ** The batch merge, unfolded *)

Section BatchMerge.

Implicit Types (hist res : DataFrame) (r hr : Row) (c : string).

Lemma date_align hist last90 r : date (align hist last90 r) = date r.
Proof. unfold align. by destruct (difference _ _). Qed.

Lemma upsert_90d_empty hist last90 :
  rows hist = [] → upsert_90d_into_history hist last90 = Ok last90.
Proof. unfold upsert_90d_into_history. by intros ->. Qed.

Lemma upsert_90d_duplicates hist last90 :
  rows hist ≠ [] → ¬ NoDup (dates last90) →
  upsert_90d_into_history hist last90 = Raise ValueError.
Proof.
  intros Hne Hnd. unfold upsert_90d_into_history.
  destruct (rows hist); [done|]. by rewrite update_Raise.
Qed.

Lemma upsert_90d_Ok hist last90 :
  rows hist ≠ [] → NoDup (dates last90) →
  upsert_90d_into_history hist last90
  = Ok (sort_values
          {| columns := merged_columns hist last90;
             rows := (align hist last90
                        <$> (update_row (shared_columns hist last90) last90
                               <$> rows hist))
                     ++ (align hist last90
                           <$> rows (loc (difference (dates last90) (dates hist))
                                         last90)) |}).
Proof.
  intros Hne Hnd. unfold upsert_90d_into_history.
  destruct (rows hist) as [|r0 rs] eqn:Hrows; [done|].
  rewrite update_Ok by done. cbn [bind].
  assert (dates {| columns := columns hist;
                   rows := update_row (filter (λ c, c ∈ columns last90) (columns hist))
                             last90 <$> rows hist |} = dates hist) as ->.
  { unfold dates; cbn [rows]. rewrite <-list_fmap_compose.
    apply list_fmap_ext. intros ? r _. apply date_update_row. }
  unfold align, merged_columns, shared_columns. rewrite Hrows.
  destruct (difference (dates last90) (dates hist)) as [|d ds] eqn:Hdiff.
  - do 2 f_equal. cbn [loc rows mbind list_bind]. 
    by rewrite app_nil_r, list_fmap_id.
  - done.
Qed.

Lemma upsert_90d_dates hist last90 res :
  rows hist ≠ [] →
  upsert_90d_into_history hist last90 = Ok res →
  NoDup (dates last90) ∧
  dates res ≡ₚ dates hist ++ difference (dates last90) (dates hist).
Proof.
  intros Hne Hres.
  destruct (decide (NoDup (dates last90))) as [Hnd|Hnd];
    [|by rewrite upsert_90d_duplicates in Hres].
  split; [done|].
  rewrite upsert_90d_Ok in Hres by done. injection Hres as <-.
  rewrite dates_sort_values_Permutation. unfold dates at 1; cbn [rows].
  rewrite fmap_app, <-!list_fmap_compose.
  f_equiv.
  - apply reflexive_eq, list_fmap_ext. intros ? r _; simpl.
    by rewrite date_align, date_update_row.
  - apply reflexive_eq.
    rewrite <-(dates_loc (difference (dates last90) (dates hist)) last90) at 2;
      [|done|by intros d [? _]%elem_of_difference_dates].
    apply list_fmap_ext. intros ? r _; simpl. apply date_align.
Qed.

(** No date twice in the merged frame. *)
Lemma upsert_90d_NoDup hist last90 res :
  NoDup (dates hist) → NoDup (dates last90) →
  upsert_90d_into_history hist last90 = Ok res →
  NoDup (dates res).
Proof.
  intros Hh Hb Hres. destruct (rows hist) as [|r0 rs] eqn:Hrows.
  - rewrite upsert_90d_empty in Hres by done. by injection Hres as <-.
  - apply upsert_90d_dates in Hres as [_ ->]; [|by rewrite Hrows].
    apply NoDup_app. split_and!; [done| |apply NoDup_difference].
    intros d Hd [_ Hd']%elem_of_difference_dates. done.
Qed.

(** The row of the merged frame at a date of the history: the history's
    row, updated, then aligned. *)
Lemma upsert_90d_row_at hist last90 hr :
  NoDup (dates hist) → NoDup (dates last90) → hr ∈ rows hist →
  ∃ res,
    upsert_90d_into_history hist last90 = Ok res ∧
    columns res = merged_columns hist last90 ∧
    row_at (date hr) res
    = Some (align hist last90
              (update_row (shared_columns hist last90) last90 hr)).
Proof.
  intros Hh Hb Hin.
  assert (rows hist ≠ []) as Hne by (intros E; rewrite E in Hin; by inv Hin).
  eexists. split; [by apply upsert_90d_Ok|]. split; [done|].
  assert (∀ l : list Row, date <$> (align hist last90
                 <$> (update_row (shared_columns hist last90) last90 <$> l))
               = date <$> l) as Hdates.
  { intros l. rewrite <-!list_fmap_compose. apply list_fmap_ext.
    intros ? r _; simpl. by rewrite date_align, date_update_row. }
  rewrite row_at_sort_values.
  - unfold row_at; cbn [rows]. rewrite find_row_app.
    rewrite !find_row_fmap by (intros; first [apply date_align | apply date_update_row]).
    by rewrite (find_row_NoDup (rows hist) hr).
  - unfold dates at 1; cbn [rows]. rewrite fmap_app, Hdates.
    assert (date <$> (align hist last90
              <$> rows (loc (difference (dates last90) (dates hist)) last90))
            = difference (dates last90) (dates hist)) as ->.
    { rewrite <-(dates_loc (difference (dates last90) (dates hist)) last90) at 2;
        [|done|by intros d [? _]%elem_of_difference_dates].
      unfold dates. rewrite <-list_fmap_compose. apply list_fmap_ext.
      intros ? r _; simpl. apply date_align. }
    apply NoDup_app. split_and!; [done| |apply NoDup_difference].
    intros d Hd [_ Hd']%elem_of_difference_dates. done.
Qed.

Lemma cell_align hist last90 r c :
  c ∈ columns hist → cell (align hist last90 r) c = cell r c.
Proof.
  intros Hc. unfold align, merged_columns.
  destruct (difference _ _); [done|].
  apply cell_reindex_row. set_solver.
Qed.

End BatchMerge.

(** ** The derived columns *)

Section Derive.

Implicit Types (r : Row) (cols targets : list string) (ccy : string).

Lemma length_append (s t : string) :
  String.length (s +:+ t) = (String.length s + String.length t)%nat.
Proof.
  induction s as [|a s IH]; [done|].
  change (S (String.length (s +:+ t)) = S (String.length s + String.length t)).
  by rewrite IH.
Qed.

Lemma append_inj_r (s1 s2 t : string) : s1 +:+ t = s2 +:+ t → s1 = s2.
Proof.
  revert s2. induction s1 as [|a s1 IH]; intros [|b s2] E.
  - done.
  - apply (f_equal String.length) in E.
    rewrite !length_append in E. simpl in E. lia.
  - apply (f_equal String.length) in E.
    rewrite !length_append in E. simpl in E. lia.
  - change (String a (s1 +:+ t) = String b (s2 +:+ t)) in E.
    injection E as -> E. f_equal. by apply IH.
Qed.

#[local] Instance derived_name_inj : Inj (=) (=) derived_name.
Proof. intros s1 s2. apply append_inj_r. Qed.

Lemma derive_loop_preserve cols r targets (out : gmap string float) k :
  (∀ ccy, ccy ∈ targets → ccy ≠ "EUR" → derived_name ccy ≠ k) →
  foldl (derive_step cols r) out targets !! k = out !! k.
Proof.
  revert out. induction targets as [|t ts IH]; intros out Hk; [done|].
  cbn [foldl]. rewrite IH by (intros; apply Hk; [by right | done]).
  unfold derive_step. repeat case_decide; try done.
  rewrite lookup_insert_ne; [done|]. apply Hk; [left | done].
Qed.

Lemma derive_loop_lookup cols r targets (out : gmap string float) ccy :
  ccy ∈ targets → ccy ≠ "EUR" → ccy ∈ cols →
  foldl (derive_step cols r) out targets !! derived_name ccy
  = Some (div (cell r "PLN") (cell r ccy)).
Proof.
  revert out. induction targets as [|t ts IH]; intros out Hin Hne Hc;
    [by apply elem_of_nil in Hin|].
  cbn [foldl]. destruct (decide (ccy ∈ ts)) as [Hts|Hts]; [by apply IH|].
  apply elem_of_cons in Hin as [<-|?]; [|done].
  rewrite derive_loop_preserve.
  - unfold derive_step. rewrite decide_False, decide_True by done.
    apply lookup_insert_eq.
  - intros t Ht _ E. apply (inj derived_name) in E. by subst.
Qed.

(** A target other than EUR that is a column of the frame: the quotient of
    the PLN cell by the target's cell. *)
Lemma derive_cells_lookup cols targets r ccy :
  ccy ∈ targets → ccy ≠ "EUR" → ccy ∈ cols →
  derive_cells cols targets r !! derived_name ccy
  = Some (div (cell r "PLN") (cell r ccy)).
Proof. intros. unfold derive_cells. by apply derive_loop_lookup. Qed.

(** The EUR target: the PLN cell itself. *)
Lemma derive_cells_lookup_EUR cols targets r :
  "EUR" ∈ targets →
  derive_cells cols targets r !! "EUR_PLN" = Some (cell r "PLN").
Proof.
  intros HE. unfold derive_cells. rewrite decide_True by done.
  etrans; [apply (derive_loop_preserve cols r)|apply lookup_insert_eq].
  intros t _ Hne E. apply Hne. by apply (inj derived_name).
Qed.

Lemma compute_pln_rates_Ok df targets :
  "PLN" ∈ columns df → "date" ∉ targets →
  compute_pln_rates df targets
  = Ok (sort_values
          (dropna_all (derive_columns (columns df) targets)
             {| columns := derive_columns (columns df) targets;
                rows := (λ r, {| date := date r;
                                 cells := derive_cells (columns df) targets r |})
                          <$> rows df |})).
Proof.
  intros HPLN Hdate. unfold compute_pln_rates.
  by rewrite decide_True, decide_False.
Qed.

(** Every output row stems from an input row of the same date. *)
Lemma compute_pln_rates_rows df targets out r' :
  compute_pln_rates df targets = Ok out → r' ∈ rows out →
  ∃ r, r ∈ rows df ∧ date r' = date r ∧
       cells r' = derive_cells (columns df) targets r.
Proof.
  unfold compute_pln_rates. repeat case_decide; try done.
  intros [= <-]. rewrite elem_of_sort_values. unfold dropna_all; cbn [rows].
  intros [_ (r & -> & Hr)%list_elem_of_fmap]%list_elem_of_filter.
  by exists r.
Qed.

Lemma NoDup_dates_filter (P : Row → Prop) `{∀ r, Decision (P r)} (l : list Row) :
  NoDup (date <$> l) → NoDup (date <$> filter P l).
Proof.
  induction l as [|x l IH]; [done|].
  rewrite fmap_cons. intros [Hx Hnd]%NoDup_cons.
  rewrite filter_cons. case_decide; [|by apply IH].
  rewrite fmap_cons. apply NoDup_cons. split; [|by apply IH].
  intros (r & E & [_ Hr]%list_elem_of_filter)%list_elem_of_fmap.
  apply Hx. rewrite E. by apply list_elem_of_fmap_2.
Qed.

Lemma compute_pln_rates_NoDup df targets out :
  NoDup (dates df) → compute_pln_rates df targets = Ok out → NoDup (dates out).
Proof.
  unfold compute_pln_rates. repeat case_decide; try done.
  intros Hnd [= <-]. apply NoDup_sort_values.
  unfold dates, dropna_all; cbn [rows].
  apply NoDup_dates_filter. by rewrite <-list_fmap_compose.
Qed.

End Derive.

(** ** The daily insert, unfolded *)

Section Daily.

Implicit Types (history res : DataFrame) (r hr : Row) (c : string).

Lemma upsert_daily_row_empty history today_row :
  rows today_row = [] → upsert_daily_row history today_row = Ok history.
Proof. unfold upsert_daily_row. by intros ->. Qed.

Lemma upsert_daily_row_present history today_row r0 rest :
  rows today_row = r0 :: rest → date r0 ∈ dates history →
  upsert_daily_row history today_row = Ok history.
Proof. unfold upsert_daily_row. intros -> Hd. by rewrite decide_True. Qed.

Lemma upsert_daily_row_absent history today_row r0 rest :
  rows today_row = r0 :: rest → date r0 ∉ dates history →
  upsert_daily_row history today_row
  = if decide (Forall (λ c, c ∈ columns today_row)
                 (columns (add_missing_columns (columns today_row) history)))
    then Ok (daily_inserted history today_row)
    else Raise KeyError.
Proof.
  unfold upsert_daily_row, daily_inserted, select. intros E Hd.
  rewrite E, decide_False by done. rewrite <-E. cbn zeta.
  by case_decide.
Qed.

(** The selection [today_row[history.columns]] succeeds exactly when today's
    row carries every column of the history. *)
Lemma select_today_columns history today_row :
  Forall (λ c, c ∈ columns today_row)
    (columns (add_missing_columns (columns today_row) history))
  ↔ ∀ c, c ∈ columns history → c ∈ columns today_row.
Proof.
  destruct (add_missing_columns_spec (columns today_row) history) as [Hc _].
  rewrite Forall_forall. split.
  - intros H c Hin. apply H, Hc. by left.
  - intros H c [?|?]%Hc; [by apply H | done].
Qed.

Lemma filter_not_elem_of_self (l : list string) : filter (λ c, c ∉ l) l = [].
Proof.
  destruct (filter (λ c, c ∉ l) l) as [|x k] eqn:E; [done|].
  assert (x ∈ filter (λ c, c ∉ l) l) as [? ?]%list_elem_of_filter
    by (rewrite E; left).
  done.
Qed.

Lemma columns_daily_inserted history today_row c :
  c ∈ columns (daily_inserted history today_row)
  ↔ c ∈ columns history ∨ c ∈ columns today_row.
Proof.
  destruct (add_missing_columns_spec (columns today_row) history) as [Hc _].
  unfold daily_inserted, concat; cbn [columns sort_values].
  by rewrite filter_not_elem_of_self, app_nil_r.
Qed.

Lemma dates_daily_inserted history today_row :
  dates (daily_inserted history today_row) ≡ₚ dates history ++ dates today_row.
Proof.
  unfold daily_inserted. rewrite dates_sort_values_Permutation, dates_concat.
  rewrite dates_add_missing_columns. f_equiv.
  unfold dates; cbn [rows]. by rewrite <-list_fmap_compose.
Qed.

(** A row of the history after the insert: its own cells on the columns it
    had, NaN on the columns that came with today's row. *)
Lemma daily_inserted_row_at history today_row hr :
  NoDup (dates history ++ dates today_row) → hr ∈ rows history →
  ∃ r', row_at (date hr) (daily_inserted history today_row) = Some r' ∧
        (∀ c, c ∈ columns history → cells r' !! c = Some (cell hr c)) ∧
        (∀ c, c ∉ columns history → c ∈ columns today_row →
              cells r' !! c = Some nan).
Proof.
  intros Hnd Hin.
  pose proof (columns_daily_inserted history today_row) as Hcols.
  assert (NoDup (dates history)) as Hh by (by apply NoDup_app in Hnd as [? _]).
  destruct (add_missing_columns_spec (columns today_row) history)
    as [Hc (f & Hrows & Hf)].
  unfold daily_inserted in *. cbn zeta in *.
  set (h' := add_missing_columns (columns today_row) history) in *.
  set (today := {| columns := columns h';
                   rows := reindex_row (columns h') <$> rows today_row |}) in *.
  exists (reindex_row (columns (concat h' today)) (f hr)). split_and!.
  - rewrite row_at_sort_values.
    + unfold row_at, concat; cbn [rows]. rewrite find_row_app.
      rewrite find_row_fmap by done. rewrite Hrows.
      rewrite find_row_fmap by (intros r; apply Hf).
      by rewrite (find_row_NoDup (rows history) hr).
    + rewrite dates_concat. subst h'. rewrite dates_add_missing_columns.
      assert (dates today = dates today_row) as ->; [|done].
      unfold dates, today; cbn [rows]. by rewrite <-list_fmap_compose.
  - intros c Hcol. rewrite lookup_reindex_row.
    rewrite decide_True by (apply Hcols; by left).
    unfold cell. destruct (Hf hr) as [_ ->]. by rewrite decide_True.
  - intros c Hcol Ht. rewrite lookup_reindex_row.
    rewrite decide_True by (apply Hcols; by right).
    unfold cell. destruct (Hf hr) as [_ ->].
    by rewrite decide_False, decide_True.
Qed.

End Daily.

(** * The claims *)

(** Decide a closed proposition by evaluating its decision procedure. *)
Ltac by_computation :=
  match goal with
  | |- ?P => apply (bool_decide_unpack P); vm_compute; exact I
  end.

(** Settle a statement about every member of a concrete list by going
    through its members. *)
Ltac by_members :=
  let c := fresh "c" in
  let Hc := fresh "Hc" in
  intros c Hc; vm_compute in Hc;
  repeat (apply elem_of_cons in Hc as [->|Hc]; [by_computation|]);
  by apply elem_of_nil in Hc.

(** The literals are the binary64 values nearest to the decimals. *)
Example f4_35_decimal : f4_35 = div (of_pos 435) (of_pos 100).
Proof. vm_compute. reflexivity. Qed.

Example f1_10_decimal : f1_10 = div (of_pos 11) (of_pos 10).
Proof. vm_compute. reflexivity. Qed.

Example f1_12_decimal : f1_12 = div (of_pos 112) (of_pos 100).
Proof. vm_compute. reflexivity. Qed.

(** ** Daily insert-if-absent *)

(** C5.  When the date of the daily observation is already a row of the
    history, [upsert_daily_row] returns the history itself: no row, column
    or cell changes, whatever values the observation carries. *)
Theorem upsert_daily_row_existing_date_unchanged history today_row r0 rest :
  rows today_row = r0 :: rest →
  date r0 ∈ dates history →
  upsert_daily_row history today_row = Ok history.
Proof.
  intros Hrows Hd. unfold upsert_daily_row.
  rewrite Hrows. cbn zeta.
  destruct (decide (date r0 ∈ dates history)) as [_|Hnot]; [reflexivity|].
  by destruct Hnot.
Qed.

Lemma upsert_daily_row_existing_date_unchanged_witness :
  upsert_daily_row hist_jan5 obs_jan5 = Ok hist_jan5
  ∧ row_at d2024_01_05 hist_jan5 = Some (mkrow d2024_01_05 [("USD", f1_10)])
  ∧ cell (mkrow d2024_01_05 [("USD", f1_10)]) "USD" = f1_10.
Proof.
  split; [|split; reflexivity].
  apply (upsert_daily_row_existing_date_unchanged hist_jan5 obs_jan5
           (mkrow d2024_01_05 [("USD", f1_12)]) []).
  - reflexivity.
  - vm_compute. left.
Defined.

(** ** Batch merge *)

(** C10.  In [upsert_90d_into_history] a missing (NaN) cell of the batch
    never overwrites a recorded value: for a date of the history that the
    batch also has, on a column of both, where the batch's cell is NaN and
    the history holds a value, the merged row keeps the history's value.
    Histories and batches have one row per date. *)
Theorem upsert_90d_nan_keeps_recorded_value hist last90 hr br c v :
  NoDup (dates hist) →
  NoDup (dates last90) →
  hr ∈ rows hist →
  row_at (date hr) last90 = Some br →
  c ∈ columns hist →
  c ∈ columns last90 →
  isna (cell br c) = true →
  cells hr !! c = Some v →
  isna v = false →
  ∃ res r',
    upsert_90d_into_history hist last90 = Ok res ∧
    row_at (date hr) res = Some r' ∧
    cells r' !! c = Some v.
Proof.
  intros Hh Hb Hin Hbr Hc Hc' Hna Hv Hnv.
  destruct (upsert_90d_row_at hist last90 hr Hh Hb Hin) as (res & Hres & _ & Hrow).
  exists res, (align hist last90 (update_row (shared_columns hist last90) last90 hr)).
  split_and!; [done..|].
  assert (cells (update_row (shared_columns hist last90) last90 hr) !! c = Some v)
    as Hupd.
  { unfold update_row. rewrite Hbr; simpl. rewrite lookup_update_cells.
    case_decide; [|done]. unfold cell in Hna.
    destruct (cells br !! c) as [w|]; simpl in Hna; [by rewrite Hna | done]. }
  unfold align. destruct (difference _ _); [done|].
  rewrite lookup_reindex_row, decide_True.
  - unfold cell. by rewrite Hupd.
  - unfold merged_columns. destruct (difference _ _); set_solver.
Qed.

Lemma upsert_90d_nan_keeps_recorded_value_witness :
  ∃ res r',
    upsert_90d_into_history hist_usd_gbp batch_usd_nan = Ok res ∧
    row_at d2024_01_01 res = Some r' ∧
    cells r' !! "USD" = Some f1_10.
Proof.
  apply (upsert_90d_nan_keeps_recorded_value hist_usd_gbp batch_usd_nan
           (mkrow d2024_01_01 [("USD", f1_10); ("GBP", f0_79)])
           (mkrow d2024_01_01 [("USD", nan)]) "USD" f1_10).
  - vm_compute. apply NoDup_singleton.
  - vm_compute. apply NoDup_singleton.
  - vm_compute. left.
  - reflexivity.
  - vm_compute. left.
  - vm_compute. left.
  - reflexivity.
  - reflexivity.
  - reflexivity.
Defined.

(** The cells of a merged row on the columns of the history: the batch's
    value where the batch has one for that date and column, the history's
    value otherwise. *)
Lemma upsert_90d_partial_update hist last90 hr :
  NoDup (dates hist) →
  NoDup (dates last90) →
  hr ∈ rows hist →
  ∃ res r',
    upsert_90d_into_history hist last90 = Ok res ∧
    row_at (date hr) res = Some r' ∧
    ∀ c, c ∈ columns hist →
         cell r' c =
           match row_at (date hr) last90 with
           | Some br => if decide (c ∈ columns last90)
                        then (if isna (cell br c) then cell hr c else cell br c)
                        else cell hr c
           | None => cell hr c
           end.
Proof.
  intros Hh Hb Hin.
  destruct (upsert_90d_row_at hist last90 hr Hh Hb Hin) as (res & Hres & _ & Hrow).
  eexists _, _. split_and!; [done..|].
  intros c Hc. rewrite cell_align, cell_update_row by done.
  destruct (row_at (date hr) last90) as [br|]; [|done].
  unfold shared_columns.
  destruct (decide (c ∈ columns last90)) as [Hc'|Hc'].
  - by rewrite decide_True by (by apply list_elem_of_filter).
  - by rewrite decide_False by (by intros [? _]%list_elem_of_filter).
Qed.

(** C1.  For a date that is a row of both the history and the batch, the
    batch's values on the columns of the history are written
    ([upsert_90d_partial_update]), but a value for a currency that is not
    yet a column of the history is dropped: [update] only visits the
    columns of the history, and [concat], which would add the column, runs
    for new dates only.  Here the batch's XYZ = 5.0 for 2024-01-01 is not in
    the merged frame, which has no XYZ column at all. *)
Theorem upsert_90d_drops_new_currency_on_existing_date :
  upsert_90d_into_history hist_usd obs_usd_xyz
  = Ok {| columns := ["USD"];
          rows := [mkrow d2024_01_01 [("USD", f1_12)]] |}
  ∧ row_at d2024_01_01 obs_usd_xyz
    = Some (mkrow d2024_01_01 [("USD", f1_12); ("XYZ", f5_0)])
  ∧ cells (mkrow d2024_01_01 [("USD", f1_12)]) !! "XYZ" = None.
Proof. split_and!; vm_compute; reflexivity. Qed.

(** *** Merging a batch again *)

(** A row that already holds every non-NaN value the other frame has for its
    date is left as it is by [update]. *)
Lemma update_row_fixed shared other (r : Row) :
  (∀ o c v, row_at (date r) other = Some o → c ∈ shared →
            cells o !! c = Some v → isna v = false → cells r !! c = Some v) →
  update_row shared other r = r.
Proof.
  intros Hfix. unfold update_row.
  destruct (row_at (date r) other) as [o|] eqn:Ho; [|done].
  destruct r as [d m]; cbn [date cells] in *. f_equal.
  apply map_eq. intros c. rewrite lookup_update_cells.
  case_decide as Hc; [|done].
  destruct (cells o !! c) as [v|] eqn:Hv; [|done].
  destruct (isna v) eqn:Hna; [done|].
  symmetry. by apply (Hfix o c v).
Qed.

(** A frame in date order that has all the dates of the batch and all its
    values is returned as it is. *)
Lemma upsert_90d_fixed res last90 :
  ascending res →
  NoDup (dates last90) →
  rows res ≠ [] →
  (∀ d, d ∈ dates last90 → d ∈ dates res) →
  (∀ r, r ∈ rows res →
        update_row (shared_columns res last90) last90 r = r) →
  upsert_90d_into_history res last90 = Ok res.
Proof.
  intros Hasc Hb Hne Hsub Hfix.
  rewrite upsert_90d_Ok by done.
  assert (difference (dates last90) (dates res) = []) as Hdiff.
  { destruct (difference (dates last90) (dates res)) as [|d ds] eqn:E; [done|].
    assert (d ∈ difference (dates last90) (dates res)) as Hd by (rewrite E; left).
    apply elem_of_difference_dates in Hd as [Hd Hd']. exfalso. by apply Hd', Hsub. }
  unfold merged_columns, align. rewrite Hdiff.
  cbn [loc rows mbind list_bind]. rewrite app_nil_r, list_fmap_id.
  assert (update_row (shared_columns res last90) last90 <$> rows res = rows res)
    as ->.
  { rewrite <-(list_fmap_id (rows res)) at 2.
    apply list_fmap_ext. intros ? r Hr. unfold id. apply Hfix.
    by apply list_elem_of_lookup_2 in Hr. }
  f_equal. etrans; [|exact (sort_values_ascending res Hasc)]. by destruct res.
Qed.

Lemma lookup_align_Some hist last90 (r : Row) c v :
  c ∈ columns hist → cells r !! c = Some v →
  cells (align hist last90 r) !! c = Some v.
Proof.
  intros Hc Hv. unfold align, merged_columns.
  destruct (difference _ _); [done|].
  rewrite lookup_reindex_row, decide_True by set_solver.
  unfold cell. by rewrite Hv.
Qed.

(** Idempotence where the defect of C3 cannot show: a batch whose currencies
    are all columns of the history already.  Merged once more, the result
    of the merge comes back unchanged. *)
Lemma upsert_90d_idempotent_known_currencies hist last90 res :
  NoDup (dates hist) →
  rows hist ≠ [] →
  (∀ c, c ∈ columns last90 → c ∈ columns hist) →
  upsert_90d_into_history hist last90 = Ok res →
  upsert_90d_into_history res last90 = Ok res.
Proof.
  intros Hh Hne Hcols Hres.
  destruct (upsert_90d_dates hist last90 res Hne Hres) as [Hb Hdates].
  pose proof (upsert_90d_NoDup hist last90 res Hh Hb Hres) as Hnd.
  rewrite upsert_90d_Ok in Hres by done. injection Hres as Hres.
  assert (ascending res) as Hasc by (rewrite <-Hres in *; by apply ascending_sorted).
  assert (∀ r, r ∈ rows res ↔
               (∃ hr, hr ∈ rows hist ∧
                      r = align hist last90
                            (update_row (shared_columns hist last90) last90 hr))
               ∨ (∃ br, br ∈ rows last90 ∧
                        date br ∈ difference (dates last90) (dates hist) ∧
                        r = align hist last90 br)) as Hrows.
  { intros r. rewrite <-Hres, elem_of_sort_values. cbn [rows].
    rewrite elem_of_app, !list_elem_of_fmap. split.
    - intros [(u & -> & (hr & -> & Hin)%list_elem_of_fmap)|(br & -> & Hin)].
      + left. eauto.
      + right. apply elem_of_loc in Hin as [? ?]. eauto.
    - intros [(hr & Hin & ->)|(br & Hin & Hd & ->)].
      + left. eexists. split; [done|]. apply list_elem_of_fmap. eauto.
      + right. exists br. split; [done|]. by apply elem_of_loc. }
  assert (columns res = merged_columns hist last90) as Hcolumns by (by rewrite <-Hres).
  apply upsert_90d_fixed; [done|done| | |].
  - intros E. destruct (rows hist) as [|h0 hs] eqn:Hh0; [done|].
    assert (align hist last90
              (update_row (shared_columns hist last90) last90 h0) ∈ rows res) as Hin.
    { apply Hrows. left. exists h0. split; [rewrite ?Hh0; left | done]. }
    rewrite E in Hin. by inv Hin.
  - intros d Hd. rewrite Hdates, elem_of_app, elem_of_difference_dates.
    destruct (decide (d ∈ dates hist)); tauto.
  - intros r Hr. apply update_row_fixed. intros o c v Ho Hc Hv Hna.
    apply list_elem_of_filter in Hc as [Hc Hc'].
    apply Hrows in Hr as [(hr & Hin & ->)|(br & Hin & Hd & ->)].
    + rewrite date_align, date_update_row in Ho.
      apply lookup_align_Some; [by apply Hcols|].
      unfold update_row. rewrite Ho. cbn [cells].
      rewrite lookup_update_cells, decide_True, Hv, Hna; [done|].
      apply list_elem_of_filter. split; [done | by apply Hcols].
    + rewrite date_align in Ho.
      assert (o = br) as ->.
      { unfold row_at in Ho. rewrite (find_row_NoDup (rows last90) br) in Ho by done.
        by injection Ho. }
      apply lookup_align_Some; [by apply Hcols | done].
Qed.

(** Into the empty history the batch is taken as it comes; merged once
    more it stays, if it came in date order. *)
Lemma upsert_90d_idempotent_empty hist last90 res :
  rows hist = [] →
  ascending last90 →
  upsert_90d_into_history hist last90 = Ok res →
  upsert_90d_into_history res last90 = Ok res.
Proof.
  intros Hempty Hasc Hres.
  rewrite upsert_90d_empty in Hres by done. injection Hres as <-.
  destruct (decide (rows last90 = [])) as [E|Hne]; [by apply upsert_90d_empty|].
  pose proof (ascending_NoDup _ Hasc) as Hb.
  apply upsert_90d_fixed; [done..|].
  intros r Hr. apply update_row_fixed. intros o c v Ho _ Hv _.
  unfold row_at in Ho. rewrite (find_row_NoDup (rows last90) r) in Ho by done.
  by injection Ho as <-.
Qed.

(** C3.  Merging the same batch twice is not merging it once when the batch
    brings a new currency together with a new date: the first merge adds
    the XYZ column through [concat] and leaves it NaN on the date the
    history already had, the second finds XYZ among the shared columns and
    fills it in. *)
Theorem upsert_90d_twice_differs :
  upsert_90d_into_history hist_usd batch_two_days = Ok merged_once
  ∧ upsert_90d_into_history merged_once batch_two_days = Ok merged_twice
  ∧ merged_once ≠ merged_twice
  ∧ (row_at d2024_01_01 merged_once ≫= λ r, cells r !! "XYZ") = Some nan
  ∧ (row_at d2024_01_01 merged_twice ≫= λ r, cells r !! "XYZ") = Some f5_0.
Proof.
  split_and!; try (vm_compute; reflexivity).
  intros E. apply (f_equal (λ df, row_at d2024_01_01 df ≫= λ r, cells r !! "XYZ")) in E.
  vm_compute in E. discriminate E.
Qed.

(** ** The deriver *)

(** C9.  [compute_pln_rates] raises its ValueError exactly when the frame has
    no PLN column; no derived frame is returned then. *)
Theorem compute_pln_rates_requires_PLN df targets :
  compute_pln_rates df targets = Raise ValueError ↔ "PLN" ∉ columns df.
Proof.
  unfold compute_pln_rates. repeat case_decide; split; try done.
Qed.

(** ** One row per date, rows in date order *)

Lemma upsert_daily_row_NoDup history today_row res :
  NoDup (dates history) →
  (length (rows today_row) ≤ 1)%nat →
  upsert_daily_row history today_row = Ok res →
  NoDup (dates res).
Proof.
  intros Hh Hlen Hres.
  destruct (rows today_row) as [|r0 [|r1 rest]] eqn:E; [| |simpl in Hlen; lia].
  - rewrite upsert_daily_row_empty in Hres by done. by injection Hres as <-.
  - destruct (decide (date r0 ∈ dates history)) as [Hd|Hd].
    + rewrite (upsert_daily_row_present _ _ r0 []) in Hres by done.
      by injection Hres as <-.
    + rewrite (upsert_daily_row_absent _ _ r0 []) in Hres by done.
      case_decide; [|done]. injection Hres as <-.
      rewrite dates_daily_inserted. unfold dates at 2. rewrite E.
      apply NoDup_app. split_and!; [done| |apply NoDup_singleton].
      intros d Hin ->%list_elem_of_singleton. done.
Qed.

(** C7.  Along any sequence of merges, daily or batch, that starts from a
    history without a repeated date (the empty one included) and hands over
    what the feeds deliver, the history reached has at most one row per
    date. *)
Theorem merges_keep_one_row_per_date history ops res :
  NoDup (dates history) →
  Forall valid_op ops →
  run_ops history ops = Ok res →
  NoDup (dates res).
Proof.
  intros Hh Hops. revert history Hh.
  induction Hops as [|op ops Hop Hops IH]; intros history Hh Hres.
  - by injection Hres as <-.
  - cbn [run_ops] in Hres.
    destruct (apply_op history op) as [h1|e] eqn:E; [|done].
    cbn [bind] in Hres. apply (IH h1); [|done].
    destruct op as [today_row|last90]; cbn [apply_op valid_op] in *.
    + by apply (upsert_daily_row_NoDup history today_row).
    + by apply (upsert_90d_NoDup history last90).
Qed.

Lemma merges_keep_one_row_per_date_witness :
  run_ops empty_history [DailyMerge obs_A; BatchMerge batch_two_days]
  = Ok merged_A_two_days
  ∧ NoDup (dates merged_A_two_days).
Proof.
  split; [vm_compute; reflexivity|].
  apply (merges_keep_one_row_per_date empty_history
           [DailyMerge obs_A; BatchMerge batch_two_days] merged_A_two_days).
  - apply NoDup_nil_2.
  - constructor; [|constructor; [|constructor]]; cbn [valid_op].
    + vm_compute. lia.
    + by_computation.
  - vm_compute. reflexivity.
Defined.

(** C8 as stated fails where a call hands a frame back untouched:
    [upsert_daily_row] returns the history as it is when the date is
    already there, also when its rows are out of order. *)
Lemma upsert_daily_row_returns_unsorted_history :
  upsert_daily_row hist_unsorted obs_jan1 = Ok hist_unsorted
  ∧ NoDup (dates hist_unsorted)
  ∧ ¬ ascending hist_unsorted.
Proof.
  split_and!.
  - vm_compute. reflexivity.
  - by_computation.
  - unfold ascending. intros H. vm_compute in H.
    apply Sorted_inv in H as [_ H]. apply HdRel_inv in H. vm_compute in H.
    discriminate H.
Qed.

(** C8, amended.  Whenever a merge or the deriver returns, its rows are
    strictly ascending by date, provided: where the call hands a frame back
    as it received it (the history, for [upsert_daily_row] with an empty
    observation frame or a date that is already there; the batch, for
    [upsert_90d_into_history] with a history without rows), that frame is
    strictly ascending; everywhere else the input is duplicate-free, in
    whatever order its rows come. *)
Theorem calls_return_rows_ascending c res :
  sorted_input c →
  run_call c = Ok res →
  ascending res.
Proof.
  destruct c as [history today_row|hist last90|df targets];
    unfold sorted_input; cbn [handed_back duplicate_free run_call].
  - destruct (rows today_row) as [|r0 rest] eqn:E.
    + intros Hasc Hres.
      rewrite upsert_daily_row_empty in Hres by done. by injection Hres as <-.
    + destruct (decide (date r0 ∈ dates history)) as [Hd|Hd]; intros Hin Hres.
      * rewrite (upsert_daily_row_present _ _ r0 rest) in Hres by done.
        by injection Hres as <-.
      * rewrite (upsert_daily_row_absent _ _ r0 rest) in Hres by done.
        case_decide; [|done]. injection Hres as <-.
        apply ascending_sorted. fold (daily_inserted history today_row).
        by rewrite dates_daily_inserted.
  - destruct (rows hist) as [|r0 rest] eqn:E.
    + intros Hasc Hres.
      rewrite upsert_90d_empty in Hres by done. by injection Hres as <-.
    + intros [Hh Hb] Hres.
      pose proof (upsert_90d_NoDup hist last90 res Hh Hb Hres) as Hnd.
      rewrite upsert_90d_Ok in Hres by (by rewrite ?E).
      injection Hres as <-. by apply ascending_sorted.
  - intros Hnd Hres.
    pose proof (compute_pln_rates_NoDup df targets res Hnd Hres) as Hnd'.
    unfold compute_pln_rates in Hres. repeat case_decide; try done.
    injection Hres as <-. by apply ascending_sorted.
Qed.

Lemma calls_return_rows_ascending_witness :
  upsert_daily_row hist_unsorted obs_jan2_xyz = Ok merged_unsorted
  ∧ ¬ ascending hist_unsorted
  ∧ ascending merged_unsorted.
Proof.
  split_and!.
  - vm_compute. reflexivity.
  - unfold ascending. intros H. vm_compute in H.
    apply Sorted_inv in H as [_ H]. apply HdRel_inv in H. vm_compute in H.
    discriminate H.
  - apply (calls_return_rows_ascending (CallDaily hist_unsorted obs_jan2_xyz)).
    + change (NoDup (dates hist_unsorted ++ dates obs_jan2_xyz)). by_computation.
    + vm_compute. reflexivity.
Defined.

(** For the two merges the condition is also necessary: a merge that
    returns rows in strict date order had an input as asked for above. *)
Lemma merges_ascending_only_if history other res :
  (upsert_daily_row history other = Ok res → ascending res →
   sorted_input (CallDaily history other))
  ∧ (upsert_90d_into_history history other = Ok res → ascending res →
     sorted_input (CallBatch history other)).
Proof.
  unfold sorted_input; cbn [handed_back duplicate_free]. split.
  - intros Hres Hasc. destruct (rows other) as [|r0 rest] eqn:E.
    + rewrite upsert_daily_row_empty in Hres by done. by injection Hres as ->.
    + destruct (decide (date r0 ∈ dates history)) as [Hd|Hd].
      * rewrite (upsert_daily_row_present _ _ r0 rest) in Hres by done.
        by injection Hres as ->.
      * rewrite (upsert_daily_row_absent _ _ r0 rest) in Hres by done.
        case_decide; [|done]. injection Hres as <-.
        apply ascending_NoDup in Hasc. by rewrite dates_daily_inserted in Hasc.
  - intros Hres Hasc. destruct (rows history) as [|r0 rest] eqn:E.
    + rewrite upsert_90d_empty in Hres by done. by injection Hres as ->.
    + destruct (upsert_90d_dates history other res) as [Hb Hperm];
        [by rewrite E|done|].
      split; [|done]. apply ascending_NoDup in Hasc. rewrite Hperm in Hasc.
      by apply NoDup_app in Hasc as [? _].
Qed.

(** ** New currencies *)

Lemma rectangular_lookup hist hr c :
  rectangular hist → hr ∈ rows hist →
  is_Some (cells hr !! c) ↔ c ∈ columns hist.
Proof.
  unfold rectangular. rewrite Forall_forall. intros Hrect Hin.
  by rewrite <-elem_of_dom, (Hrect hr Hin), elem_of_list_to_set.
Qed.

Lemma rectangular_cell hist hr c :
  rectangular hist → hr ∈ rows hist → c ∈ columns hist →
  Some (cell hr c) = cells hr !! c.
Proof.
  intros Hrect Hin Hc. apply (rectangular_lookup hist hr c) in Hc as [v Hv]; [|done..].
  unfold cell. by rewrite Hv.
Qed.

Lemma rectangular_cell_absent hist hr c :
  rectangular hist → hr ∈ rows hist → c ∉ columns hist → cell hr c = nan.
Proof.
  intros Hrect Hin Hc. unfold cell.
  destruct (cells hr !! c) as [v|] eqn:E; [|done].
  exfalso. apply Hc, (rectangular_lookup hist hr c); eauto.
Qed.

(** C6 as stated fails on the daily path when the date is already a row:
    the history comes back as it is, without the XYZ column. *)
Lemma upsert_daily_row_existing_date_adds_no_column :
  upsert_daily_row hist_usd obs_usd_xyz = Ok hist_usd
  ∧ "XYZ" ∈ columns obs_usd_xyz
  ∧ "XYZ" ∉ columns hist_usd.
Proof. split_and!; [vm_compute; reflexivity | by_computation..]. Qed.

(** C6, amended.  A one-row observation carrying a currency XYZ that is not
    yet a column of the history (one row per date).  When its date is not
    yet a row: the batch merge into a history with rows returns the history
    widened by XYZ, and into a history without rows the observation itself;
    the daily merge returns the history widened by XYZ when the observation
    carries every column of the history.  Widened: the columns of the
    history stay, XYZ is a column, the rows the history had read NaN on XYZ
    and keep their cells on the columns of the history.  When the date is
    already a row, the daily merge returns the history as it is, without
    XYZ. *)
Theorem new_currency_widens_history hist obs o xyz :
  rectangular hist →
  NoDup (dates hist) →
  rows obs = [o] →
  xyz ∈ columns obs →
  xyz ∉ columns hist →
  (date o ∉ dates hist → rows hist ≠ [] →
   ∃ res, upsert_90d_into_history hist obs = Ok res ∧ widened_by xyz hist res)
  ∧ (rows hist = [] → upsert_90d_into_history hist obs = Ok obs)
  ∧ (date o ∉ dates hist → (∀ c, c ∈ columns hist → c ∈ columns obs) →
     ∃ res, upsert_daily_row hist obs = Ok res ∧ widened_by xyz hist res)
  ∧ (date o ∈ dates hist →
     upsert_daily_row hist obs = Ok hist ∧ xyz ∉ columns hist).
Proof.
  intros Hrect Hh Hobs Hx Hnx.
  assert (dates obs = [date o]) as Hdates by (unfold dates; by rewrite Hobs).
  assert (NoDup (dates obs)) as Hb by (rewrite Hdates; apply NoDup_singleton).
  split_and!.
  - intros Hd Hne.
    eexists. split; [by apply upsert_90d_Ok|].
    assert (∃ d ds, difference (dates obs) (dates hist) = d :: ds) as (d & ds & Hdiff).
    { destruct (difference (dates obs) (dates hist)) as [|d ds] eqn:E; [|eauto].
      assert (date o ∈ difference (dates obs) (dates hist)) as Hin.
      { apply elem_of_difference_dates. split; [|done]. rewrite Hdates. left. }
      rewrite E in Hin. by inv Hin. }
    assert (merged_columns hist obs
            = columns hist ++ filter (λ c, c ∉ columns hist) (columns obs)) as Hmerged.
    { unfold merged_columns. by rewrite Hdiff. }
    assert (∀ c, c ∈ merged_columns hist obs ↔ c ∈ columns hist ∨ c ∈ columns obs)
      as Hcols.
    { intros c. rewrite Hmerged, elem_of_app, list_elem_of_filter.
      destruct (decide (c ∈ columns hist)); tauto. }
    split_and!.
    + cbn [sort_values columns]. rewrite Hmerged. by apply prefix_app_r.
    + apply Hcols; by right.
    + intros hr Hin.
      destruct (upsert_90d_row_at hist obs hr Hh Hb Hin) as (res & Hres & _ & Hrow).
      rewrite upsert_90d_Ok in Hres by done. injection Hres as <-.
      eexists. split; [exact Hrow|].
      assert (update_row (shared_columns hist obs) obs hr = hr) as ->.
      { unfold update_row. assert (row_at (date hr) obs = None) as ->; [|done].
        apply find_row_None. fold (dates obs). rewrite Hdates.
        intros E%list_elem_of_singleton. apply Hd. rewrite <-E.
        by apply list_elem_of_fmap_2. }
      unfold align. rewrite Hdiff. split.
      * rewrite lookup_reindex_row, decide_True by (apply Hcols; by right).
        by rewrite (rectangular_cell_absent hist).
      * intros c Hc. rewrite lookup_reindex_row, decide_True by (apply Hcols; by left).
        by apply (rectangular_cell hist).
  - intros Hrows. by apply upsert_90d_empty.
  - intros Hd Hsub. exists (daily_inserted hist obs). split.
    + rewrite (upsert_daily_row_absent hist obs o []) by done.
      by rewrite decide_True by (by apply select_today_columns).
    + split_and!.
      * unfold daily_inserted, concat; cbn [columns sort_values].
        rewrite filter_not_elem_of_self, app_nil_r.
        apply columns_add_missing_columns_prefix.
      * apply columns_daily_inserted; by right.
      * intros hr Hin.
        destruct (daily_inserted_row_at hist obs hr) as (r' & Hrow & Hold & Hnew);
          [|done|].
        { rewrite Hdates. apply NoDup_app. split_and!; [done| |apply NoDup_singleton].
          by intros d Hin' ->%list_elem_of_singleton. }
        exists r'. split_and!; [done|by apply Hnew|].
        intros c Hc. rewrite Hold by done. by apply (rectangular_cell hist).
  - intros Hd. split; [|done]. by apply (upsert_daily_row_present hist obs o []).
Qed.

(** The three situations of the theorem: a new date with a history that has
    rows, a history without rows, a date that is already a row. *)
Lemma new_currency_widens_history_witness :
  ((∃ res, upsert_90d_into_history hist_usd obs_jan2_xyz = Ok res
           ∧ widened_by "XYZ" hist_usd res)
   ∧ (∃ res, upsert_daily_row hist_usd obs_jan2_xyz = Ok res
             ∧ widened_by "XYZ" hist_usd res))
  ∧ upsert_90d_into_history empty_history obs_jan2_xyz = Ok obs_jan2_xyz
  ∧ (upsert_daily_row hist_usd obs_usd_xyz = Ok hist_usd
     ∧ "XYZ" ∉ columns hist_usd).
Proof.
  split; [|split].
  - destruct (new_currency_widens_history hist_usd obs_jan2_xyz
                (mkrow d2024_01_02 [("USD", f1_12); ("XYZ", f6_0)]) "XYZ")
      as (Hbatch & _ & Hdaily & _).
    + by_computation.
    + by_computation.
    + reflexivity.
    + by_computation.
    + by_computation.
    + split.
      * apply Hbatch; by_computation.
      * apply Hdaily; [by_computation | by_members].
  - destruct (new_currency_widens_history empty_history obs_jan2_xyz
                (mkrow d2024_01_02 [("USD", f1_12); ("XYZ", f6_0)]) "XYZ")
      as (_ & Hempty & _ & _).
    + by_computation.
    + by_computation.
    + reflexivity.
    + by_computation.
    + by_computation.
    + apply Hempty. reflexivity.
  - destruct (new_currency_widens_history hist_usd obs_usd_xyz
                (mkrow d2024_01_01 [("USD", f1_12); ("XYZ", f5_0)]) "XYZ")
      as (_ & _ & _ & Hpresent).
    + by_computation.
    + by_computation.
    + reflexivity.
    + by_computation.
    + by_computation.
    + apply Hpresent. by_computation.
Defined.

(** ** Cross rates *)

(** C2 as stated fails for a zero denominator: the quotient is an infinity,
    not a missing value, and the row stays in the output. *)
Lemma compute_pln_rates_zero_rate_gives_infinity :
  compute_pln_rates df_usd_zero ["USD"]
  = Ok {| columns := ["USD_PLN"];
          rows := [mkrow d2024_01_02 [("USD_PLN", pos_infinity)]] |}
  ∧ (row_at d2024_01_02 df_usd_zero ≫= λ r, cells r !! "USD") = Some pos_zero
  ∧ isna pos_infinity = false.
Proof. split_and!; vm_compute; reflexivity. Qed.

(** C2, amended.  With a PLN column (and no target named like the date
    column) [compute_pln_rates] raises nothing.  Every row of its output
    stems from a row of the input of the same date, and for every target
    other than EUR that is a column of the input the derived cell is the
    float quotient of that row's PLN cell by its target cell, whatever the
    other columns hold: missing when the denominator is missing; for a zero
    denominator an infinity, or missing when the PLN cell is itself zero or
    missing. *)
Theorem compute_pln_rates_division df targets :
  "PLN" ∈ columns df →
  "date" ∉ targets →
  ∃ out,
    compute_pln_rates df targets = Ok out ∧
    ∀ r', r' ∈ rows out →
      ∃ r, r ∈ rows df ∧ date r = date r' ∧
        ∀ ccy, ccy ∈ targets → ccy ≠ "EUR" → ccy ∈ columns df →
          let v := cell r' (derived_name ccy) in
          cells r' !! derived_name ccy = Some (div (cell r "PLN") (cell r ccy)) ∧
          (isna (cell r ccy) = true → isna v = true) ∧
          (is_zero (cell r ccy) = true →
             if is_zero (cell r "PLN") || isna (cell r "PLN")
             then isna v = true
             else is_infinity v = true).
Proof.
  intros HPLN Hdate. eexists. split; [by apply compute_pln_rates_Ok|].
  intros r' Hr'.
  destruct (compute_pln_rates_rows df targets _ r'
              (compute_pln_rates_Ok df targets HPLN Hdate) Hr')
    as (r & Hr & Hd & Hcells).
  exists r. split_and!; [done..|].
  intros ccy Ht Hne Hc.
  assert (cells r' !! derived_name ccy = Some (div (cell r "PLN") (cell r ccy)))
    as Hv by (rewrite Hcells; by apply derive_cells_lookup).
  assert (cell r' (derived_name ccy) = div (cell r "PLN") (cell r ccy)) as Hcell
    by (unfold cell at 1; by rewrite Hv).
  cbn zeta. rewrite Hcell.
  split_and!; [done| |].
  - apply isna_div_na_r.
  - apply div_zero_r.
Qed.

Lemma compute_pln_rates_division_witness :
  ∃ out,
    compute_pln_rates df_usd_zero ["USD"] = Ok out ∧
    ∀ r', r' ∈ rows out →
      ∃ r, r ∈ rows df_usd_zero ∧ date r = date r' ∧
        ∀ ccy, ccy ∈ ["USD"] → ccy ≠ "EUR" → ccy ∈ columns df_usd_zero →
          let v := cell r' (derived_name ccy) in
          cells r' !! derived_name ccy = Some (div (cell r "PLN") (cell r ccy)) ∧
          (isna (cell r ccy) = true → isna v = true) ∧
          (is_zero (cell r ccy) = true →
             if is_zero (cell r "PLN") || isna (cell r "PLN")
             then isna v = true
             else is_infinity v = true).
Proof.
  apply (compute_pln_rates_division df_usd_zero ["USD"]).
  - by_computation.
  - by_computation.
Defined.

(** C4 as stated fails on the EUR target: it is not skipped, its column is
    the PLN rate, so with EUR as the only target the output has one row. *)
Lemma scenario_A_EUR_is_not_skipped :
  upsert_daily_row empty_history obs_A = Ok obs_A
  ∧ compute_pln_rates obs_A ["EUR"]
    = Ok {| columns := ["EUR_PLN"];
            rows := [mkrow d2024_01_02 [("EUR_PLN", f4_35)]] |}.
Proof. split; vm_compute; reflexivity. Qed.

(** A loop whose body does nothing on the elements outside [P] can run on
    the elements inside [P] alone. *)
Lemma foldl_filter_skip {A B} (f : A → B → A) (P : B → Prop)
    `{∀ x, Decision (P x)} (l : list B) (acc : A) :
  (∀ acc x, ¬ P x → f acc x = acc) →
  foldl f acc (filter P l) = foldl f acc l.
Proof.
  intros Hskip. revert acc. induction l as [|x l IH]; intros acc; [done|].
  rewrite filter_cons. case_decide as Hx; cbn [foldl].
  - apply IH.
  - by rewrite (Hskip acc x Hx).
Qed.

(** The targets the deriver skips: every target but EUR that is not a
    column of the frame, the date column counted among the columns.
    Deriving with them and deriving without them is the same. *)
Lemma compute_pln_rates_skips_missing_targets df targets :
  compute_pln_rates df targets
  = compute_pln_rates df
      (filter (λ ccy, ccy = "EUR" ∨ ccy = "date" ∨ ccy ∈ columns df) targets).
Proof.
  set (kept := filter (λ ccy, ccy = "EUR" ∨ ccy = "date" ∨ ccy ∈ columns df) targets).
  assert (∀ ccy, ccy = "EUR" ∨ ccy = "date" → ccy ∈ kept ↔ ccy ∈ targets) as Hmem.
  { intros ccy Hccy. unfold kept. rewrite list_elem_of_filter. tauto. }
  assert (derive_columns (columns df) kept = derive_columns (columns df) targets)
    as Hcols.
  { unfold derive_columns.
    assert ((if decide ("EUR" ∈ kept) then ["EUR_PLN"] else [])
            = (if decide ("EUR" ∈ targets) then ["EUR_PLN"] else [])) as ->.
    { repeat case_decide; try done; exfalso; naive_solver. }
    unfold kept. apply foldl_filter_skip. intros acc ccy Hccy.
    rewrite decide_False by tauto. by rewrite decide_False by tauto. }
  assert (∀ r, derive_cells (columns df) kept r = derive_cells (columns df) targets r)
    as Hcells.
  { intros r. unfold derive_cells. cbn zeta.
    assert ((if decide ("EUR" ∈ kept)
             then <["EUR_PLN" := cell r "PLN"]> (∅ : gmap string float) else ∅)
            = (if decide ("EUR" ∈ targets)
               then <["EUR_PLN" := cell r "PLN"]> (∅ : gmap string float) else ∅))
      as ->.
    { repeat case_decide; try done; exfalso; naive_solver. }
    unfold kept. apply foldl_filter_skip. intros acc ccy Hccy.
    unfold derive_step. rewrite decide_False by tauto.
    by rewrite decide_False by tauto. }
  unfold compute_pln_rates. destruct (decide ("PLN" ∈ columns df)); [|done].
  destruct (decide ("date" ∈ targets)) as [Hd|Hd].
  - rewrite decide_True; [done|]. apply Hmem; [by right|done].
  - rewrite decide_False; [|intros ?%Hmem; [done|by right]].
    cbn zeta. cbn [columns]. rewrite Hcols. do 4 f_equal.
    apply list_fmap_ext. intros i r _. by rewrite Hcells.
Qed.

(** C4, amended.  Scenario A: the observation
    [{2024-01-02, PLN: 4.35, USD: 1.10}] merged into the empty history, by
    either merge, gives the one-row history; deriving with targets
    [EUR, USD] gives one row for 2024-01-02 with the USD rate 4.35 / 1.10
    and the EUR rate 4.35, the PLN column itself; with EUR as the only
    target one row with the EUR column alone, with USD as the only target
    one row with the USD column alone.  A target other than EUR that is not
    a column of the history is skipped: the output for any list of targets
    is the output for the list without such targets, and for the targets
    [EUR, USD, GBP, CHF] of the program it is the output for [EUR, USD]. *)
Theorem scenario_A :
  upsert_daily_row empty_history obs_A = Ok obs_A
  ∧ upsert_90d_into_history empty_history obs_A = Ok obs_A
  ∧ compute_pln_rates obs_A ["EUR"; "USD"]
    = Ok {| columns := ["EUR_PLN"; "USD_PLN"];
            rows := [mkrow d2024_01_02
                       [("EUR_PLN", f4_35); ("USD_PLN", div f4_35 f1_10)]] |}
  ∧ compute_pln_rates obs_A ["EUR"]
    = Ok {| columns := ["EUR_PLN"];
            rows := [mkrow d2024_01_02 [("EUR_PLN", f4_35)]] |}
  ∧ compute_pln_rates obs_A ["USD"]
    = Ok {| columns := ["USD_PLN"];
            rows := [mkrow d2024_01_02 [("USD_PLN", div f4_35 f1_10)]] |}
  ∧ div f4_35 f1_10 = S754_finite false 8904844717755297 (-51)
  ∧ compute_pln_rates obs_A ["EUR"; "USD"; "GBP"; "CHF"]
    = compute_pln_rates obs_A ["EUR"; "USD"]
  ∧ ∀ targets,
      compute_pln_rates obs_A targets
      = compute_pln_rates obs_A
          (filter (λ ccy, ccy = "EUR" ∨ ccy = "date" ∨ ccy ∈ columns obs_A)
             targets).
Proof.
  split_and!; [vm_compute; reflexivity..|].
  intros targets. apply compute_pln_rates_skips_missing_targets.
Qed.

(** * Further properties of the merges *)

(** ** The daily insert *)

Lemma rows_concat a b :
  rows (concat a b)
  = (reindex_row (columns (concat a b)) <$> rows a)
    ++ (reindex_row (columns (concat a b)) <$> rows b).
Proof. done. Qed.

(** X1.  For a date the history does not have yet, [upsert_daily_row] raises
    KeyError exactly when the history has a column that today's row lacks:
    [today_row[history.columns]] asks for every column of the history. *)
Theorem upsert_daily_row_raises_KeyError history today_row r0 rest :
  rows today_row = r0 :: rest →
  date r0 ∉ dates history →
  upsert_daily_row history today_row = Raise KeyError
  ↔ ∃ c, c ∈ columns history ∧ c ∉ columns today_row.
Proof.
  intros Hrows Hd. rewrite (upsert_daily_row_absent _ _ r0 rest) by done.
  case_decide as Hsel.
  - split; [done|]. intros (c & Hc & Hnc).
    exfalso. by apply Hnc, (proj1 (select_today_columns history today_row) Hsel).
  - split; [intros _|done].
    destruct (decide (Exists (λ c, c ∉ columns today_row) (columns history)))
      as [(c & ? & ?)%Exists_exists|Hnone]; [eauto|].
    exfalso. apply Hsel, (proj2 (select_today_columns history today_row)).
    intros c Hc.
    destruct (decide (c ∈ columns today_row)); [done|].
    exfalso. apply Hnone, Exists_exists. eauto.
Qed.

Lemma upsert_daily_row_raises_KeyError_witness :
  upsert_daily_row merged_A_two_days obs_jan5 = Raise KeyError
  ↔ ∃ c, c ∈ columns merged_A_two_days ∧ c ∉ columns obs_jan5.
Proof.
  apply (upsert_daily_row_raises_KeyError merged_A_two_days obs_jan5
           (mkrow d2024_01_05 [("USD", f1_12)]) []).
  - reflexivity.
  - by_computation.
Defined.

(** X2.  Insert, then look up: after the daily insert of an observation for
    a new date, the row found at that date holds the observation's value in
    every column of the observation. *)
Theorem upsert_daily_row_inserted_row history today_row o :
  NoDup (dates history) →
  rows today_row = [o] →
  date o ∉ dates history →
  (∀ c, c ∈ columns history → c ∈ columns today_row) →
  ∃ res r',
    upsert_daily_row history today_row = Ok res ∧
    row_at (date o) res = Some r' ∧
    ∀ c, c ∈ columns today_row → cells r' !! c = Some (cell o c).
Proof.
  intros Hh Hrows Hd Hsub.
  exists (daily_inserted history today_row).
  pose proof (columns_daily_inserted history today_row) as Hcols.
  destruct (add_missing_columns_spec (columns today_row) history)
    as [Hc (f & Hf & Hdate)].
  unfold daily_inserted in *. cbn zeta in *.
  set (h' := add_missing_columns (columns today_row) history) in *.
  set (today := {| columns := columns h';
                   rows := reindex_row (columns h') <$> rows today_row |}) in *.
  exists (reindex_row (columns (concat h' today)) (reindex_row (columns h') o)).
  assert (dates h' = dates history) as Hdh by apply dates_add_missing_columns.
  assert (dates today = [date o]) as Hdt
    by (unfold dates, today; cbn [rows]; by rewrite Hrows).
  split_and!.
  - rewrite (upsert_daily_row_absent history today_row o []) by done.
    by rewrite decide_True by (by apply select_today_columns).
  - rewrite row_at_sort_values.
    + unfold row_at. rewrite rows_concat, find_row_app.
      assert (find_row (date o) (reindex_row (columns (concat h' today)) <$> rows h')
              = None) as ->.
      { apply find_row_None. rewrite <-list_fmap_compose.
        by replace (date <$> rows h') with (dates history) in *. }
      unfold today at 2; cbn [rows]. rewrite Hrows.
      cbn [fmap list_fmap find_row date reindex_row].
      by rewrite decide_True.
    + rewrite dates_concat, Hdh, Hdt.
      apply NoDup_app. split_and!; [done| |apply NoDup_singleton].
      by intros d Hin ->%list_elem_of_singleton.
  - intros c Hcol. rewrite lookup_reindex_row.
    rewrite decide_True by (apply Hcols; by right).
    f_equal. apply cell_reindex_row, Hc. by right.
Qed.

Lemma upsert_daily_row_inserted_row_witness :
  ∃ res r',
    upsert_daily_row hist_usd obs_jan2_xyz = Ok res ∧
    row_at d2024_01_02 res = Some r' ∧
    ∀ c, c ∈ columns obs_jan2_xyz →
         cells r' !! c
         = Some (cell (mkrow d2024_01_02 [("USD", f1_12); ("XYZ", f6_0)]) c).
Proof.
  apply (upsert_daily_row_inserted_row hist_usd obs_jan2_xyz
           (mkrow d2024_01_02 [("USD", f1_12); ("XYZ", f6_0)])).
  - by_computation.
  - reflexivity.
  - by_computation.
  - by_members.
Defined.

(** X3.  The daily insert of a new date leaves the rows the history had
    where they were: each is still found at its date, with the cell it had
    in every column of the history. *)
Theorem upsert_daily_row_keeps_old_rows history today_row o hr :
  rectangular history →
  NoDup (dates history) →
  rows today_row = [o] →
  date o ∉ dates history →
  (∀ c, c ∈ columns history → c ∈ columns today_row) →
  hr ∈ rows history →
  ∃ res r',
    upsert_daily_row history today_row = Ok res ∧
    row_at (date hr) res = Some r' ∧
    ∀ c, c ∈ columns history → cells r' !! c = cells hr !! c.
Proof.
  intros Hrect Hh Hrows Hd Hsub Hin.
  assert (dates today_row = [date o]) as Hdt by (unfold dates; by rewrite Hrows).
  destruct (daily_inserted_row_at history today_row hr) as (r' & Hrow & Hold & _);
    [|done|].
  { rewrite Hdt. apply NoDup_app. split_and!; [done| |apply NoDup_singleton].
    by intros d Hin' ->%list_elem_of_singleton. }
  exists (daily_inserted history today_row), r'. split_and!; [|done|].
  - rewrite (upsert_daily_row_absent history today_row o []) by done.
    by rewrite decide_True by (by apply select_today_columns).
  - intros c Hc. rewrite Hold by done. by apply (rectangular_cell history).
Qed.

Lemma upsert_daily_row_keeps_old_rows_witness :
  ∃ res r',
    upsert_daily_row hist_usd obs_jan2_xyz = Ok res ∧
    row_at d2024_01_01 res = Some r' ∧
    ∀ c, c ∈ columns hist_usd →
         cells r' !! c = cells (mkrow d2024_01_01 [("USD", f1_10)]) !! c.
Proof.
  apply (upsert_daily_row_keeps_old_rows hist_usd obs_jan2_xyz
           (mkrow d2024_01_02 [("USD", f1_12); ("XYZ", f6_0)])
           (mkrow d2024_01_01 [("USD", f1_10)])).
  - by_computation.
  - by_computation.
  - reflexivity.
  - by_computation.
  - by_members.
  - vm_compute. left.
Defined.

(** ** The batch merge *)

Lemma remove_dups_NoDup (l : list Z) : NoDup l → remove_dups l = l.
Proof.
  induction 1 as [|x l Hx Hnd IH]; [done|].
  cbn [remove_dups]. destruct (decide_rel elem_of x l); [done|]. by rewrite IH.
Qed.

Lemma upsert_90d_presorted_NoDup hist last90 :
  NoDup (dates hist) → NoDup (dates last90) →
  NoDup (date <$>
           (align hist last90
              <$> (update_row (shared_columns hist last90) last90 <$> rows hist))
           ++ (align hist last90
                 <$> rows (loc (difference (dates last90) (dates hist)) last90))).
Proof.
  intros Hh Hb. rewrite fmap_app, <-!list_fmap_compose.
  assert (date ∘ align hist last90 ∘ update_row (shared_columns hist last90) last90
            <$> rows hist = dates hist) as ->.
  { apply list_fmap_ext. intros ? r _; simpl. by rewrite date_align, date_update_row. }
  assert (date ∘ align hist last90
            <$> rows (loc (difference (dates last90) (dates hist)) last90)
          = difference (dates last90) (dates hist)) as ->.
  { rewrite <-(dates_loc (difference (dates last90) (dates hist)) last90) at 2;
      [|done|by intros d [? _]%elem_of_difference_dates].
    apply list_fmap_ext. intros ? r _; simpl. apply date_align. }
  apply NoDup_app. split_and!; [done| |apply NoDup_difference].
  intros d Hd [_ Hd']%elem_of_difference_dates. done.
Qed.

(** X4.  Insert, then look up, in the batch merge: a row of the batch whose
    date the history lacks is found at that date in the merged frame, with
    the batch's value in every column of the batch and of the history (NaN
    where the batch row has no such cell). *)
Theorem upsert_90d_inserted_row hist last90 br :
  NoDup (dates hist) →
  NoDup (dates last90) →
  rows hist ≠ [] →
  br ∈ rows last90 →
  date br ∉ dates hist →
  ∃ res r',
    upsert_90d_into_history hist last90 = Ok res ∧
    row_at (date br) res = Some r' ∧
    ∀ c, c ∈ columns hist ∨ c ∈ columns last90 →
         cells r' !! c = Some (cell br c).
Proof.
  intros Hh Hb Hne Hin Hd.
  assert (date br ∈ difference (dates last90) (dates hist)) as Hdiff.
  { apply elem_of_difference_dates. split; [by apply list_elem_of_fmap_2 | done]. }
  eexists _, (align hist last90 br). split_and!; [by apply upsert_90d_Ok| |].
  - rewrite row_at_sort_values by (by apply upsert_90d_presorted_NoDup).
    unfold row_at; cbn [rows]. rewrite find_row_app.
    assert (find_row (date br)
              (align hist last90
                 <$> (update_row (shared_columns hist last90) last90 <$> rows hist))
            = None) as ->.
    { apply find_row_None. rewrite <-!list_fmap_compose.
      intros (hr & E & Hhr)%list_elem_of_fmap. simpl in E.
      rewrite date_align, date_update_row in E. apply Hd. rewrite E.
      by apply list_elem_of_fmap_2. }
    rewrite find_row_fmap by apply date_align.
    rewrite (find_row_NoDup _ br); [done| |by apply elem_of_loc].
    fold (dates (loc (difference (dates last90) (dates hist)) last90)).
    rewrite dates_loc; [apply NoDup_difference | done |].
    by intros d [? _]%elem_of_difference_dates.
  - intros c Hc. unfold align, merged_columns.
    destruct (difference (dates last90) (dates hist)) as [|d ds];
      [by apply elem_of_nil in Hdiff|].
    rewrite lookup_reindex_row, decide_True; [done|].
    rewrite elem_of_app, list_elem_of_filter.
    destruct (decide (c ∈ columns hist)); tauto.
Qed.

Lemma upsert_90d_inserted_row_witness :
  ∃ res r',
    upsert_90d_into_history hist_usd batch_two_days = Ok res ∧
    row_at d2024_01_02 res = Some r' ∧
    ∀ c, c ∈ columns hist_usd ∨ c ∈ columns batch_two_days →
         cells r' !! c
         = Some (cell (mkrow d2024_01_02 [("USD", f1_12); ("XYZ", f6_0)]) c).
Proof.
  apply (upsert_90d_inserted_row hist_usd batch_two_days
           (mkrow d2024_01_02 [("USD", f1_12); ("XYZ", f6_0)])).
  - by_computation.
  - by_computation.
  - by_computation.
  - vm_compute. right. left.
  - by_computation.
Defined.

(** X5.  The batch merge is a partial update of the rows it meets: for a
    date of both frames, in every column of the history, the merged row
    reads the batch's value where the batch has that column and a value
    that is not NaN there, and the history's own value otherwise. *)
Theorem upsert_90d_shared_date_cells hist last90 hr br c :
  NoDup (dates hist) →
  NoDup (dates last90) →
  hr ∈ rows hist →
  row_at (date hr) last90 = Some br →
  c ∈ columns hist →
  ∃ res r',
    upsert_90d_into_history hist last90 = Ok res ∧
    row_at (date hr) res = Some r' ∧
    cell r' c = if decide (c ∈ columns last90 ∧ isna (cell br c) = false)
                then cell br c else cell hr c.
Proof.
  intros Hh Hb Hin Hbr Hc.
  destruct (upsert_90d_partial_update hist last90 hr Hh Hb Hin)
    as (res & r' & Hres & Hrow & Hcell).
  exists res, r'. split_and!; [done..|].
  rewrite (Hcell c Hc), Hbr.
  destruct (decide (c ∈ columns last90)) as [Hc'|Hc'].
  - destruct (isna (cell br c)) eqn:Hna.
    + by rewrite decide_False by (by intros [_ ?]).
    + by rewrite decide_True.
  - by rewrite decide_False by (by intros [? _]).
Qed.

Lemma upsert_90d_shared_date_cells_witness :
  ∃ res r',
    upsert_90d_into_history hist_usd_gbp batch_usd_nan = Ok res ∧
    row_at d2024_01_01 res = Some r' ∧
    cell r' "GBP"
    = if decide ("GBP" ∈ columns batch_usd_nan
                 ∧ isna (cell (mkrow d2024_01_01 [("USD", nan)]) "GBP") = false)
      then cell (mkrow d2024_01_01 [("USD", nan)]) "GBP"
      else cell (mkrow d2024_01_01 [("USD", f1_10); ("GBP", f0_79)]) "GBP".
Proof.
  apply (upsert_90d_shared_date_cells hist_usd_gbp batch_usd_nan
           (mkrow d2024_01_01 [("USD", f1_10); ("GBP", f0_79)])
           (mkrow d2024_01_01 [("USD", nan)]) "GBP").
  - by_computation.
  - by_computation.
  - vm_compute. left.
  - reflexivity.
  - by_computation.
Defined.

(** X6.  A batch without a repeated date merged into a history with rows:
    the merge returns, and the merged frame has the rows of the history
    plus one row for each date of the batch that the history lacked. *)
Theorem upsert_90d_row_count hist last90 :
  NoDup (dates last90) →
  rows hist ≠ [] →
  ∃ res,
    upsert_90d_into_history hist last90 = Ok res ∧
    length (rows res)
    = (length (rows hist)
       + length (filter (λ d, d ∉ dates hist) (dates last90)))%nat.
Proof.
  intros Hb Hne.
  destruct (upsert_90d_into_history hist last90) as [res|e] eqn:E;
    [|by rewrite upsert_90d_Ok in E].
  exists res. split; [done|].
  destruct (upsert_90d_dates hist last90 res Hne E) as [_ Hdates].
  apply Permutation_length in Hdates.
  rewrite length_app in Hdates. unfold dates at 1 2 in Hdates.
  rewrite !length_fmap in Hdates. rewrite Hdates. f_equal.
  unfold difference. rewrite (Permutation_length (merge_sort_Permutation _ _)).
  rewrite remove_dups_NoDup; [done|]. by apply NoDup_filter.
Qed.

Lemma upsert_90d_row_count_witness :
  ∃ res,
    upsert_90d_into_history hist_usd batch_two_days = Ok res ∧
    length (rows res)
    = (length (rows hist_usd)
       + length (filter (λ d, d ∉ dates hist_usd) (dates batch_two_days)))%nat.
Proof.
  apply (upsert_90d_row_count hist_usd batch_two_days); by_computation.
Defined.

(** The batch merge does not touch the rows it has no date for: a row
    of the history whose date is not in the batch is found at its date in
    the merged frame with the cell it had in every column of the history. *)
Theorem upsert_90d_unmentioned_date_untouched hist last90 hr c :
  NoDup (dates hist) →
  NoDup (dates last90) →
  hr ∈ rows hist →
  date hr ∉ dates last90 →
  c ∈ columns hist →
  ∃ res r',
    upsert_90d_into_history hist last90 = Ok res ∧
    row_at (date hr) res = Some r' ∧
    cell r' c = cell hr c.
Proof.
  intros Hh Hb Hin Hd Hc.
  destruct (upsert_90d_partial_update hist last90 hr Hh Hb Hin)
    as (res & r' & Hres & Hrow & Hcell).
  exists res, r'. split_and!; [done..|].
  rewrite (Hcell c Hc).
  assert (row_at (date hr) last90 = None) as -> by (by apply find_row_None).
  done.
Qed.

Lemma upsert_90d_unmentioned_date_untouched_witness :
  ∃ res r',
    upsert_90d_into_history hist_usd obs_jan2_xyz = Ok res ∧
    row_at d2024_01_01 res = Some r' ∧
    cell r' "USD" = cell (mkrow d2024_01_01 [("USD", f1_10)]) "USD".
Proof.
  apply (upsert_90d_unmentioned_date_untouched hist_usd obs_jan2_xyz
           (mkrow d2024_01_01 [("USD", f1_10)]) "USD").
  - by_computation.
  - by_computation.
  - vm_compute. left.
  - by_computation.
  - by_computation.
Defined.

(** ** Sequences of merges *)

Lemma apply_op_keeps_dates history op res d :
  apply_op history op = Ok res → d ∈ dates history → d ∈ dates res.
Proof.
  destruct op as [today_row|last90]; cbn [apply_op]; intros Hres Hd.
  - destruct (rows today_row) as [|r0 rest] eqn:E.
    + rewrite upsert_daily_row_empty in Hres by done. by injection Hres as <-.
    + destruct (decide (date r0 ∈ dates history)) as [Hin|Hnin].
      * rewrite (upsert_daily_row_present _ _ r0 rest) in Hres by done.
        by injection Hres as <-.
      * rewrite (upsert_daily_row_absent _ _ r0 rest) in Hres by done.
        case_decide; [|done]. injection Hres as <-.
        rewrite dates_daily_inserted, elem_of_app. by left.
  - destruct (decide (rows history = [])) as [E|Hne].
    + unfold dates in Hd. rewrite E in Hd. by apply elem_of_nil in Hd.
    + destruct (upsert_90d_dates history last90 res Hne Hres) as [_ ->].
      rewrite elem_of_app. by left.
Qed.

(** X7.  No merge drops a date: along any sequence of daily and batch
    merges that returns, every date of the starting history is a date of
    the history reached. *)
Theorem merges_never_lose_a_date history ops res d :
  run_ops history ops = Ok res →
  d ∈ dates history →
  d ∈ dates res.
Proof.
  revert history. induction ops as [|op ops IH]; intros history Hres Hd.
  - by injection Hres as <-.
  - cbn [run_ops] in Hres.
    destruct (apply_op history op) as [h1|e] eqn:E; [|done].
    cbn [bind] in Hres. apply (IH h1); [done|].
    by apply (apply_op_keeps_dates history op).
Qed.

Lemma merges_never_lose_a_date_witness :
  d2024_01_02 ∈ dates merged_A_two_days.
Proof.
  apply (merges_never_lose_a_date obs_A [BatchMerge batch_two_days]
           merged_A_two_days d2024_01_02).
  - vm_compute. reflexivity.
  - by_computation.
Defined.

Lemma apply_op_keeps_columns history op res :
  rows history ≠ [] →
  apply_op history op = Ok res →
  columns history `prefix_of` columns res.
Proof.
  destruct op as [today_row|last90]; cbn [apply_op]; intros Hne Hres.
  - destruct (rows today_row) as [|r0 rest] eqn:E.
    + rewrite upsert_daily_row_empty in Hres by done. by injection Hres as <-.
    + destruct (decide (date r0 ∈ dates history)) as [Hin|Hnin].
      * rewrite (upsert_daily_row_present _ _ r0 rest) in Hres by done.
        by injection Hres as <-.
      * rewrite (upsert_daily_row_absent _ _ r0 rest) in Hres by done.
        case_decide; [|done]. injection Hres as <-.
        unfold daily_inserted, concat; cbn [columns sort_values].
        apply prefix_app_r, columns_add_missing_columns_prefix.
  - destruct (upsert_90d_dates history last90 res Hne Hres) as [Hb _].
    rewrite upsert_90d_Ok in Hres by done. injection Hres as <-.
    cbn [columns sort_values]. unfold merged_columns.
    destruct (difference _ _); [done|]. by apply prefix_app_r.
Qed.

(** X8.  No merge into a history with rows removes or reorders a column:
    along any sequence of merges that returns, the columns of the starting
    history are the leading columns of the history reached. *)
Theorem merges_never_remove_a_column history ops res :
  rows history ≠ [] →
  run_ops history ops = Ok res →
  columns history `prefix_of` columns res.
Proof.
  revert history. induction ops as [|op ops IH]; intros history Hne Hres.
  - by injection Hres as <-.
  - cbn [run_ops] in Hres.
    destruct (apply_op history op) as [h1|e] eqn:E; [|done].
    cbn [bind] in Hres.
    etrans; [by apply (apply_op_keeps_columns history op)|].
    apply IH; [|done].
    destruct (rows history) as [|r0 rs] eqn:Hrows; [done|].
    assert (date r0 ∈ dates h1) as Hin.
    { apply (apply_op_keeps_dates history op); [done|].
      unfold dates. rewrite Hrows. left. }
    intros E1. unfold dates in Hin. rewrite E1 in Hin. by apply elem_of_nil in Hin.
Qed.

Lemma merges_never_remove_a_column_witness :
  columns obs_A `prefix_of` columns merged_A_two_days.
Proof.
  apply (merges_never_remove_a_column obs_A [BatchMerge batch_two_days]
           merged_A_two_days).
  - by_computation.
  - vm_compute. reflexivity.
Defined.

(** ** Merging again *)

(** X9.  Merging a batch a second time changes nothing when the batch
    brings no new currency: for a history with rows and a batch whose
    columns are all columns of the history, the merged frame merged with the
    same batch again is the merged frame. *)
Theorem upsert_90d_again_known_currencies hist last90 res :
  NoDup (dates hist) →
  rows hist ≠ [] →
  (∀ c, c ∈ columns last90 → c ∈ columns hist) →
  upsert_90d_into_history hist last90 = Ok res →
  upsert_90d_into_history res last90 = Ok res.
Proof. apply upsert_90d_idempotent_known_currencies. Qed.

Lemma upsert_90d_again_known_currencies_witness :
  upsert_90d_into_history merged_usd_gbp batch_usd_two_days = Ok merged_usd_gbp.
Proof.
  apply (upsert_90d_again_known_currencies hist_usd_gbp batch_usd_two_days).
  - by_computation.
  - by_computation.
  - by_members.
  - vm_compute. reflexivity.
Defined.

(** X10.  The first backfill, into a history without rows, returns the batch
    itself; merging the same batch again returns it once more, provided
    its rows are in date order. *)
Theorem upsert_90d_again_first_backfill hist last90 res :
  rows hist = [] →
  ascending last90 →
  upsert_90d_into_history hist last90 = Ok res →
  res = last90 ∧ upsert_90d_into_history res last90 = Ok res.
Proof.
  intros Hempty Hasc Hres. split.
  - rewrite upsert_90d_empty in Hres by done. by injection Hres.
  - by apply (upsert_90d_idempotent_empty hist).
Qed.

Lemma upsert_90d_again_first_backfill_witness :
  batch_two_days = batch_two_days
  ∧ upsert_90d_into_history batch_two_days batch_two_days = Ok batch_two_days.
Proof.
  apply (upsert_90d_again_first_backfill empty_history batch_two_days).
  - reflexivity.
  - by_computation.
  - reflexivity.
Defined.

(** X11.  The daily merge run again with the same observation returns what
    the first run returned: after the first run the date is there. *)
Theorem upsert_daily_row_again history today_row res :
  upsert_daily_row history today_row = Ok res →
  upsert_daily_row res today_row = Ok res.
Proof.
  intros Hres. destruct (rows today_row) as [|r0 rest] eqn:E.
  - by apply upsert_daily_row_empty.
  - apply (upsert_daily_row_present _ _ r0 rest); [done|].
    destruct (decide (date r0 ∈ dates history)) as [Hin|Hnin].
    + rewrite (upsert_daily_row_present _ _ r0 rest) in Hres by done.
      by injection Hres as <-.
    + rewrite (upsert_daily_row_absent _ _ r0 rest) in Hres by done.
      case_decide; [|done]. injection Hres as <-.
      rewrite dates_daily_inserted, elem_of_app. right.
      unfold dates. rewrite E. left.
Qed.

Lemma upsert_daily_row_again_witness :
  upsert_daily_row obs_A obs_A = Ok obs_A.
Proof.
  apply (upsert_daily_row_again empty_history obs_A).
  vm_compute. reflexivity.
Defined.

(** The daily merge of a one-row observation adds one row when the
    date is new and none when it is there already. *)
Theorem upsert_daily_row_row_count history today_row o res :
  rows today_row = [o] →
  upsert_daily_row history today_row = Ok res →
  length (rows res)
  = (length (rows history)
     + if decide (date o ∈ dates history) then 0 else 1)%nat.
Proof.
  intros E Hres. case_decide as Hd.
  - rewrite (upsert_daily_row_present _ _ o []) in Hres by done.
    injection Hres as <-. lia.
  - rewrite (upsert_daily_row_absent _ _ o []) in Hres by done.
    case_decide; [|done]. injection Hres as <-.
    pose proof (Permutation_length (dates_daily_inserted history today_row)) as Hlen.
    rewrite length_app in Hlen. unfold dates in Hlen.
    rewrite !length_fmap, E in Hlen. exact Hlen.
Qed.

Lemma upsert_daily_row_row_count_witness :
  length (rows merged_jan2)
  = (length (rows hist_usd_gbp)
     + if decide (d2024_01_02 ∈ dates hist_usd_gbp) then 0 else 1)%nat.
Proof.
  apply (upsert_daily_row_row_count hist_usd_gbp obs_jan2_usd_gbp
           (mkrow d2024_01_02 [("USD", f1_12); ("GBP", nan)]) merged_jan2).
  - reflexivity.
  - vm_compute. reflexivity.
Defined.

(** * Further properties of the deriver *)

(** The body of the loop of [derive_columns]. *)
Lemma derive_columns_loop (cols targets out : list string) (c : string) :
  c ∈ foldl (λ out ccy,
               if decide (ccy = "EUR") then out
               else if decide (ccy ∈ cols)
                    then (if decide (derived_name ccy ∈ out) then out
                          else out ++ [derived_name ccy])
                    else out) out targets
  ↔ c ∈ out ∨ ∃ ccy, ccy ∈ targets ∧ ccy ≠ "EUR" ∧ ccy ∈ cols
                     ∧ c = derived_name ccy.
Proof.
  revert out. induction targets as [|t ts IH]; intros out; cbn [foldl].
  - split; [by left|]. intros [?|(ccy & Hin & _)]; [done|]. by apply elem_of_nil in Hin.
  - rewrite IH. split.
    + intros [Hc|(ccy & Hin & Hne & Hcol & ->)].
      * repeat case_decide; try (by left).
        apply elem_of_app in Hc as [?|Hc]; [by left|].
        apply list_elem_of_singleton in Hc as ->.
        right. exists t. split_and!; [left|done..].
      * right. exists ccy. split_and!; [by right|done..].
    + intros [Hc|(ccy & Hin & Hne & Hcol & ->)].
      * left. repeat case_decide; try done. apply elem_of_app. by left.
      * apply elem_of_cons in Hin as [->|Hin].
        -- left. rewrite decide_False, decide_True by done.
           case_decide; [done|]. apply elem_of_app. right. by left.
        -- right. exists ccy. by split_and!.
Qed.

Lemma elem_of_derive_columns (cols targets : list string) (c : string) :
  c ∈ derive_columns cols targets
  ↔ (c = "EUR_PLN" ∧ "EUR" ∈ targets)
    ∨ ∃ ccy, ccy ∈ targets ∧ ccy ≠ "EUR" ∧ ccy ∈ cols ∧ c = derived_name ccy.
Proof.
  unfold derive_columns. rewrite derive_columns_loop.
  case_decide as HE.
  - rewrite list_elem_of_singleton. tauto.
  - rewrite elem_of_nil. tauto.
Qed.

Lemma dom_derive_cells (cols targets : list string) (r : Row) :
  dom (derive_cells cols targets r) = list_to_set (derive_columns cols targets).
Proof.
  unfold derive_cells, derive_columns.
  assert (∀ (m : gmap string float) (l : list string),
            dom m = list_to_set l →
            dom (foldl (derive_step cols r) m targets)
            = list_to_set
                (foldl (λ out ccy,
                          if decide (ccy = "EUR") then out
                          else if decide (ccy ∈ cols)
                               then (if decide (derived_name ccy ∈ out) then out
                                     else out ++ [derived_name ccy])
                               else out) l targets)) as Hloop.
  { induction targets as [|t ts IH]; intros m l Hdom; cbn [foldl]; [done|].
    apply IH. unfold derive_step. repeat case_decide; try done.
    - rewrite dom_insert_L, Hdom. set_solver.
    - rewrite dom_insert_L, Hdom, list_to_set_app_L. set_solver. }
  apply Hloop. case_decide.
  - rewrite dom_insert_L, dom_empty_L. set_solver.
  - by rewrite dom_empty_L.
Qed.

Lemma NoDup_derive_columns (cols targets : list string) :
  NoDup (derive_columns cols targets).
Proof.
  unfold derive_columns.
  assert (∀ l : list string,
            NoDup l →
            NoDup (foldl (λ out ccy,
                            if decide (ccy = "EUR") then out
                            else if decide (ccy ∈ cols)
                                 then (if decide (derived_name ccy ∈ out) then out
                                       else out ++ [derived_name ccy])
                                 else out) l targets)) as Hloop.
  { induction targets as [|t ts IH]; intros l Hl; cbn [foldl]; [done|].
    apply IH. repeat case_decide; try done.
    apply NoDup_app. split_and!; [done| |apply NoDup_singleton].
    by intros x Hx ->%list_elem_of_singleton. }
  apply Hloop. case_decide; [apply NoDup_singleton | apply NoDup_nil_2].
Qed.

(** X12.  The columns of the derived frame: EUR_PLN when EUR is among the
    targets, and [ccy_PLN] for every other target that is a column of the
    input; a target that is not a column of the input gets no column, and
    nothing else appears. *)
Theorem compute_pln_rates_columns df targets out c :
  compute_pln_rates df targets = Ok out →
  c ∈ columns out
  ↔ (c = "EUR_PLN" ∧ "EUR" ∈ targets)
    ∨ ∃ ccy, ccy ∈ targets ∧ ccy ≠ "EUR" ∧ ccy ∈ columns df
             ∧ c = derived_name ccy.
Proof.
  unfold compute_pln_rates. repeat case_decide; try done.
  intros [= <-]. cbn [columns sort_values dropna_all].
  apply elem_of_derive_columns.
Qed.

Lemma compute_pln_rates_columns_witness :
  "GBP_PLN" ∈ columns {| columns := ["EUR_PLN"; "USD_PLN"];
                          rows := [mkrow d2024_01_02
                                     [("EUR_PLN", f4_35);
                                      ("USD_PLN", div f4_35 f1_10)]] |}
  ↔ ("GBP_PLN" = "EUR_PLN" ∧ "EUR" ∈ ["EUR"; "USD"; "GBP"])
    ∨ ∃ ccy, ccy ∈ ["EUR"; "USD"; "GBP"] ∧ ccy ≠ "EUR" ∧ ccy ∈ columns obs_A
             ∧ "GBP_PLN" = derived_name ccy.
Proof.
  apply (compute_pln_rates_columns obs_A ["EUR"; "USD"; "GBP"]).
  vm_compute. reflexivity.
Defined.

(** Every row of the derived frame has exactly the columns of the
    derived frame, and no two columns of the derived frame are the same. *)
Theorem compute_pln_rates_rectangular df targets out :
  compute_pln_rates df targets = Ok out →
  rectangular out ∧ NoDup (columns out).
Proof.
  unfold compute_pln_rates. repeat case_decide; try done.
  intros [= <-]. split.
  - unfold rectangular. apply Forall_forall. intros r' Hr'.
    rewrite elem_of_sort_values in Hr'. unfold dropna_all in Hr'; cbn [rows] in Hr'.
    apply list_elem_of_filter in Hr' as [_ (r & -> & _)%list_elem_of_fmap].
    cbn [cells columns sort_values dropna_all]. apply dom_derive_cells.
  - cbn [columns sort_values dropna_all]. apply NoDup_derive_columns.
Qed.

Lemma compute_pln_rates_rectangular_witness :
  rectangular {| columns := ["EUR_PLN"; "USD_PLN"];
                 rows := [mkrow d2024_01_02
                            [("EUR_PLN", f4_35); ("USD_PLN", div f4_35 f1_10)]] |}
  ∧ NoDup ["EUR_PLN"; "USD_PLN"].
Proof.
  apply (compute_pln_rates_rectangular obs_A ["EUR"; "USD"]).
  vm_compute. reflexivity.
Defined.

(** X13.  With EUR among the targets, the EUR_PLN cell of every derived row
    is the PLN cell of an input row of that date: one euro in zloty is the
    PLN rate itself. *)
Theorem compute_pln_rates_EUR_column df targets out r' :
  compute_pln_rates df targets = Ok out →
  "EUR" ∈ targets →
  r' ∈ rows out →
  ∃ r, r ∈ rows df ∧ date r = date r' ∧
       cells r' !! "EUR_PLN" = Some (cell r "PLN").
Proof.
  intros Hout HE Hr'.
  destruct (compute_pln_rates_rows df targets out r' Hout Hr')
    as (r & Hr & Hd & Hcells).
  exists r. split_and!; [done..|].
  rewrite Hcells. by apply derive_cells_lookup_EUR.
Qed.

Lemma compute_pln_rates_EUR_column_witness :
  ∃ r, r ∈ rows obs_A ∧ date r = d2024_01_02 ∧
       cells (mkrow d2024_01_02 [("EUR_PLN", f4_35); ("USD_PLN", div f4_35 f1_10)])
         !! "EUR_PLN" = Some (cell r "PLN").
Proof.
  apply (compute_pln_rates_EUR_column obs_A ["EUR"; "USD"]
           {| columns := ["EUR_PLN"; "USD_PLN"];
              rows := [mkrow d2024_01_02
                         [("EUR_PLN", f4_35); ("USD_PLN", div f4_35 f1_10)]] |}
           (mkrow d2024_01_02 [("EUR_PLN", f4_35); ("USD_PLN", div f4_35 f1_10)])).
  - vm_compute. reflexivity.
  - by_computation.
  - vm_compute. left.
Defined.

(** X14.  Nothing to derive: when EUR is not a target and no target is a
    column of the input (an empty target list included), the derived frame
    has no column and no row, whatever rows the input has. *)
Theorem compute_pln_rates_nothing_to_derive df targets :
  "PLN" ∈ columns df →
  "date" ∉ targets →
  "EUR" ∉ targets →
  (∀ ccy, ccy ∈ targets → ccy ∉ columns df) →
  compute_pln_rates df targets = Ok {| columns := []; rows := [] |}.
Proof.
  intros HPLN Hdate HE Hnone.
  rewrite compute_pln_rates_Ok by done.
  assert (derive_columns (columns df) targets = []) as ->.
  { destruct (derive_columns (columns df) targets) as [|c l] eqn:E; [done|].
    assert (c ∈ derive_columns (columns df) targets) as Hc by (rewrite E; left).
    apply elem_of_derive_columns in Hc as [[_ ?]|(ccy & Hin & _ & Hcol & _)];
      [done|]. by specialize (Hnone ccy Hin). }
  unfold sort_values, dropna_all; cbn [columns rows]. do 2 f_equal.
  assert (filter (λ r : Row, Exists (λ c : string, notna (cell r c) = true) [])
            ((λ r, {| date := date r;
                      cells := derive_cells (columns df) targets r |}) <$> rows df)
          = []) as ->; [|done].
  induction (rows df) as [|r rs IH]; [done|].
  rewrite fmap_cons, filter_cons_False; [done|]. by intros ?%Exists_nil.
Qed.

Lemma compute_pln_rates_nothing_to_derive_witness :
  compute_pln_rates obs_A ["GBP"; "CHF"] = Ok {| columns := []; rows := [] |}.
Proof.
  apply (compute_pln_rates_nothing_to_derive obs_A ["GBP"; "CHF"]).
  - by_computation.
  - by_computation.
  - by_computation.
  - by_members.
Defined.

(** X15.  Which dates survive [dropna]: the derived row of an input row is
    in the output exactly when one of its derived cells is not NaN, that is
    when EUR is a target and the PLN cell is not NaN, or the quotient for
    some other target that is a column is not NaN. *)
Theorem compute_pln_rates_keeps_row df targets out r :
  compute_pln_rates df targets = Ok out →
  r ∈ rows df →
  {| date := date r; cells := derive_cells (columns df) targets r |} ∈ rows out
  ↔ ("EUR" ∈ targets ∧ isna (cell r "PLN") = false)
    ∨ ∃ ccy, ccy ∈ targets ∧ ccy ≠ "EUR" ∧ ccy ∈ columns df
             ∧ isna (div (cell r "PLN") (cell r ccy)) = false.
Proof.
  unfold compute_pln_rates. repeat case_decide; try done.
  intros [= <-] Hr. rewrite elem_of_sort_values.
  unfold dropna_all; cbn [rows columns]. rewrite list_elem_of_filter.
  rewrite Exists_exists.
  set (r' := {| date := date r; cells := derive_cells (columns df) targets r |}).
  assert (r' ∈ (λ r0, {| date := date r0;
                         cells := derive_cells (columns df) targets r0 |})
                 <$> rows df) as Hin by (apply list_elem_of_fmap; by exists r).
  assert (∀ ccy, ccy ∈ targets → ccy ≠ "EUR" → ccy ∈ columns df →
                 cell r' (derived_name ccy) = div (cell r "PLN") (cell r ccy))
    as Hcell.
  { intros ccy ???. unfold cell at 1; cbn [cells r'].
    by rewrite derive_cells_lookup. }
  assert ("EUR" ∈ targets → cell r' "EUR_PLN" = cell r "PLN") as HcellE.
  { intros ?. unfold cell at 1; cbn [cells r'].
    by rewrite derive_cells_lookup_EUR. }
  unfold notna. split.
  - intros [(c & Hc & Hna) _].
    apply elem_of_derive_columns in Hc as [[-> HE]|(ccy & Hin' & Hne & Hcol & ->)].
    + left. split; [done|]. rewrite HcellE in Hna by done.
      by destruct (isna (cell r "PLN")).
    + right. exists ccy. split_and!; [done..|].
      rewrite Hcell in Hna by done. by destruct (isna _).
  - intros [[HE Hna]|(ccy & Hin' & Hne & Hcol & Hna)]; (split; [|done]).
    + exists "EUR_PLN". split; [apply elem_of_derive_columns; by left|].
      by rewrite HcellE, Hna.
    + exists (derived_name ccy). split.
      * apply elem_of_derive_columns. right. by exists ccy.
      * by rewrite Hcell, Hna.
Qed.

Lemma compute_pln_rates_keeps_row_witness :
  {| date := d2024_01_02;
     cells := derive_cells (columns df_usd_zero) ["USD"]
                (mkrow d2024_01_02 [("PLN", f4_35); ("USD", pos_zero)]) |}
    ∈ rows {| columns := ["USD_PLN"];
              rows := [mkrow d2024_01_02 [("USD_PLN", pos_infinity)]] |}
  ↔ ("EUR" ∈ ["USD"]
     ∧ isna (cell (mkrow d2024_01_02 [("PLN", f4_35); ("USD", pos_zero)]) "PLN")
       = false)
    ∨ ∃ ccy, ccy ∈ ["USD"] ∧ ccy ≠ "EUR" ∧ ccy ∈ columns df_usd_zero
             ∧ isna (div (cell (mkrow d2024_01_02
                                  [("PLN", f4_35); ("USD", pos_zero)]) "PLN")
                         (cell (mkrow d2024_01_02
                                  [("PLN", f4_35); ("USD", pos_zero)]) ccy))
               = false.
Proof.
  apply (compute_pln_rates_keeps_row df_usd_zero ["USD"]
           {| columns := ["USD_PLN"];
              rows := [mkrow d2024_01_02 [("USD_PLN", pos_infinity)]] |}
           (mkrow d2024_01_02 [("PLN", f4_35); ("USD", pos_zero)])).
  - vm_compute. reflexivity.
  - vm_compute. left.
Defined.

(** X16.  A day without a PLN rate is not in the derived frame: with a NaN
    in the PLN cell every derived cell of the row is NaN, so [dropna] drops
    the row. *)
Theorem compute_pln_rates_drops_missing_PLN df targets out r :
  NoDup (dates df) →
  compute_pln_rates df targets = Ok out →
  r ∈ rows df →
  isna (cell r "PLN") = true →
  date r ∉ dates out.
Proof.
  intros Hnd Hout Hr Hna Hd.
  apply list_elem_of_fmap in Hd as (r' & Hd & Hr').
  destruct (compute_pln_rates_rows df targets out r' Hout Hr')
    as (r2 & Hr2 & Hd2 & Hcells).
  assert (r2 = r) as ->.
  { apply (find_row_NoDup (rows df)) in Hr, Hr2; [|done..].
    rewrite <-Hd2, <-Hd, Hr in Hr2. by injection Hr2. }
  assert (r' = {| date := date r; cells := derive_cells (columns df) targets r |})
    as ->.
  { destruct r' as [d m]; cbn [date cells] in *. by subst. }
  apply (compute_pln_rates_keeps_row df targets out r Hout Hr) in Hr'
    as [[_ Hna']|(ccy & _ & _ & _ & Hna')].
  - congruence.
  - apply isna_nan in Hna. rewrite Hna, div_nan_l in Hna'. done.
Qed.

Lemma compute_pln_rates_drops_missing_PLN_witness :
  d2024_01_01 ∉ dates {| columns := ["EUR_PLN"; "USD_PLN"];
                         rows := [mkrow d2024_01_02
                                    [("EUR_PLN", f4_35);
                                     ("USD_PLN", div f4_35 f1_12)]] |}.
Proof.
  apply (compute_pln_rates_drops_missing_PLN merged_A_two_days ["EUR"; "USD"]
           {| columns := ["EUR_PLN"; "USD_PLN"];
              rows := [mkrow d2024_01_02
                         [("EUR_PLN", f4_35); ("USD_PLN", div f4_35 f1_12)]] |}
           (mkrow d2024_01_01 [("PLN", nan); ("USD", f1_10); ("XYZ", f5_0)])).
  - by_computation.
  - vm_compute. reflexivity.
  - vm_compute. left.
  - reflexivity.
Defined.

Lemma derive_cells_lookup_Some (cols targets : list string) (r : Row) k v :
  derive_cells cols targets r !! k = Some v
  ↔ (k = "EUR_PLN" ∧ "EUR" ∈ targets ∧ v = cell r "PLN")
    ∨ ∃ ccy, ccy ∈ targets ∧ ccy ≠ "EUR" ∧ ccy ∈ cols
             ∧ k = derived_name ccy ∧ v = div (cell r "PLN") (cell r ccy).
Proof.
  split.
  - intros Hv.
    assert (k ∈ derive_columns cols targets) as Hk.
    { apply (elem_of_list_to_set (C := gset string)).
      rewrite <-(dom_derive_cells cols targets r). apply elem_of_dom. eauto. }
    apply elem_of_derive_columns in Hk as [[-> HE]|(ccy & Hin & Hne & Hcol & ->)].
    + left. rewrite derive_cells_lookup_EUR in Hv by done.
      injection Hv as <-. done.
    + right. exists ccy. rewrite derive_cells_lookup in Hv by done.
      injection Hv as <-. done.
  - intros [(-> & HE & ->)|(ccy & Hin & Hne & Hcol & -> & ->)].
    + by apply derive_cells_lookup_EUR.
    + by apply derive_cells_lookup.
Qed.

(** The derived cells depend on which targets are listed, not on
    their order or on repetitions: two target lists with the same members
    give every input row the same derived cells. *)
Theorem derive_cells_targets_as_set cols (targets1 targets2 : list string) r :
  (∀ ccy, ccy ∈ targets1 ↔ ccy ∈ targets2) →
  derive_cells cols targets1 r = derive_cells cols targets2 r.
Proof.
  intros Hsame. apply map_eq. intros k. apply option_eq. intros v.
  rewrite !derive_cells_lookup_Some. split.
  - intros [(? & ? & ?)|(ccy & ? & ? & ? & ? & ?)].
    + left. split_and!; [done|by apply Hsame|done].
    + right. exists ccy. split_and!; [by apply Hsame|done..].
  - intros [(? & ? & ?)|(ccy & ? & ? & ? & ? & ?)].
    + left. split_and!; [done|by apply Hsame|done].
    + right. exists ccy. split_and!; [by apply Hsame|done..].
Qed.

Lemma derive_cells_targets_as_set_witness :
  derive_cells ["PLN"; "USD"] ["EUR"; "USD"]
    (mkrow d2024_01_02 [("PLN", f4_35); ("USD", f1_10)])
  = derive_cells ["PLN"; "USD"] ["USD"; "EUR"; "USD"]
      (mkrow d2024_01_02 [("PLN", f4_35); ("USD", f1_10)]).
Proof.
  apply (derive_cells_targets_as_set ["PLN"; "USD"] ["EUR"; "USD"]
           ["USD"; "EUR"; "USD"]).
  intros ccy. split; intros Hc; vm_compute in Hc;
    repeat (apply elem_of_cons in Hc as [->|Hc]; [by_computation|]);
    by apply elem_of_nil in Hc.
Defined.

(** * The dashboard *)

Lemma max_date_upper_bound df d : d ∈ dates df → d ≤ max_date df.
Proof.
  unfold max_date. destruct (dates df) as [|d0 ds]; [by intros ?%elem_of_nil|].
  revert d0. induction ds as [|d1 ds IH]; intros d0 Hin.
  - apply list_elem_of_singleton in Hin as ->. simpl. lia.
  - cbn [foldr]. apply elem_of_cons in Hin as [->|Hin].
    + specialize (IH d0 ltac:(left)). lia.
    + apply elem_of_cons in Hin as [->|Hin]; [lia|].
      specialize (IH d0 ltac:(by right)). lia.
Qed.

Lemma max_date_elem_of df : rows df ≠ [] → max_date df ∈ dates df.
Proof.
  unfold max_date, dates. destruct (rows df) as [|r rs]; [done|]. intros _.
  rewrite fmap_cons. generalize (date r) (date <$> rs). clear.
  intros d0 ds. revert d0. induction ds as [|d1 ds IH]; intros d0; [left|].
  cbn [foldr]. specialize (IH d0).
  destruct (Z.max_spec d1 (foldr Z.max d0 ds)) as [[_ ->]|[_ ->]].
  - apply elem_of_cons in IH as [->|IH]; [left | by do 2 right].
  - right. left.
Qed.

Lemma dates_filter (P : Z → Prop) `{∀ d, Decision (P d)} (l : list Row) :
  date <$> filter (λ r, P (date r)) l = filter P (date <$> l).
Proof.
  induction l as [|r l IH]; [done|].
  rewrite fmap_cons, !filter_cons. case_decide; [|done]. by rewrite fmap_cons, IH.
Qed.

(** The loop of [make_dashboard] over the targets. *)
Lemma traces_loop (df_plot : DataFrame) (targets : list string) (acc : list trace) :
  foldl (λ traces ccy,
           let col := if decide (ccy = "EUR") then "EUR_PLN"
                      else derived_name ccy in
           if decide (col ∈ columns df_plot)
           then traces ++ [{| trace_name := replace_underscores col;
                              trace_x := dates df_plot;
                              trace_y := column_values col df_plot |}]
           else traces) acc targets
  = acc ++ ((λ ccy, {| trace_name := replace_underscores (derived_name ccy);
                       trace_x := dates df_plot;
                       trace_y := column_values (derived_name ccy) df_plot |})
              <$> filter (λ ccy, derived_name ccy ∈ columns df_plot) targets).
Proof.
  revert acc. induction targets as [|t ts IH]; intros acc; cbn [foldl].
  - by rewrite app_nil_r.
  - rewrite IH. cbn zeta.
    assert ((if decide (t = "EUR") then "EUR_PLN" else derived_name t)
            = derived_name t) as -> by (case_decide; [by subst|done]).
    rewrite filter_cons. case_decide; [|done].
    by rewrite fmap_cons, <-app_assoc.
Qed.

(** [make_dashboard] on a frame with rows, when the date arithmetic fits:
    one trace per target that has its column, in the order of the targets,
    drawn over the rows of the window.  The EUR case of the code names the
    same column as the general case. *)
Lemma make_dashboard_fits df_pln targets last_n_days :
  rows df_pln ≠ [] →
  window_fits df_pln last_n_days = true →
  make_dashboard df_pln targets last_n_days
  = Some (FigurePage
      ((λ ccy, {| trace_name := replace_underscores (derived_name ccy);
                  trace_x := dates (chart_window df_pln last_n_days);
                  trace_y := column_values (derived_name ccy)
                               (chart_window df_pln last_n_days) |})
         <$> filter (λ ccy, derived_name ccy ∈ columns df_pln) targets)).
Proof.
  intros Hne Hfits. unfold make_dashboard.
  destruct (rows df_pln) as [|r0 rs] eqn:Hrows; [done|]. rewrite <-Hrows.
  destruct last_n_days as [n|]; cbn [window_fits chart_window] in *.
  - apply andb_true_iff in Hfits as [-> ->].
    by rewrite traces_loop, app_nil_l.
  - by rewrite traces_loop, app_nil_l.
Qed.

(** When it does not fit, the call raises: no page is written. *)
Lemma make_dashboard_raises df_pln targets last_n_days :
  rows df_pln ≠ [] →
  make_dashboard df_pln targets last_n_days = None
  ↔ window_fits df_pln last_n_days = false.
Proof.
  intros Hne. destruct (window_fits df_pln last_n_days) eqn:Hfits.
  - by rewrite (make_dashboard_fits _ _ _ Hne Hfits).
  - split; [done|]. intros _. unfold make_dashboard.
    destruct (rows df_pln) as [|r0 rs] eqn:Hrows; [done|].
    destruct last_n_days as [n|]; cbn [window_fits] in Hfits; [|done].
    destruct (fits_int64_ns n); [|done].
    cbn [andb] in Hfits. by rewrite Hfits.
Qed.

(** A frame without rows gives the "no data" page, whatever the window. *)
Lemma make_dashboard_empty df_pln targets last_n_days :
  rows df_pln = [] →
  make_dashboard df_pln targets last_n_days = Some NoDataPage.
Proof. intros Hrows. unfold make_dashboard. by rewrite Hrows. Qed.

(** X17.  The chart window: with [last_n_days = n], [n] not negative, and
    [n] days and the cutoff within what a 64-bit count of nanoseconds
    holds, a figure is built with one trace per target that has its column;
    every trace is drawn over the dates of the frame that are at most [n]
    days before its latest date, in the order of the frame; the latest date
    is always among them, and each trace has one value per date. *)
Theorem make_dashboard_window df_pln targets n :
  rows df_pln ≠ [] →
  0 ≤ n →
  fits_int64_ns n = true →
  fits_int64_ns (max_date df_pln - n) = true →
  ∃ traces,
    make_dashboard df_pln targets (Some n) = Some (FigurePage traces) ∧
    length traces
    = length (filter (λ ccy, derived_name ccy ∈ columns df_pln) targets) ∧
    ∀ t, t ∈ traces →
         trace_x t = filter (λ d, max_date df_pln - n ≤ d) (dates df_pln) ∧
         max_date df_pln ∈ trace_x t ∧
         (∀ d, d ∈ trace_x t → max_date df_pln - n ≤ d ≤ max_date df_pln) ∧
         length (trace_y t) = length (trace_x t).
Proof.
  intros Hne Hn Hfn Hfc.
  eexists. split; [|split].
  - apply make_dashboard_fits; [done|]. cbn [window_fits]. by rewrite Hfn, Hfc.
  - by rewrite length_fmap.
  - intros t Ht.
    apply list_elem_of_fmap in Ht as (ccy & -> & _). cbn [trace_x trace_y chart_window].
    assert (dates {| columns := columns df_pln;
                     rows := filter (λ r, max_date df_pln - n ≤ date r) (rows df_pln) |}
            = filter (λ d, max_date df_pln - n ≤ d) (dates df_pln)) as ->.
    { unfold dates; cbn [rows]. apply (dates_filter (λ d, max_date df_pln - n ≤ d)). }
    split_and!.
    + done.
    + apply list_elem_of_filter. split; [lia|]. by apply max_date_elem_of.
    + intros d [? ?%max_date_upper_bound]%list_elem_of_filter. lia.
    + unfold column_values, dates; cbn [rows]. rewrite length_fmap.
      rewrite <-(dates_filter (λ d, max_date df_pln - n ≤ d)). by rewrite length_fmap.
Qed.

Lemma make_dashboard_window_witness :
  make_dashboard pln_three_days ["EUR"; "USD"; "GBP"] (Some 3)
  = Some (FigurePage
      [{| trace_name := "EUR PLN";
          trace_x := [d2024_01_02; d2024_01_05];
          trace_y := [f4_35; f5_0] |};
       {| trace_name := "USD PLN";
          trace_x := [d2024_01_02; d2024_01_05];
          trace_y := [f6_0; nan] |}])
  ∧ ∃ traces,
    make_dashboard pln_three_days ["EUR"; "USD"; "GBP"] (Some 3)
    = Some (FigurePage traces) ∧
    length traces
    = length (filter (λ ccy, derived_name ccy ∈ columns pln_three_days)
                ["EUR"; "USD"; "GBP"]) ∧
    ∀ t, t ∈ traces →
         trace_x t = filter (λ d, max_date pln_three_days - 3 ≤ d)
                       (dates pln_three_days) ∧
         max_date pln_three_days ∈ trace_x t ∧
         (∀ d, d ∈ trace_x t →
               max_date pln_three_days - 3 ≤ d ≤ max_date pln_three_days) ∧
         length (trace_y t) = length (trace_x t).
Proof.
  split; [vm_compute; reflexivity|].
  apply (make_dashboard_window pln_three_days ["EUR"; "USD"; "GBP"] 3).
  - by_computation.
  - lia.
  - vm_compute. reflexivity.
  - vm_compute. reflexivity.
Defined.

(** The window is checked before any trace is built: a number of days that
    does not fit makes the call raise, also when no target has a column. *)
Lemma make_dashboard_too_many_days :
  make_dashboard pln_three_days ["EUR"; "USD"] (Some 106751)
  = Some (FigurePage
      [{| trace_name := "EUR PLN";
          trace_x := [d2024_01_01; d2024_01_02; d2024_01_05];
          trace_y := [f4_35; f4_35; f5_0] |};
       {| trace_name := "USD PLN";
          trace_x := [d2024_01_01; d2024_01_02; d2024_01_05];
          trace_y := [f5_0; f6_0; nan] |}])
  ∧ make_dashboard pln_three_days ["EUR"; "USD"] (Some 106752) = None
  ∧ make_dashboard pln_three_days [] (Some 200000) = None.
Proof. split_and!; vm_compute; reflexivity. Qed.

(** One trace per target that has its column, in the order of the
    targets, named after the column with the underscore turned into a
    space; a target without a column is passed over. *)
Theorem make_dashboard_traces df_pln targets last_n_days :
  rows df_pln ≠ [] →
  window_fits df_pln last_n_days = true →
  ∃ traces,
    make_dashboard df_pln targets last_n_days = Some (FigurePage traces) ∧
    trace_name <$> traces
    = (λ ccy, replace_underscores (derived_name ccy))
        <$> filter (λ ccy, derived_name ccy ∈ columns df_pln) targets.
Proof.
  intros Hne Hfits. eexists. split; [by apply make_dashboard_fits|].
  by rewrite <-list_fmap_compose.
Qed.

Lemma make_dashboard_traces_witness :
  ∃ traces,
    make_dashboard merged_A_two_days TARGETS CHART_LAST_N_DAYS
    = Some (FigurePage traces) ∧
    trace_name <$> traces
    = (λ ccy, replace_underscores (derived_name ccy))
        <$> filter (λ ccy, derived_name ccy ∈ columns merged_A_two_days) TARGETS.
Proof.
  apply (make_dashboard_traces merged_A_two_days TARGETS CHART_LAST_N_DAYS).
  - by_computation.
  - vm_compute. reflexivity.
Defined.

Lemma filter_ext_elem_of {A} (P Q : A → Prop)
    `{∀ x, Decision (P x)} `{∀ x, Decision (Q x)} (l : list A) :
  (∀ x, x ∈ l → P x ↔ Q x) → filter P l = filter Q l.
Proof.
  induction l as [|x l IH]; intros Hext; [done|].
  rewrite !filter_cons.
  rewrite IH by (intros y Hy; apply Hext; by right).
  destruct (decide (P x)) as [HP|HP]; destruct (decide (Q x)) as [HQ|HQ]; try done.
  - exfalso. apply HQ, Hext; [left | done].
  - exfalso. apply HP, Hext; [left | done].
Qed.

(** X18.  Deriver and dashboard together: charting what [compute_pln_rates]
    derived for the same targets, when the derived frame has rows and the
    window, if one is asked for, fits a 64-bit count of nanoseconds, gives
    one trace for EUR, if listed, and one for every other target that is a
    column of the raw history; the targets the feed never carried have no
    trace. *)
Theorem make_dashboard_of_derived df targets out last_n_days :
  compute_pln_rates df targets = Ok out →
  rows out ≠ [] →
  window_fits out last_n_days = true →
  ∃ traces,
    make_dashboard out targets last_n_days = Some (FigurePage traces) ∧
    trace_name <$> traces
    = (λ ccy, replace_underscores (derived_name ccy))
        <$> filter (λ ccy, ccy = "EUR" ∨ ccy ∈ columns df) targets.
Proof.
  intros Hout Hne Hfits.
  destruct (make_dashboard_traces out targets last_n_days Hne Hfits)
    as (traces & Hpage & Hnames).
  exists traces. split; [done|]. rewrite Hnames. f_equal.
  apply filter_ext_elem_of. intros ccy Hin.
  rewrite (compute_pln_rates_columns df targets out _ Hout). split.
  - intros [[E _]|(ccy' & _ & Hne' & Hcol & E)].
    + left. by apply (append_inj_r ccy "EUR" "_PLN").
    + right. apply (append_inj_r ccy ccy' "_PLN") in E. by subst.
  - intros [->|Hcol].
    + left. done.
    + destruct (decide (ccy = "EUR")) as [->|Hne']; [by left|].
      right. by exists ccy.
Qed.

Lemma make_dashboard_of_derived_witness :
  make_dashboard {| columns := ["EUR_PLN"; "USD_PLN"];
                    rows := [mkrow d2024_01_02
                               [("EUR_PLN", f4_35);
                                ("USD_PLN", div f4_35 f1_10)]] |}
    TARGETS CHART_LAST_N_DAYS
  = Some (FigurePage
      [{| trace_name := "EUR PLN";
          trace_x := [d2024_01_02];
          trace_y := [f4_35] |};
       {| trace_name := "USD PLN";
          trace_x := [d2024_01_02];
          trace_y := [div f4_35 f1_10] |}])
  ∧ ∃ traces,
    make_dashboard {| columns := ["EUR_PLN"; "USD_PLN"];
                      rows := [mkrow d2024_01_02
                                 [("EUR_PLN", f4_35);
                                  ("USD_PLN", div f4_35 f1_10)]] |}
      TARGETS CHART_LAST_N_DAYS = Some (FigurePage traces) ∧
    trace_name <$> traces
    = (λ ccy, replace_underscores (derived_name ccy))
        <$> filter (λ ccy, ccy = "EUR" ∨ ccy ∈ columns obs_A) TARGETS.
Proof.
  split; [vm_compute; reflexivity|].
  apply (make_dashboard_of_derived obs_A TARGETS).
  - vm_compute. reflexivity.
  - by_computation.
  - vm_compute. reflexivity.
Defined.

(** * Loading, and the two flows *)

Section Flows.

Variable upper : string → string.

#[local] Instance flows_date_le_total : Total date_le.
Proof. intros r1 r2. unfold date_le. lia. Qed.

#[local] Instance flows_date_le_trans : Transitive date_le.
Proof. intros r1 r2 r3. unfold date_le. lia. Qed.

Lemma dates_rename_columns df : dates (rename_columns upper df) = dates df.
Proof. unfold dates, rename_columns; cbn [rows]. by rewrite <-list_fmap_compose. Qed.

Lemma dates_load_history file :
  dates (load_history upper file) ≡ₚ stored_dates file.
Proof.
  destruct file as [|df]; [done|]. cbn [load_history stored_dates].
  by rewrite dates_sort_values_Permutation, dates_rename_columns.
Qed.

(** X19.  [load_history] hands the rows over in date order, whatever their
    order in the file, and with exactly the dates of the file; without a
    file there is no row. *)
Theorem load_history_sorted file :
  StronglySorted Z.le (dates (load_history upper file))
  ∧ dates (load_history upper file) ≡ₚ stored_dates file.
Proof.
  split; [|apply dates_load_history].
  destruct file as [|df]; [constructor|].
  cbn [load_history]. unfold dates, sort_values; cbn [rows].
  apply (StronglySorted_fmap date date_le Z.le); [done|].
  apply (StronglySorted_merge_sort date_le).
Qed.

Lemma ascending_load_history file :
  NoDup (stored_dates file) → ascending (load_history upper file).
Proof.
  intros Hnd. destruct (load_history_sorted file) as [Hs Hp].
  apply StronglySorted_le_NoDup; [done | by rewrite Hp].
Qed.

(** X20.  The values of a stored table are loaded under the upper-cased
    column names: when no two columns get the same upper-cased name, every
    row of the file is found at its date with, in the column [upper c], the
    value the file has in column [c]. *)
Theorem load_history_cells df r c :
  NoDup (dates df) →
  NoDup (upper <$> columns df) →
  r ∈ rows df →
  c ∈ columns df →
  ∃ r', row_at (date r) (load_history upper (Stored df)) = Some r' ∧
        cells r' !! upper c = Some (cell r c).
Proof.
  intros Hnd Hcols Hr Hc. cbn [load_history].
  rewrite row_at_sort_values by (by rewrite dates_rename_columns).
  unfold row_at, rename_columns; cbn [rows].
  rewrite find_row_fmap by done. rewrite (find_row_NoDup (rows df) r) by done.
  eexists. split; [done|]. cbn [cells].
  apply elem_of_list_to_map_1.
  - by rewrite <-list_fmap_compose.
  - apply list_elem_of_fmap. by exists c.
Qed.

End Flows.

Lemma load_history_cells_witness :
  ∃ r', row_at d2024_01_01 (load_history ascii_upper (Stored file_lowercase))
        = Some r' ∧
        cells r' !! ascii_upper "usd"
        = Some (cell (mkrow d2024_01_01 [("usd", f1_10); ("pln", f4_35)]) "usd").
Proof.
  apply (load_history_cells ascii_upper file_lowercase
           (mkrow d2024_01_01 [("usd", f1_10); ("pln", f4_35)]) "usd").
  - by_computation.
  - by_computation.
  - vm_compute. right. left.
  - by_computation.
Defined.

Lemma upsert_daily_row_ascending history today_row res :
  ascending history →
  (length (rows today_row) ≤ 1)%nat →
  upsert_daily_row history today_row = Ok res →
  ascending res.
Proof.
  intros Hasc Hlen Hres.
  pose proof (upsert_daily_row_NoDup history today_row res
                (ascending_NoDup _ Hasc) Hlen Hres) as Hnd.
  destruct (rows today_row) as [|r0 rest] eqn:E.
  - rewrite upsert_daily_row_empty in Hres by done. by injection Hres as <-.
  - destruct (decide (date r0 ∈ dates history)) as [Hd|Hd].
    + rewrite (upsert_daily_row_present _ _ r0 rest) in Hres by done.
      by injection Hres as <-.
    + rewrite (upsert_daily_row_absent _ _ r0 rest) in Hres by done.
      case_decide; [|done]. injection Hres as <-.
      by apply ascending_sorted.
Qed.

Lemma compute_pln_rates_ascending df targets out :
  NoDup (dates df) → compute_pln_rates df targets = Ok out → ascending out.
Proof.
  intros Hnd Hout.
  pose proof (compute_pln_rates_NoDup df targets out Hnd Hout) as Hnd'.
  unfold compute_pln_rates in Hout. repeat case_decide; try done.
  injection Hout as <-. by apply ascending_sorted.
Qed.

Lemma add_missing_columns_no_rows (today_cols cols : list string) :
  NoDup (cols ++ today_cols) →
  add_missing_columns today_cols {| columns := cols; rows := [] |}
  = {| columns := cols ++ today_cols; rows := [] |}.
Proof.
  revert cols. induction today_cols as [|c tc IH]; intros cols Hnd.
  - by rewrite app_nil_r.
  - change (add_missing_columns (c :: tc) {| columns := cols; rows := [] |})
      with (add_missing_columns tc
              (if decide (c ∈ cols) then {| columns := cols; rows := [] |}
               else add_column c {| columns := cols; rows := [] |})).
    apply NoDup_app in Hnd as (Hcols & Hdisj & Htc).
    rewrite decide_False by (intros Hc; apply (Hdisj c Hc); left).
    unfold add_column; cbn [columns rows fmap list_fmap].
    rewrite IH; [by rewrite <-app_assoc|].
    apply NoDup_cons in Htc as [Hc Htc].
    apply NoDup_app. split_and!; [|  |done].
    + apply NoDup_app. split_and!; [done| |apply NoDup_singleton].
      intros x Hx E%list_elem_of_singleton. subst x. apply (Hdisj c Hx). left.
    + intros x Hx Hx'. apply elem_of_app in Hx as [Hx|Hx].
      * apply (Hdisj x Hx). by right.
      * apply list_elem_of_singleton in Hx. by subst x.
Qed.

(** X21.  The first daily run: with no history file, the history after the
    merge is the fetched observation itself, its one row and its columns in
    the order of the feed. *)
Theorem first_daily_run upper today_row o :
  rows today_row = [o] →
  rectangular today_row →
  NoDup (columns today_row) →
  upsert_daily_row (load_history upper NoFile) today_row = Ok today_row.
Proof.
  intros Hrows Hrect Hcols. cbn [load_history].
  rewrite (upsert_daily_row_absent empty_history today_row o []);
    [|done|by intros ?%elem_of_nil].
  rewrite decide_True by (apply select_today_columns; by intros c ?%elem_of_nil).
  f_equal. unfold daily_inserted, empty_history.
  rewrite (add_missing_columns_no_rows (columns today_row) []) by done.
  cbn [app columns rows]. unfold concat; cbn [columns rows fmap list_fmap app].
  rewrite filter_not_elem_of_self, app_nil_r, Hrows.
  unfold sort_values; cbn [columns rows fmap list_fmap].
  destruct today_row as [cols rs]; cbn [columns rows] in *. subst rs. f_equal.
  assert (dom (cells o) = list_to_set cols) as Hdom.
  { unfold rectangular in Hrect; cbn [rows columns] in Hrect.
    by apply Forall_cons in Hrect as [? _]. }
  rewrite (reindex_row_dom cols o) by done.
  by rewrite (reindex_row_dom cols o) by done.
Qed.

Lemma first_daily_run_witness :
  upsert_daily_row (load_history ascii_upper NoFile) obs_A = Ok obs_A.
Proof.
  apply (first_daily_run ascii_upper obs_A
           (mkrow d2024_01_02 [("PLN", f4_35); ("USD", f1_10)])).
  - reflexivity.
  - by_computation.
  - by_computation.
Defined.

(** X22.  The daily flow writes the merged history before it derives the
    PLN table: when the merged history has no PLN column the run ends with
    status 1 after the history file has been written, and neither the PLN
    table nor the dashboard is. *)
Theorem main_daily_without_PLN upper file today_row hist :
  upsert_daily_row (load_history upper file) today_row = Ok hist →
  "PLN" ∉ columns hist →
  main_daily upper file (Some today_row) = ([EnsureDirs; WriteHistRaw hist], 1).
Proof.
  intros Hmerge HPLN. unfold main_daily. rewrite Hmerge.
  unfold compute_pln_rates. by rewrite decide_False.
Qed.

Lemma main_daily_without_PLN_witness :
  main_daily ascii_upper (Stored file_no_PLN) (Some obs_jan2_xyz)
  = ([EnsureDirs;
      WriteHistRaw
        {| columns := ["USD"; "XYZ"];
           rows := [mkrow d2024_01_01 [("USD", f1_10); ("XYZ", nan)];
                    mkrow d2024_01_02 [("USD", f1_12); ("XYZ", f6_0)]] |}], 1).
Proof.
  apply (main_daily_without_PLN ascii_upper (Stored file_no_PLN) obs_jan2_xyz).
  - vm_compute. reflexivity.
  - by_computation.
Defined.

(** X23.  The daily flow keeps the files in date order: when the stored
    history has no date twice and the fetch delivers one row at most, every
    table a run writes, the history and the PLN table, has its rows
    strictly ascending by date, whether the run ends with status 0 or 1. *)
Theorem main_daily_writes_ascending upper file fetched e :
  NoDup (stored_dates file) →
  (∀ today_row, fetched = Some today_row → (length (rows today_row) ≤ 1)%nat) →
  e ∈ (main_daily upper file fetched).1 →
  writes_ascending e.
Proof.
  intros Hfile Hone. unfold main_daily.
  destruct fetched as [today_row|]; [|by intros ->%list_elem_of_singleton].
  destruct (upsert_daily_row (load_history upper file) today_row) as [hist|err]
    eqn:Hmerge; [|by intros ->%list_elem_of_singleton].
  assert (ascending hist) as Hhist.
  { apply (upsert_daily_row_ascending (load_history upper file) today_row);
      [by apply ascending_load_history | by apply Hone | done]. }
  destruct (compute_pln_rates hist TARGETS) as [df_pln|err] eqn:Hpln.
  - pose proof (compute_pln_rates_ascending hist TARGETS df_pln
                  (ascending_NoDup _ Hhist) Hpln) as Hp.
    destruct (make_dashboard df_pln TARGETS CHART_LAST_N_DAYS); cbn [fst];
      intros He; repeat (apply elem_of_cons in He as [->|He]; [done|]);
      by apply elem_of_nil in He.
  - cbn [fst]. intros He. repeat (apply elem_of_cons in He as [->|He]; [done|]).
    by apply elem_of_nil in He.
Qed.

Lemma main_daily_writes_ascending_witness :
  writes_ascending
    (WriteHistRaw
       {| columns := ["USD"; "PLN"];
          rows := [mkrow d2024_01_01 [("USD", f1_10); ("PLN", f4_35)];
                   mkrow d2024_01_02 [("USD", f1_12); ("PLN", f4_35)]] |}).
Proof.
  apply (main_daily_writes_ascending ascii_upper (Stored file_lowercase)
           (Some {| columns := ["USD"; "PLN"];
                    rows := [mkrow d2024_01_02 [("USD", f1_12); ("PLN", f4_35)]] |})).
  - by_computation.
  - intros today_row [= <-]. vm_compute. lia.
  - vm_compute. right. left.
Defined.

(** X24.  The backfill flow writes the history in date order even when the
    merge hands the batch back as it came: [save_history] sorts before it
    writes.  With no repeated date in the stored history and in the batch,
    every table a run writes has its rows strictly ascending by date. *)
Theorem main_backfill_writes_ascending upper file fetched e :
  NoDup (stored_dates file) →
  (∀ last90, fetched = Some last90 → NoDup (dates last90)) →
  e ∈ (main_backfill upper file fetched).1 →
  writes_ascending e.
Proof.
  intros Hfile Hbatch. unfold main_backfill.
  destruct fetched as [last90|]; [|by intros ->%list_elem_of_singleton].
  destruct (upsert_90d_into_history (load_history upper file) last90)
    as [merged|err] eqn:Hmerge; [|by intros ->%list_elem_of_singleton].
  assert (NoDup (dates merged)) as Hnd.
  { apply (upsert_90d_NoDup (load_history upper file) last90);
      [by rewrite dates_load_history | by apply Hbatch | done]. }
  assert (ascending (sort_values merged)) as Hsaved
    by (by apply ascending_sort_values).
  destruct (compute_pln_rates merged TARGETS) as [df_pln|err] eqn:Hpln; cbn [fst].
  - pose proof (compute_pln_rates_ascending merged TARGETS df_pln Hnd Hpln) as Hp.
    intros He. repeat (apply elem_of_cons in He as [->|He]; [done|]).
    by apply elem_of_nil in He.
  - intros He. repeat (apply elem_of_cons in He as [->|He]; [done|]).
    by apply elem_of_nil in He.
Qed.

Lemma main_backfill_writes_ascending_witness :
  writes_ascending
    (WriteHistRaw
       {| columns := ["USD"];
          rows := [mkrow d2024_01_01 [("USD", f1_10)];
                   mkrow d2024_01_03 [("USD", f1_12)]] |}).
Proof.
  apply (main_backfill_writes_ascending ascii_upper NoFile (Some hist_unsorted)).
  - by_computation.
  - intros last90 [= <-]. by_computation.
  - vm_compute. right. left.
Defined.

(** * The feeds *)

Section Feeds.

Variable py : python.

Lemma dict_set_keys k v (d : list (string * float)) x :
  x ∈ (dict_set k v d).*1 ↔ x = k ∨ x ∈ d.*1.
Proof.
  induction d as [|[k' v'] d IH]; cbn [dict_set].
  - rewrite fmap_cons. cbn. rewrite list_elem_of_singleton, elem_of_nil. tauto.
  - case_decide as E.
    + subst k'. rewrite !fmap_cons. cbn. rewrite !elem_of_cons. tauto.
    + rewrite !fmap_cons. cbn. rewrite !elem_of_cons, IH. tauto.
Qed.

Lemma dict_set_NoDup k v (d : list (string * float)) :
  NoDup d.*1 → NoDup (dict_set k v d).*1.
Proof.
  induction d as [|[k' v'] d IH]; cbn [dict_set]; intros Hnd.
  - rewrite fmap_cons. cbn. apply NoDup_singleton.
  - rewrite fmap_cons in Hnd. cbn in Hnd. apply NoDup_cons in Hnd as [Hk' Hnd].
    case_decide as E.
    + subst k'. rewrite fmap_cons. cbn. by apply NoDup_cons.
    + rewrite fmap_cons. cbn. apply NoDup_cons. split; [|by apply IH].
      rewrite dict_set_keys. intros [?|?]; [by subst|done].
Qed.

Lemma dict_set_list_to_map k v (d : list (string * float)) :
  NoDup d.*1 →
  (list_to_map (dict_set k v d) : gmap string float) = <[k := v]> (list_to_map d).
Proof.
  induction d as [|[k' v'] d IH]; cbn [dict_set]; intros Hnd; [done|].
  rewrite fmap_cons in Hnd. cbn in Hnd. apply NoDup_cons in Hnd as [Hk' Hnd].
  case_decide as E.
  - subst k'. rewrite !list_to_map_cons. by rewrite insert_insert_eq.
  - rewrite !list_to_map_cons, IH by done. by apply insert_insert_ne.
Qed.

Lemma read_rate_NoDup rates n : NoDup rates.*1 → NoDup (read_rate py rates n).*1.
Proof.
  intros Hnd. unfold read_rate. case_decide; [|done].
  destruct (attrib n !! "currency"); [|done].
  destruct (attrib n !! "rate"); [|done]. by apply dict_set_NoDup.
Qed.

Lemma read_rate_keys rates n :
  (∀ k, k ∈ rates.*1 → k ≠ "date") →
  ∀ k, k ∈ (read_rate py rates n).*1 → k ≠ "date".
Proof.
  intros Hkeys k. unfold read_rate. case_decide; [|apply Hkeys].
  destruct (attrib n !! "currency"); [|apply Hkeys].
  destruct (attrib n !! "rate"); [|apply Hkeys].
  cbn zeta. rewrite dict_set_keys.
  intros [->|?]; [apply py_upper_not_date | by apply Hkeys].
Qed.

Lemma read_rates_loop_invariant (ns : list element) rates :
  NoDup rates.*1 → (∀ k, k ∈ rates.*1 → k ≠ "date") →
  NoDup (foldl (read_rate py) rates ns).*1
  ∧ ∀ k, k ∈ (foldl (read_rate py) rates ns).*1 → k ≠ "date".
Proof.
  revert rates. induction ns as [|n ns IH]; intros rates Hnd Hkeys; [done|].
  cbn [foldl]. apply IH; [by apply read_rate_NoDup | by apply read_rate_keys].
Qed.

Lemma read_rates_NoDup cube : NoDup (read_rates py cube).*1.
Proof.
  apply read_rates_loop_invariant; [apply NoDup_nil_2 | by intros k ?%elem_of_nil].
Qed.

Lemma read_rates_not_date cube : "date" ∉ (read_rates py cube).*1.
Proof.
  intros Hin.
  assert (∀ k : string, k ∈ ([] : list (string * float)).*1 → k ≠ "date") as H0
    by (by intros k ?%elem_of_nil).
  by apply (proj2 (read_rates_loop_invariant (children cube) []
                     (NoDup_nil_2) H0) "date" Hin).
Qed.

(** A later child that writes no rate for the key leaves its value. *)
Lemma read_rates_loop_keeps (ns : list element) rates k v :
  NoDup rates.*1 →
  (list_to_map rates : gmap string float) !! k = Some v →
  (∀ m c, m ∈ ns → ns_strip (tag m) = "Cube" →
          attrib m !! "currency" = Some c → is_Some (attrib m !! "rate") →
          py_upper py c ≠ k) →
  (list_to_map (foldl (read_rate py) rates ns) : gmap string float) !! k = Some v.
Proof.
  revert rates. induction ns as [|n ns IH]; intros rates Hnd Hv Hlater; [done|].
  cbn [foldl]. apply IH.
  - by apply read_rate_NoDup.
  - unfold read_rate. case_decide as Htag; [|done].
    destruct (attrib n !! "currency") as [c|] eqn:Hc; [|done].
    destruct (attrib n !! "rate") as [s|] eqn:Hs; [|done].
    cbn zeta. rewrite dict_set_list_to_map by done.
    rewrite lookup_insert_ne; [done|].
    apply (Hlater n c); [left|done|done|by rewrite Hs].
  - intros m c Hm. apply Hlater. by right.
Qed.

End Feeds.

(** ** The daily feed *)

(** X25.  What [fetch_ecb_daily_xml] returns is one observation: exactly one
    row, with a cell for each of its columns, no column twice, and no
    column that could be taken for the date column. *)
Theorem fetch_ecb_daily_xml_one_row py root df :
  fetch_ecb_daily_xml py root = Ok df →
  (∃ r, rows df = [r])
  ∧ rectangular df
  ∧ NoDup (columns df)
  ∧ "date" ∉ columns df.
Proof.
  unfold fetch_ecb_daily_xml.
  destruct (find_first is_dated_cube (iter root)) as [child|]; [|done].
  cbn zeta. case_decide; [done|].
  destruct (py_to_datetime py _) as [d|]; [|done].
  intros [= <-]. cbn [rows columns]. split_and!.
  - eauto.
  - unfold rectangular; cbn [rows columns]. apply Forall_cons. split; [|done].
    cbn [cells]. apply dom_list_to_map_L.
  - apply read_rates_NoDup.
  - apply read_rates_not_date.
Qed.

Lemma fetch_ecb_daily_xml_one_row_witness :
  (∃ r, rows row_of_feed_daily = [r])
  ∧ rectangular row_of_feed_daily
  ∧ NoDup (columns row_of_feed_daily)
  ∧ "date" ∉ columns row_of_feed_daily.
Proof.
  apply (fetch_ecb_daily_xml_one_row example_python feed_daily).
  vm_compute. reflexivity.
Defined.

(** X26.  The rate read for a currency.  When the first dated Cube of the
    tree has a date that parses, the fetch returns one row for that date;
    the last Cube child of that Cube that names the currency, in any case
    of letters, decides its rate: the cell under the upper-cased code is the
    rate read by [float], and NaN when the rate is not a number, which does
    not stop the fetch. *)
Theorem fetch_ecb_daily_xml_rate py root cube date_str d pre n post currency rate :
  find_first is_dated_cube (iter root) = Some cube →
  attrib cube !! "time" = Some date_str →
  date_str ≠ EmptyString →
  py_to_datetime py date_str = Some d →
  children cube = pre ++ n :: post →
  ns_strip (tag n) = "Cube" →
  attrib n !! "currency" = Some currency →
  attrib n !! "rate" = Some rate →
  (∀ m c, m ∈ post → ns_strip (tag m) = "Cube" →
          attrib m !! "currency" = Some c → is_Some (attrib m !! "rate") →
          py_upper py c ≠ py_upper py currency) →
  ∃ df r,
    fetch_ecb_daily_xml py root = Ok df ∧
    rows df = [r] ∧
    date r = d ∧
    cells r !! py_upper py currency = Some (default nan (py_float py rate)).
Proof.
  intros Hfirst Htime Hne Hdate Hchildren Htag Hccy Hrate Hlast.
  unfold fetch_ecb_daily_xml. rewrite Hfirst, Htime. cbn zeta.
  change (default EmptyString (Some date_str)) with date_str.
  rewrite decide_False, Hdate by done.
  eexists _, _. split_and!; [done..|]. cbn [cells].
  unfold read_rates. rewrite Hchildren, foldl_app. cbn [foldl].
  apply read_rates_loop_keeps; [| |done].
  - apply read_rate_NoDup.
    apply read_rates_loop_invariant; [apply NoDup_nil_2 | by intros k ?%elem_of_nil].
  - unfold read_rate at 1. rewrite decide_True, Hccy, Hrate by done. cbn zeta.
    rewrite dict_set_list_to_map; [apply lookup_insert_eq|].
    apply read_rates_loop_invariant; [apply NoDup_nil_2 | by intros k ?%elem_of_nil].
Qed.

Lemma fetch_ecb_daily_xml_rate_witness :
  py_float example_python "n/a" = None
  ∧ ∃ df r,
    fetch_ecb_daily_xml example_python feed_daily = Ok df ∧
    rows df = [r] ∧
    date r = d2024_01_02 ∧
    cells r !! py_upper example_python "PLN"
    = Some (default nan (py_float example_python "n/a")).
Proof.
  split; [vm_compute; reflexivity|].
  apply (fetch_ecb_daily_xml_rate example_python feed_daily
           (dated_cube "2024-01-02"
              [rate_cube "usd" "1.10"; rate_cube "PLN" "n/a"; rate_cube "USD" "1.12"])
           "2024-01-02" d2024_01_02
           [rate_cube "usd" "1.10"] (rate_cube "PLN" "n/a") [rate_cube "USD" "1.12"]
           "PLN" "n/a").
  - vm_compute. reflexivity.
  - vm_compute. reflexivity.
  - discriminate.
  - vm_compute. reflexivity.
  - reflexivity.
  - vm_compute. reflexivity.
  - vm_compute. reflexivity.
  - vm_compute. reflexivity.
  - intros m c Hm _ Hc _. apply list_elem_of_singleton in Hm as ->.
    vm_compute in Hc. injection Hc as <-. vm_compute. discriminate.
Defined.

Lemma find_first_None {A} (P : A → Prop) `{∀ x, Decision (P x)} (l : list A) :
  (∀ x, x ∈ l → ¬ P x) → find_first P l = None.
Proof.
  induction l as [|x l IH]; intros Hnone; [done|]. cbn [find_first].
  rewrite decide_False by (apply Hnone; left). apply IH. intros y Hy.
  apply Hnone. by right.
Qed.

Lemma filter_none {A} (P : A → Prop) `{∀ x, Decision (P x)} (l : list A) :
  (∀ x, x ∈ l → ¬ P x) → filter P l = [].
Proof.
  induction l as [|x l IH]; intros Hnone; [done|].
  rewrite filter_cons_False by (apply Hnone; left). apply IH. intros y Hy.
  apply Hnone. by right.
Qed.

(** X27.  A feed without a dated Cube: the daily fetch raises its
    ValueError, the 90-day fetch ends in the KeyError of
    [sort_values("date")] on a frame without columns. *)
Theorem fetch_without_dated_cube py root :
  (∀ e, e ∈ iter root → ¬ is_dated_cube e) →
  fetch_ecb_daily_xml py root = Raise ValueError
  ∧ fetch_ecb_90d_xml py root = Raise KeyError.
Proof.
  intros Hnone. split.
  - unfold fetch_ecb_daily_xml. by rewrite find_first_None.
  - unfold fetch_ecb_90d_xml. by rewrite filter_none.
Qed.

Lemma fetch_without_dated_cube_witness :
  fetch_ecb_daily_xml example_python feed_empty = Raise ValueError
  ∧ fetch_ecb_90d_xml example_python feed_empty = Raise KeyError.
Proof.
  apply (fetch_without_dated_cube example_python feed_empty).
  intros e He. vm_compute in He.
  repeat (apply elem_of_cons in He as [->|He]; [by_computation|]).
  by apply elem_of_nil in He.
Defined.

(** ** The 90-day feed *)

#[local] Instance feeds_date_le_total : Total date_le.
Proof. intros r1 r2. unfold date_le. lia. Qed.

#[local] Instance feeds_date_le_trans : Transitive date_le.
Proof. intros r1 r2 r3. unfold date_le. lia. Qed.

Lemma elem_of_drop_duplicates_last (l : list Row) r :
  r ∈ drop_duplicates_last l → r ∈ l.
Proof.
  induction l as [|x l IH]; [done|]. cbn [drop_duplicates_last].
  case_decide; [intros ?; right; by apply IH|].
  intros [->|?]%elem_of_cons; [left | right; by apply IH].
Qed.

Lemma dates_drop_duplicates_last (l : list Row) d :
  d ∈ date <$> drop_duplicates_last l ↔ d ∈ date <$> l.
Proof.
  induction l as [|x l IH]; [done|]. cbn [drop_duplicates_last].
  case_decide as Hx; rewrite !fmap_cons, ?elem_of_cons, IH.
  - split; [by right|]. intros [->|?]; done.
  - done.
Qed.

Lemma NoDup_drop_duplicates_last (l : list Row) :
  NoDup (date <$> drop_duplicates_last l).
Proof.
  induction l as [|x l IH]; [constructor|]. cbn [drop_duplicates_last].
  case_decide as Hx; [done|]. rewrite fmap_cons. apply NoDup_cons.
  split; [|done]. by rewrite dates_drop_duplicates_last.
Qed.

Lemma StronglySorted_drop_duplicates_last (l : list Row) :
  StronglySorted date_le l → StronglySorted date_le (drop_duplicates_last l).
Proof.
  induction 1 as [|x l Hl IH Hx]; [constructor|]. cbn [drop_duplicates_last].
  case_decide; [done|]. constructor; [done|].
  apply Forall_forall. intros y Hy%elem_of_drop_duplicates_last.
  rewrite Forall_forall in Hx. by apply Hx.
Qed.

Lemma read_records_dates py cubes records d :
  read_records py cubes = Ok records →
  d ∈ records.*1
  ↔ ∃ cube, cube ∈ cubes
            ∧ py_to_datetime py (default EmptyString (attrib cube !! "time"))
              = Some d.
Proof.
  revert records. induction cubes as [|cube cubes IH]; intros records.
  - intros [= <-]. split; [by intros ?%elem_of_nil|].
    by intros (? & ?%elem_of_nil & _).
  - cbn [read_records].
    destruct (py_to_datetime py _) as [d0|] eqn:Hd0; [|done].
    destruct (read_records py cubes) as [recs|] eqn:Hrecs; [|done].
    cbn [bind]. intros [= <-]. rewrite fmap_cons. cbn [fst].
    rewrite elem_of_cons, (IH recs eq_refl). split.
    + intros [->|(c & Hc & Hdc)]; [exists cube; split; [left|done]|].
      exists c. split; [by right | done].
    + intros (c & [->|Hc]%elem_of_cons & Hdc); [left; congruence|].
      right. eauto.
Qed.

Lemma fetch_ecb_90d_xml_rows py root df :
  fetch_ecb_90d_xml py root = Ok df →
  ∃ records,
    read_records py (filter is_dated_cube (iter root)) = Ok records ∧
    records ≠ [] ∧
    ∃ l, rows df = drop_duplicates_last (merge_sort date_le l) ∧
         date <$> l = records.*1.
Proof.
  unfold fetch_ecb_90d_xml.
  destruct (read_records py _) as [records|] eqn:Hrecs; [|done]. cbn [bind].
  destruct records as [|rec records]; [done|]. intros [= <-].
  exists (rec :: records). split_and!; [done..|].
  set (df0 := {| columns := record_columns (rec :: records);
                 rows := (λ rec0, reindex_row (record_columns (rec :: records))
                                    {| date := rec0.1;
                                       cells := list_to_map rec0.2 |})
                           <$> rec :: records |}).
  exists (rows (rename_columns (py_upper py) df0)). split; [done|].
  change (dates (rename_columns (py_upper py) df0) = (rec :: records).*1).
  rewrite dates_rename_columns. unfold dates, df0; cbn [rows].
  rewrite <-list_fmap_compose. by apply list_fmap_ext.
Qed.

(** X28.  What [fetch_ecb_90d_xml] returns is a batch fit for the merge: at
    least one row, no date twice, rows strictly ascending by date, whatever
    the order and the repetitions of the days in the feed. *)
Theorem fetch_ecb_90d_xml_batch py root df :
  fetch_ecb_90d_xml py root = Ok df →
  rows df ≠ [] ∧ NoDup (dates df) ∧ ascending df.
Proof.
  intros Hdf.
  destruct (fetch_ecb_90d_xml_rows py root df Hdf)
    as (records & _ & Hne & l & Hrows & Hl).
  assert (NoDup (dates df)) as Hnd.
  { unfold dates. rewrite Hrows. apply NoDup_drop_duplicates_last. }
  split_and!; [|done|].
  - intros E. assert (dates df = []) as Hd by (unfold dates; by rewrite E).
    destruct records as [|rec records]; [done|].
    assert (rec.1 ∈ dates df) as Hin.
    { unfold dates. rewrite Hrows, dates_drop_duplicates_last.
      rewrite merge_sort_Permutation, Hl, fmap_cons. left. }
    rewrite Hd in Hin. by apply elem_of_nil in Hin.
  - apply StronglySorted_le_NoDup; [|done]. unfold dates. rewrite Hrows.
    apply (StronglySorted_fmap date date_le Z.le); [done|].
    apply StronglySorted_drop_duplicates_last.
    apply (StronglySorted_merge_sort date_le).
Qed.

Lemma fetch_ecb_90d_xml_batch_witness :
  rows batch_of_feed_90d ≠ []
  ∧ NoDup (dates batch_of_feed_90d)
  ∧ ascending batch_of_feed_90d.
Proof.
  apply (fetch_ecb_90d_xml_batch example_python feed_90d).
  vm_compute. reflexivity.
Defined.

(** X29.  The days of the batch are the days of the feed: a date is a row
    of what [fetch_ecb_90d_xml] returns exactly when it is the date of some
    dated Cube of the tree. *)
Theorem fetch_ecb_90d_xml_dates py root df d :
  fetch_ecb_90d_xml py root = Ok df →
  d ∈ dates df
  ↔ ∃ cube, cube ∈ iter root ∧ is_dated_cube cube
            ∧ py_to_datetime py (default EmptyString (attrib cube !! "time"))
              = Some d.
Proof.
  intros Hdf.
  destruct (fetch_ecb_90d_xml_rows py root df Hdf)
    as (records & Hrecs & _ & l & Hrows & Hl).
  unfold dates. rewrite Hrows, dates_drop_duplicates_last.
  rewrite merge_sort_Permutation, Hl.
  rewrite (read_records_dates py _ records d Hrecs). split.
  - intros (cube & [? ?]%list_elem_of_filter & ?). eauto.
  - intros (cube & ? & ? & ?). exists cube. split; [|done].
    by apply list_elem_of_filter.
Qed.

Lemma fetch_ecb_90d_xml_dates_witness :
  d2024_01_03 ∈ dates batch_of_feed_90d
  ↔ ∃ cube, cube ∈ iter feed_90d ∧ is_dated_cube cube
            ∧ py_to_datetime example_python
                (default EmptyString (attrib cube !! "time"))
              = Some d2024_01_03.
Proof.
  apply (fetch_ecb_90d_xml_dates example_python feed_90d).
  vm_compute. reflexivity.
Defined.

(** X30.  Fetch, then merge: the backfill merge of a fetched batch into a
    history without a repeated date never raises, and the merged history
    has no date twice. *)
Theorem upsert_90d_of_fetched py root last90 hist :
  fetch_ecb_90d_xml py root = Ok last90 →
  NoDup (dates hist) →
  ∃ res, upsert_90d_into_history hist last90 = Ok res ∧ NoDup (dates res).
Proof.
  intros Hfetch Hh.
  destruct (fetch_ecb_90d_xml_batch py root last90 Hfetch) as (_ & Hb & _).
  destruct (upsert_90d_into_history hist last90) as [res|err] eqn:Hres.
  - exists res. split; [done|]. by apply (upsert_90d_NoDup hist last90).
  - destruct (decide (rows hist = [])) as [E|Hne].
    + by rewrite upsert_90d_empty in Hres.
    + by rewrite upsert_90d_Ok in Hres.
Qed.

Lemma upsert_90d_of_fetched_witness :
  ∃ res, upsert_90d_into_history hist_usd batch_of_feed_90d = Ok res
         ∧ NoDup (dates res).
Proof.
  apply (upsert_90d_of_fetched example_python feed_90d batch_of_feed_90d hist_usd).
  - vm_compute. reflexivity.
  - by_computation.
Defined.
